(** * Pull_Assigner: reviewer assignment service

    A shallow embedding of [schem.py], [database.py], [interaction.py] and of
    the session handling of [endpoint.py].

    The SQLAlchemy session is modelled as explicit state: the rows the open
    transaction sees, the last committed rows, and the unit of work (objects
    added and attributes assigned but not flushed yet).  A query is evaluated
    by the database on the flushed rows and hands back the objects of the
    identity map, whose attributes are the ones assigned in memory.  The
    tables are lists: the position of a row stands for its rowid, the order
    in which SQLite returns the rows of a table scan.  A query whose WHERE
    clause fixes the first column of a two-column primary key is answered
    from the index of that key instead, in the order of the key. *)

From Stdlib Require Import String Ascii List Bool ZArith Lia Permutation.
Import ListNotations.
Open Scope string_scope.
Open Scope list_scope.

(* ================================================================== *)
(** * schem.py: the mapped classes *)
(* ================================================================== *)

Inductive PRStatus : Type := OPEN | MERGED.

Module PRStatus_.
(** [PRStatus.X.value] *)
Definition value (s : PRStatus) : string :=
  match s with OPEN => "OPEN" | MERGED => "MERGED" end.

Definition eqb (a b : PRStatus) : bool :=
  match a, b with
  | OPEN, OPEN | MERGED, MERGED => true
  | _, _ => false
  end.
End PRStatus_.

Module User.
Record t : Type := mk {
  user_id : string;
  username : string;
  is_active : bool
}.
Definition set_is_active (v : bool) (u : t) : t :=
  mk (user_id u) (username u) v.
End User.

Module Team.
Record t : Type := mk {
  team_name : string
}.
End Team.

Module TeamMember.
Record t : Type := mk {
  user_id : string;
  team_name : string;
  username : string;
  is_active : bool
}.
Definition set_is_active (v : bool) (m : t) : t :=
  mk (user_id m) (team_name m) (username m) v.
End TeamMember.

Module PullRequest.
Record t : Type := mk {
  pull_request_id : string;
  pull_request_name : string;
  author_id : string;
  status : PRStatus
}.
Definition set_status (v : PRStatus) (p : t) : t :=
  mk (pull_request_id p) (pull_request_name p) (author_id p) v.
End PullRequest.

Module PullRequestReviewer.
Record t : Type := mk {
  pull_request_id : string;
  user_id : string
}.
Definition set_user_id (v : string) (r : t) : t :=
  mk (pull_request_id r) v.
End PullRequestReviewer.

(** The primary key of a mapped class ([primary_key=True] columns). *)
Class Mapped (R : Type) : Type := {
  PK : Type;
  primary_key : R -> PK;
  pk_eqb : PK -> PK -> bool
}.

(** The comparison of keys decides their equality. *)
Class MappedLaws (R : Type) `{Mapped R} : Prop := {
  pk_eqb_eq : forall a b : PK, pk_eqb a b = true <-> a = b
}.

Definition pair_eqb (a b : string * string) : bool :=
  (fst a =? fst b) && (snd a =? snd b).

#[export] Instance Mapped_User : Mapped User.t :=
  {| PK := string; primary_key := User.user_id;
     pk_eqb := String.eqb |}.

#[export] Instance Mapped_Team : Mapped Team.t :=
  {| PK := string; primary_key := Team.team_name;
     pk_eqb := String.eqb |}.

#[export] Instance Mapped_TeamMember : Mapped TeamMember.t :=
  {| PK := string * string;
     primary_key := fun m => (TeamMember.user_id m, TeamMember.team_name m);
     pk_eqb := pair_eqb |}.

#[export] Instance Mapped_PullRequest : Mapped PullRequest.t :=
  {| PK := string; primary_key := PullRequest.pull_request_id;
     pk_eqb := String.eqb |}.

#[export] Instance Mapped_PullRequestReviewer : Mapped PullRequestReviewer.t :=
  {| PK := string * string;
     primary_key := fun r => (PullRequestReviewer.pull_request_id r,
                                PullRequestReviewer.user_id r);
     pk_eqb := pair_eqb |}.

(** The order of the index SQLite keeps for a primary key: the key columns
    in turn, text compared byte by byte (the BINARY collation). *)
Class Indexed (R : Type) `{Mapped R} : Type := {
  pk_leb : PK -> PK -> bool
}.

Definition pair_leb (a b : string * string) : bool :=
  if fst a =? fst b then String.leb (snd a) (snd b)
  else String.leb (fst a) (fst b).

#[export] Instance Indexed_User : Indexed User.t :=
  @Build_Indexed User.t Mapped_User String.leb.

#[export] Instance Indexed_Team : Indexed Team.t :=
  @Build_Indexed Team.t Mapped_Team String.leb.

#[export] Instance Indexed_TeamMember : Indexed TeamMember.t :=
  @Build_Indexed TeamMember.t Mapped_TeamMember pair_leb.

#[export] Instance Indexed_PullRequest : Indexed PullRequest.t :=
  @Build_Indexed PullRequest.t Mapped_PullRequest String.leb.

#[export] Instance Indexed_PullRequestReviewer :
  Indexed PullRequestReviewer.t :=
  @Build_Indexed PullRequestReviewer.t Mapped_PullRequestReviewer pair_leb.

(** Rows put in order: each row goes before the first row that is not
    smaller, so rows that compare equal keep the order they had. *)
Section Ordering.
Context {A : Type} (leb : A -> A -> bool).

Fixpoint insert_by (x : A) (l : list A) : list A :=
  match l with
  | [] => [x]
  | y :: l' => if leb x y then x :: l else y :: insert_by x l'
  end.

Definition sort_by (l : list A) : list A := fold_right insert_by [] l.
End Ordering.

(* ================================================================== *)
(** * The database: one list of rows per table *)
(* ================================================================== *)

Record Store : Type := mkStore {
  users : list User.t;                               (* table 'user' *)
  teams : list Team.t;                               (* table 'team' *)
  teammembers : list TeamMember.t;                   (* table 'teammember' *)
  pullrequests : list PullRequest.t;                 (* table 'pullrequest' *)
  pullrequestreviewers : list PullRequestReviewer.t  (* 'pullrequestreviewer' *)
}.

Definition empty_store : Store := mkStore [] [] [] [] [].

(** SQL statements on one table.  The only constraint the SQLite schema
    enforces is the uniqueness of the primary key; a violation is [None]. *)
Section Statements.
Context {R : Type} `{Mapped R}.

Definition has_pk (k : PK) (r : R) : bool := pk_eqb (primary_key r) k.

(** [INSERT INTO t VALUES r] *)
Definition sql_insert (r : R) (tbl : list R) : option (list R) :=
  if existsb (has_pk (primary_key r)) tbl then None else Some (tbl ++ [r]).

(** [UPDATE t SET ... WHERE pk = k]; the row keeps its place. *)
Definition sql_update (k : PK) (f : R -> R) (tbl : list R) : option (list R) :=
  if existsb (fun r => has_pk k r && negb (has_pk k (f r))
                       && existsb (has_pk (primary_key (f r))) tbl) tbl
  then None
  else Some (map (fun r => if has_pk k r then f r else r) tbl).

Definition and_then {A B} (o : option A) (f : A -> option B) : option B :=
  match o with Some a => f a | None => None end.

(** The statements of one mapper in a flush: the UPDATEs of the dirty
    objects, then the INSERTs of the new ones in the order they were added. *)
Definition flush_table (dirty : list (PK * (R -> R))) (new : list R)
    (tbl : list R) : option (list R) :=
  and_then
    (fold_left (fun acc d => and_then acc (sql_update (fst d) (snd d)))
               dirty (Some tbl))
    (fun tbl1 => fold_left (fun acc r => and_then acc (sql_insert r))
                           new (Some tbl1)).

(** The object the identity map holds for a row: the row with the
    attribute assignments made on it since it was loaded. *)
Definition in_memory (dirty : list (PK * (R -> R))) (r : R) : R :=
  fold_left (fun acc d => if has_pk (fst d) r then snd d acc else acc) dirty r.

Definition unique_pk (tbl : list R) : Prop := NoDup (map primary_key tbl).

(** The rows in the order of the primary-key index; rows of one key, which
    a table with a unique key does not have, in table order. *)
Definition index_order `{!Indexed R} (tbl : list R) : list R :=
  sort_by (fun a b => pk_leb (primary_key a) (primary_key b)) tbl.
End Statements.

(* ================================================================== *)
(** * The session (sqlalchemy.orm.Session) *)
(* ================================================================== *)

(** What the unit of work records between two flushes. *)
Inductive Write : Type :=
| New_user (u : User.t)
| New_team (t : Team.t)
| New_teammember (m : TeamMember.t)
| New_pullrequest (p : PullRequest.t)
| New_pullrequestreviewer (r : PullRequestReviewer.t)
| Dirty_user (k : string) (f : User.t -> User.t)
| Dirty_teammember (k : string * string) (f : TeamMember.t -> TeamMember.t)
| Dirty_pullrequest (k : string) (f : PullRequest.t -> PullRequest.t)
| Dirty_pullrequestreviewer (k : string * string)
    (f : PullRequestReviewer.t -> PullRequestReviewer.t).

Record Session : Type := mkSession {
  autoflush : bool;
  committed : Store;        (* what [rollback] returns to *)
  database : Store;         (* the rows the open transaction sees *)
  pending : list Write      (* the unit of work *)
}.

(** A mapped class knows its table and its part of the unit of work. *)
Class Table (R : Type) `{Mapped R} : Type := {
  rows : Store -> list R;
  new_of : list Write -> list R;
  dirty_of : list Write -> list (PK * (R -> R))
}.

#[export] Instance Table_User : Table User.t :=
  {| rows := users;
     new_of := flat_map (fun w => match w with New_user u => [u] | _ => [] end);
     dirty_of := flat_map (fun w => match w with
                                    | Dirty_user k f => [(k, f)] | _ => [] end) |}.

#[export] Instance Table_Team : Table Team.t :=
  {| rows := teams;
     new_of := flat_map (fun w => match w with New_team t => [t] | _ => [] end);
     dirty_of := fun _ => [] |}.

#[export] Instance Table_TeamMember : Table TeamMember.t :=
  {| rows := teammembers;
     new_of := flat_map (fun w => match w with
                                  | New_teammember m => [m] | _ => [] end);
     dirty_of := flat_map (fun w => match w with
                                    | Dirty_teammember k f => [(k, f)]
                                    | _ => [] end) |}.

#[export] Instance Table_PullRequest : Table PullRequest.t :=
  {| rows := pullrequests;
     new_of := flat_map (fun w => match w with
                                  | New_pullrequest p => [p] | _ => [] end);
     dirty_of := flat_map (fun w => match w with
                                    | Dirty_pullrequest k f => [(k, f)]
                                    | _ => [] end) |}.

#[export] Instance Table_PullRequestReviewer : Table PullRequestReviewer.t :=
  {| rows := pullrequestreviewers;
     new_of := flat_map (fun w => match w with
                                  | New_pullrequestreviewer r => [r]
                                  | _ => [] end);
     dirty_of := flat_map (fun w => match w with
                                    | Dirty_pullrequestreviewer k f => [(k, f)]
                                    | _ => [] end) |}.

(** The SQL of one flush, mapper by mapper in the order of the foreign keys. *)
Definition flush_mapper (R : Type) `{Table R} (w : list Write) (s : Store)
    : option (list R) :=
  flush_table (dirty_of w) (new_of w) (rows s).

Definition flush_store (w : list Write) (s : Store) : option Store :=
  and_then (flush_mapper User.t w s) (fun us =>
  and_then (flush_mapper Team.t w s) (fun ts =>
  and_then (flush_mapper TeamMember.t w s) (fun ms =>
  and_then (flush_mapper PullRequest.t w s) (fun ps =>
  and_then (flush_mapper PullRequestReviewer.t w s) (fun rs =>
  Some (mkStore us ts ms ps rs)))))).

Inductive Exception : Type :=
| IntegrityError      (* sqlalchemy.exc.IntegrityError *)
| OtherException.

Inductive Outcome (A : Type) : Type :=
| Return (a : A)
| Raise (e : Exception).
Arguments Return {A} a.
Arguments Raise {A} e.

Definition Tx (A : Type) : Type := Session -> Session * Outcome A.

Definition ret {A} (a : A) : Tx A := fun db => (db, Return a).

Definition bind {A B} (m : Tx A) (k : A -> Tx B) : Tx B :=
  fun db =>
    match m db with
    | (db', Return a) => k a db'
    | (db', Raise e) => (db', Raise e)
    end.

Declare Scope tx_scope.
Delimit Scope tx_scope with tx.
Notation "x <- m ;; k" := (bind m (fun x => k))
  (at level 100, m at next level, right associativity) : tx_scope.
Notation "m ;; k" := (bind m (fun _ => k))
  (at level 100, right associativity) : tx_scope.
Open Scope tx_scope.

(** [try: body except e: handler e] *)
Definition try_except {A} (body : Tx A) (handler : Exception -> Tx A) : Tx A :=
  fun db =>
    match body db with
    | (db', Return a) => (db', Return a)
    | (db', Raise e) => handler e db'
    end.

(** [for x in l: body x] *)
Fixpoint for_each {A} (l : list A) (body : A -> Tx unit) : Tx unit :=
  match l with
  | [] => ret tt
  | x :: l' => body x ;; for_each l' body
  end.

(** [for x in l: body] where the body appends to a local list [acc]. *)
Fixpoint for_fold {A S} (l : list A) (acc : S) (body : S -> A -> Tx S) : Tx S :=
  match l with
  | [] => ret acc
  | x :: l' => acc' <- body acc x ;; for_fold l' acc' body
  end.

(** [db.flush()] *)
Definition flush : Tx unit := fun db =>
  match flush_store (pending db) (database db) with
  | Some d => (mkSession (autoflush db) (committed db) d [], Return tt)
  | None => (db, Raise IntegrityError)
  end.

(** [db.commit()] *)
Definition commit : Tx unit :=
  flush ;;
  fun db => (mkSession (autoflush db) (database db) (database db) [], Return tt).

(** [db.rollback()] *)
Definition rollback : Tx unit := fun db =>
  (mkSession (autoflush db) (committed db) (committed db) [], Return tt).

Definition _autoflush : Tx unit := fun db =>
  if autoflush db then flush db else (db, Return tt).

Definition record (w : Write) : Tx unit := fun db =>
  (mkSession (autoflush db) (committed db) (database db) (pending db ++ [w]),
   Return tt).

(** [db.add(obj)] *)
Definition add (w : Write) : Tx unit := record w.

(** [obj.attr = v] on an object loaded by this session; [k] is the identity
    key under which the object was loaded. *)
Definition setattr (w : Write) : Tx unit := record w.

(** [db.query(R).filter(where_)]: the WHERE clause is evaluated on the rows
    of the database, the result is the list of in-memory objects, in table
    order. *)
Definition query (R : Type) `{Table R} (where_ : R -> bool) : Tx (list R) :=
  _autoflush ;;
  fun db => (db, Return (map (in_memory (dirty_of (pending db)))
                             (filter where_ (rows (database db))))).

(** [db.query(R).filter(where_)] when the WHERE clause fixes the first
    column of the primary key (user_id of teammember, pull_request_id of
    pullrequestreviewer): SQLite searches the index of the key, so the rows
    come in the order of the key, that is of its second column.  [query] is
    kept for the table scans and for the lookups by a whole key, whose rows
    all have one key and come in table order either way. *)
Definition query_by_key (R : Type) {M : Mapped R} {T : @Table R M}
    {I : @Indexed R M} (where_ : R -> bool) : Tx (list R) :=
  _autoflush ;;
  fun db => (db, Return (map (in_memory (dirty_of (pending db)))
                             (index_order
                                (filter where_ (rows (database db)))))).

Definition all {R} (q : Tx (list R)) : Tx (list R) := q.

Definition first {R} (q : Tx (list R)) : Tx (option R) :=
  l <- q ;; ret (hd_error l).

Definition limit {R} (n : nat) (q : Tx (list R)) : Tx (list R) :=
  l <- q ;; ret (firstn n l).

(** [db.merge(user)]: update the persistent object with that key when there
    is one, otherwise make a new pending object.  An object that is only
    pending is in neither the identity map nor the database. *)
Definition merge (u : User.t) : Tx unit :=
  _autoflush ;;
  fun db =>
    if existsb (has_pk (primary_key u)) (rows (database db))
    then record (Dirty_user (primary_key u) (fun _ => u)) db
    else record (New_user u) db.

(* ================================================================== *)
(** * database.py and endpoint.py: how a request gets its session *)
(* ================================================================== *)

(** [SessionLocal = sessionmaker(autocommit=False, autoflush=False, ...)] *)
Definition SessionLocal (s : Store) : Session := mkSession false s s [].

(** [get_db]: open a session, run the operation, close the session; what is
    not committed by then is lost. *)
Definition request {A} (op : Tx A) (s : Store) : Store * Outcome A :=
  let (db, r) := op (SessionLocal s) in (committed db, r).

(* ================================================================== *)
(** * datetime.now().isoformat() *)
(* ================================================================== *)

Module datetime.
Record t : Type := mk {
  year : Z; month : Z; day : Z;
  hour : Z; minute : Z; second : Z; microsecond : Z
}.

(** The values a [datetime] object can hold. *)
Definition valid (d : t) : Prop :=
  (1 <= year d <= 9999 /\ 1 <= month d <= 12 /\ 1 <= day d <= 31 /\
   0 <= hour d < 24 /\ 0 <= minute d < 60 /\ 0 <= second d < 60 /\
   0 <= microsecond d < 1000000)%Z.

Definition digit (n : Z) : ascii :=
  match (n mod 10)%Z with
  | 0 => "0" | 1 => "1" | 2 => "2" | 3 => "3" | 4 => "4"
  | 5 => "5" | 6 => "6" | 7 => "7" | 8 => "8" | _ => "9"
  end%Z%char.

(** ["%02d" % n] and its wider variants, prepended to [rest]. *)
Definition d2 (n : Z) (rest : string) : string :=
  String (digit (n / 10)) (String (digit n) rest).
Definition d4 (n : Z) (rest : string) : string :=
  d2 (n / 100) (d2 n rest).
Definition d6 (n : Z) (rest : string) : string :=
  d2 (n / 10000) (d4 n rest).

(** [d.isoformat()]: [YYYY-MM-DDTHH:MM:SS], followed by [.ffffff] when the
    microseconds are not zero. *)
Definition isoformat (d : t) : string :=
  d4 (year d) (String "-" (d2 (month d) (String "-" (d2 (day d)
    (String "T" (d2 (hour d) (String ":" (d2 (minute d) (String ":"
      (d2 (second d)
        (if Z.eqb (microsecond d) 0 then EmptyString
         else String "." (d6 (microsecond d) EmptyString)))))))))))).
End datetime.

(* ================================================================== *)
(** * interaction.py *)
(* ================================================================== *)

(** The codes of the ["error"] dictionaries.  The free-text ["message"] is
    not modelled. *)
Inductive ErrorCode : Type :=
| TEAM_EXISTS | TEAM_NOT_FOUND | USER_NOT_FOUND
| PR_EXISTS | AUTHOR_NOT_FOUND | PR_NOT_FOUND
| PR_MERGED | NOT_ASSIGNED | USER_NOT_IN_TEAM | NO_CANDIDATE
| INTEGRITY_ERROR | SERVER_ERROR.

(** [{"success": True, ...}] or [{"success": False, "error": {...}}] *)
Inductive Response (A : Type) : Type :=
| Success (payload : A)
| Failure (code : ErrorCode).
Arguments Success {A} payload.
Arguments Failure {A} code.

(** Request bodies (the pydantic models of endpoint.py, as dictionaries). *)
Module MemberData.
Record t : Type := mk { user_id : string; username : string; is_active : bool }.
End MemberData.

Module TeamCreate.
Record t : Type := mk { team_name : string; members : list MemberData.t }.
End TeamCreate.

Module UserActive.
Record t : Type := mk { user_id : string; is_active : bool }.
End UserActive.

Module PRCreate.
Record t : Type := mk {
  pull_request_id : string; pull_request_name : string; author_id : string
}.
End PRCreate.

Module PRMerge.
Record t : Type := mk { pull_request_id : string }.
End PRMerge.

Module PRReassign.
Record t : Type := mk { pull_request_id : string; old_user_id : string }.
End PRReassign.

(** Response payloads. *)
Module TeamOut.
Record t (M : Type) : Type := mk { team_name : string; members : list M }.
Arguments mk {M}.
Arguments team_name {M}.
Arguments members {M}.
End TeamOut.

Module UserOut.
Record t : Type := mk {
  user_id : string; username : string;
  team_name : option string;      (* [None] is Python's None *)
  is_active : bool
}.
End UserOut.

Module PROut.
Record t : Type := mk {
  pull_request_id : string;
  pull_request_name : string;
  author_id : string;
  status : string;
  assigned_reviewers : list string;
  mergedAt : option string        (* the key is absent outside merge *)
}.
End PROut.

Module PRShortOut.
Record t : Type := mk {
  pull_request_id : string;
  pull_request_name : string;
  author_id : string;
  status : string
}.
End PRShortOut.

Module ReviewOut.
Record t : Type := mk { user_id : string; pull_requests : list PRShortOut.t }.
End ReviewOut.

Module ReassignOut.
Record t : Type := mk { pr : PROut.t; replaced_by : string }.
End ReassignOut.

Definition is_true (b : bool) : bool := Bool.eqb b true.
Definition neqb (a b : string) : bool := negb (a =? b).
Definition not_in (a : string) (l : list string) : bool :=
  negb (existsb (String.eqb a) l).

Definition create_team_with_members (team_data : TeamCreate.t)
    : Tx (Response (TeamOut.t TeamMember.t)) :=
  let team_name := TeamCreate.team_name team_data in
  let members_data := TeamCreate.members team_data in
  try_except
    ((* 1 *)
     existing_team <- first (query Team.t
                          (fun t => Team.team_name t =? team_name)) ;;
     match existing_team with
     | Some _ => ret (Failure TEAM_EXISTS)
     | None =>
       (* 2 *)
       let team := Team.mk team_name in
       add (New_team team) ;;
       flush ;;
       (* 3 *)
       created_members <- for_fold members_data []
         (fun created_members member_data =>
            let user_id := MemberData.user_id member_data in
            let username := MemberData.username member_data in
            let is_active := MemberData.is_active member_data in
            (* 4 *)
            let user := User.mk user_id username is_active in
            merge user ;;
            (* 5 *)
            let team_member :=
              TeamMember.mk user_id team_name username is_active in
            add (New_teammember team_member) ;;
            ret (created_members
                   ++ [TeamMember.mk user_id team_name username is_active])) ;;
       (* 6 *)
       commit ;;
       ret (Success (TeamOut.mk team_name created_members))
     end)
    (fun e =>
       match e with
       | IntegrityError => rollback ;; ret (Failure INTEGRITY_ERROR)
       | _ => rollback ;; ret (Failure SERVER_ERROR)
       end).

Definition get_team_with_members (team_name : string)
    : Tx (Response (TeamOut.t MemberData.t)) :=
  try_except
    ((* 1 *)
     team <- first (query Team.t (fun t => Team.team_name t =? team_name)) ;;
     match team with
     | None => ret (Failure TEAM_NOT_FOUND)
     | Some _ =>
       (* 2 *)
       team_members <- all (query TeamMember.t
                         (fun m => (TeamMember.team_name m =? team_name)
                                   && is_true (TeamMember.is_active m))) ;;
       (* 3 *)
       let members_list :=
         map (fun member => MemberData.mk (TeamMember.user_id member)
                                          (TeamMember.username member)
                                          (TeamMember.is_active member))
             team_members in
       (* 4 *)
       ret (Success (TeamOut.mk team_name members_list))
     end)
    (fun e => ret (Failure SERVER_ERROR)).

Definition set_user_active_flag (user_data : UserActive.t)
    : Tx (Response UserOut.t) :=
  let user_id := UserActive.user_id user_data in
  let is_active := UserActive.is_active user_data in
  try_except
    ((* 1 *)
     user <- first (query User.t (fun u => User.user_id u =? user_id)) ;;
     match user with
     | None => ret (Failure USER_NOT_FOUND)
     | Some user =>
       (* 2 *)
       setattr (Dirty_user (primary_key user) (User.set_is_active is_active)) ;;
       let user := User.set_is_active is_active user in
       (* 3 *)
       team_memberships <- all (query_by_key TeamMember.t
                             (fun m => TeamMember.user_id m =? user_id)) ;;
       for_each team_memberships
         (fun membership =>
            setattr (Dirty_teammember (primary_key membership)
                                      (TeamMember.set_is_active is_active))) ;;
       (* 4 *)
       user_team <- first (query_by_key TeamMember.t
                      (fun m => (TeamMember.user_id m =? user_id)
                                && is_true (TeamMember.is_active m))) ;;
       let team_name := option_map TeamMember.team_name user_team in
       (* 5 *)
       commit ;;
       (* 6 *)
       ret (Success (UserOut.mk (User.user_id user) (User.username user)
                                team_name (User.is_active user)))
     end)
    (fun e => rollback ;; ret (Failure SERVER_ERROR)).

Definition create_pull_request_with_reviewers (pr_data : PRCreate.t)
    : Tx (Response PROut.t) :=
  let pull_request_id := PRCreate.pull_request_id pr_data in
  let pull_request_name := PRCreate.pull_request_name pr_data in
  let author_id := PRCreate.author_id pr_data in
  try_except
    ((* 1 *)
     existing_pr <- first (query PullRequest.t
                        (fun p => PullRequest.pull_request_id p
                                  =? pull_request_id)) ;;
     match existing_pr with
     | Some _ => ret (Failure PR_EXISTS)
     | None =>
       (* 2 *)
       author <- first (query User.t
                     (fun u => (User.user_id u =? author_id)
                               && is_true (User.is_active u))) ;;
       match author with
       | None => ret (Failure AUTHOR_NOT_FOUND)
       | Some _ =>
         (* 3 *)
         author_team_member <- first (query_by_key TeamMember.t
                                 (fun m => (TeamMember.user_id m =? author_id)
                                           && is_true (TeamMember.is_active m))) ;;
         match author_team_member with
         | None => ret (Failure TEAM_NOT_FOUND)
         | Some author_team_member =>
           let team_name := TeamMember.team_name author_team_member in
           (* 4 *)
           potential_reviewers <- all (limit 2 (query TeamMember.t
                                    (fun m => (TeamMember.team_name m =? team_name)
                                              && neqb (TeamMember.user_id m) author_id
                                              && is_true (TeamMember.is_active m)))) ;;
           (* 5 *)
           let new_pr := PullRequest.mk pull_request_id pull_request_name
                                        author_id OPEN in
           add (New_pullrequest new_pr) ;;
           flush ;;
           (* 6 *)
           assigned_reviewer_ids <- for_fold potential_reviewers []
             (fun assigned_reviewer_ids reviewer =>
                let pr_reviewer :=
                  PullRequestReviewer.mk pull_request_id
                                         (TeamMember.user_id reviewer) in
                add (New_pullrequestreviewer pr_reviewer) ;;
                ret (assigned_reviewer_ids ++ [TeamMember.user_id reviewer])) ;;
           (* 7 *)
           commit ;;
           (* 8 *)
           ret (Success (PROut.mk pull_request_id pull_request_name author_id
                                  "OPEN" assigned_reviewer_ids None))
         end
       end
     end)
    (fun e =>
       match e with
       | IntegrityError => rollback ;; ret (Failure INTEGRITY_ERROR)
       | _ => rollback ;; ret (Failure SERVER_ERROR)
       end).

(** [now] is what [datetime.now()] returns when the response is built. *)
Definition merge_pull_request (now : datetime.t) (pr_data : PRMerge.t)
    : Tx (Response PROut.t) :=
  let pull_request_id := PRMerge.pull_request_id pr_data in
  try_except
    ((* 1 *)
     pr <- first (query PullRequest.t
               (fun p => PullRequest.pull_request_id p =? pull_request_id)) ;;
     match pr with
     | None => ret (Failure PR_NOT_FOUND)
     | Some pr =>
       (* 2 *)
       reviewers <- all (query_by_key PullRequestReviewer.t
                      (fun r => PullRequestReviewer.pull_request_id r
                                =? pull_request_id)) ;;
       let reviewer_ids := map PullRequestReviewer.user_id reviewers in
       (* 3 *)
       if PRStatus_.eqb (PullRequest.status pr) MERGED then
         ret (Success (PROut.mk (PullRequest.pull_request_id pr)
                                (PullRequest.pull_request_name pr)
                                (PullRequest.author_id pr)
                                "MERGED" reviewer_ids
                                (Some (datetime.isoformat now ++ "Z")%string)))
       else
         (* 4 *)
         setattr (Dirty_pullrequest (primary_key pr)
                                    (PullRequest.set_status MERGED)) ;;
         let pr := PullRequest.set_status MERGED pr in
         (* 5 *)
         commit ;;
         (* 6 *)
         ret (Success (PROut.mk (PullRequest.pull_request_id pr)
                                (PullRequest.pull_request_name pr)
                                (PullRequest.author_id pr)
                                "MERGED" reviewer_ids
                                (Some (datetime.isoformat now ++ "Z")%string)))
     end)
    (fun e => rollback ;; ret (Failure SERVER_ERROR)).

Definition get_user_review_pull_requests (user_id : string)
    : Tx (Response ReviewOut.t) :=
  try_except
    ((* 1 *)
     user <- first (query User.t (fun u => User.user_id u =? user_id)) ;;
     match user with
     | None => ret (Failure USER_NOT_FOUND)
     | Some _ =>
       (* 2 *)
       review_assignments <- all (query PullRequestReviewer.t
                               (fun r => PullRequestReviewer.user_id r
                                         =? user_id)) ;;
       (* 3 *)
       pull_requests_list <- for_fold review_assignments []
         (fun pull_requests_list assignment =>
            pr <- first (query PullRequest.t
                      (fun p => PullRequest.pull_request_id p
                                =? PullRequestReviewer.pull_request_id
                                     assignment)) ;;
            match pr with
            | Some pr =>
              ret (pull_requests_list
                     ++ [PRShortOut.mk (PullRequest.pull_request_id pr)
                                       (PullRequest.pull_request_name pr)
                                       (PullRequest.author_id pr)
                                       (PRStatus_.value (PullRequest.status pr))])
            | None => ret pull_requests_list
            end) ;;
       (* 4 *)
       ret (Success (ReviewOut.mk user_id pull_requests_list))
     end)
    (fun e => ret (Failure SERVER_ERROR)).

Definition reassign_pull_request_reviewer (reassign_data : PRReassign.t)
    : Tx (Response ReassignOut.t) :=
  let pull_request_id := PRReassign.pull_request_id reassign_data in
  let old_user_id := PRReassign.old_user_id reassign_data in
  try_except
    ((* 1 *)
     pr <- first (query PullRequest.t
               (fun p => PullRequest.pull_request_id p =? pull_request_id)) ;;
     match pr with
     | None => ret (Failure PR_NOT_FOUND)
     | Some pr =>
       (* 2 *)
       if PRStatus_.eqb (PullRequest.status pr) MERGED then
         ret (Failure PR_MERGED)
       else
         (* 3 *)
         old_reviewer_assignment <- first (query PullRequestReviewer.t
           (fun r => (PullRequestReviewer.pull_request_id r =? pull_request_id)
                     && (PullRequestReviewer.user_id r =? old_user_id))) ;;
         match old_reviewer_assignment with
         | None => ret (Failure NOT_ASSIGNED)
         | Some old_reviewer_assignment =>
           (* 4 *)
           old_reviewer_team <- first (query_by_key TeamMember.t
             (fun m => (TeamMember.user_id m =? old_user_id)
                       && is_true (TeamMember.is_active m))) ;;
           match old_reviewer_team with
           | None => ret (Failure USER_NOT_IN_TEAM)
           | Some old_reviewer_team =>
             let team_name := TeamMember.team_name old_reviewer_team in
             (* 5 *)
             current_reviewers <- all (query_by_key PullRequestReviewer.t
               (fun r => PullRequestReviewer.pull_request_id r
                         =? pull_request_id)) ;;
             let current_reviewer_ids :=
               map PullRequestReviewer.user_id current_reviewers in
             candidate <- first (query TeamMember.t
               (fun m => (TeamMember.team_name m =? team_name)
                         && neqb (TeamMember.user_id m) (PullRequest.author_id pr)
                         && not_in (TeamMember.user_id m) current_reviewer_ids
                         && is_true (TeamMember.is_active m))) ;;
             match candidate with
             | None => ret (Failure NO_CANDIDATE)
             | Some candidate =>
               (* 6 *)
               setattr (Dirty_pullrequestreviewer
                          (primary_key old_reviewer_assignment)
                          (PullRequestReviewer.set_user_id
                             (TeamMember.user_id candidate))) ;;
               (* 7 *)
               updated_reviewers <- all (query_by_key PullRequestReviewer.t
                 (fun r => PullRequestReviewer.pull_request_id r
                           =? pull_request_id)) ;;
               let updated_reviewer_ids :=
                 map PullRequestReviewer.user_id updated_reviewers in
               (* 8 *)
               commit ;;
               (* 9 *)
               ret (Success (ReassignOut.mk
                      (PROut.mk (PullRequest.pull_request_id pr)
                                (PullRequest.pull_request_name pr)
                                (PullRequest.author_id pr)
                                (PRStatus_.value (PullRequest.status pr))
                                updated_reviewer_ids None)
                      (TeamMember.user_id candidate)))
             end
           end
         end
     end)
    (fun e => rollback ;; ret (Failure SERVER_ERROR)).

(* ================================================================== *)
(** * endpoint.py *)
(* ================================================================== *)

(** The string of an error code, [error["code"]]. *)
Definition code (error : ErrorCode) : string :=
  match error with
  | TEAM_EXISTS => "TEAM_EXISTS"
  | TEAM_NOT_FOUND => "TEAM_NOT_FOUND"
  | USER_NOT_FOUND => "USER_NOT_FOUND"
  | PR_EXISTS => "PR_EXISTS"
  | AUTHOR_NOT_FOUND => "AUTHOR_NOT_FOUND"
  | PR_NOT_FOUND => "PR_NOT_FOUND"
  | PR_MERGED => "PR_MERGED"
  | NOT_ASSIGNED => "NOT_ASSIGNED"
  | USER_NOT_IN_TEAM => "USER_NOT_IN_TEAM"
  | NO_CANDIDATE => "NO_CANDIDATE"
  | INTEGRITY_ERROR => "INTEGRITY_ERROR"
  | SERVER_ERROR => "SERVER_ERROR"
  end.

(** [error["code"] in [...]] *)
Definition code_in (error : ErrorCode) (codes : list string) : bool :=
  existsb (String.eqb (code error)) codes.

Module status.
Definition HTTP_200_OK : nat := 200.
Definition HTTP_201_CREATED : nat := 201.
Definition HTTP_400_BAD_REQUEST : nat := 400.
Definition HTTP_404_NOT_FOUND : nat := 404.
Definition HTTP_409_CONFLICT : nat := 409.
Definition HTTP_500_INTERNAL_SERVER_ERROR : nat := 500.
End status.

(** What a route answers: the value it returns, with the status code of the
    route (200 unless the decorator says otherwise), or the HTTPException it
    raises. *)
Inductive HTTP (A : Type) : Type :=
| Responded (status_code : nat) (body : A)
| HTTPException (status_code : nat) (detail : ErrorCode).
Arguments Responded {A} status_code body.
Arguments HTTPException {A} status_code detail.

(** [@app.post("/team/add", status_code=status.HTTP_201_CREATED)] *)
Definition create_team (team : TeamCreate.t)
    : Tx (HTTP (Response (TeamOut.t TeamMember.t))) :=
  result <- create_team_with_members team ;;
  match result with
  | Failure error =>
    if code error =? "TEAM_EXISTS"
    then ret (HTTPException status.HTTP_400_BAD_REQUEST error)
    else ret (HTTPException status.HTTP_500_INTERNAL_SERVER_ERROR error)
  | Success _ => ret (Responded status.HTTP_201_CREATED result)
  end.

(** [@app.get("/team/get")] *)
Definition get_team (team_name : string)
    : Tx (HTTP (Response (TeamOut.t MemberData.t))) :=
  result <- get_team_with_members team_name ;;
  match result with
  | Failure error =>
    if code error =? "TEAM_NOT_FOUND"
    then ret (HTTPException status.HTTP_404_NOT_FOUND error)
    else ret (HTTPException status.HTTP_500_INTERNAL_SERVER_ERROR error)
  | Success _ => ret (Responded status.HTTP_200_OK result)
  end.

(** [@app.post("/users/setIsActive")] *)
Definition set_user_active (user_data : UserActive.t)
    : Tx (HTTP (Response UserOut.t)) :=
  result <- set_user_active_flag user_data ;;
  match result with
  | Failure error =>
    if code error =? "USER_NOT_FOUND"
    then ret (HTTPException status.HTTP_404_NOT_FOUND error)
    else ret (HTTPException status.HTTP_500_INTERNAL_SERVER_ERROR error)
  | Success _ => ret (Responded status.HTTP_200_OK result)
  end.

(** [@app.post("/pullRequest/create", status_code=status.HTTP_201_CREATED)] *)
Definition create_pull_request (pr_data : PRCreate.t)
    : Tx (HTTP (Response PROut.t)) :=
  result <- create_pull_request_with_reviewers pr_data ;;
  match result with
  | Failure error =>
    if code error =? "PR_EXISTS"
    then ret (HTTPException status.HTTP_409_CONFLICT error)
    else if code_in error ["AUTHOR_NOT_FOUND"; "TEAM_NOT_FOUND"]
    then ret (HTTPException status.HTTP_404_NOT_FOUND error)
    else ret (HTTPException status.HTTP_500_INTERNAL_SERVER_ERROR error)
  | Success _ => ret (Responded status.HTTP_201_CREATED result)
  end.

(** [@app.post("/pullRequest/merge")] *)
Definition merge_pull_request_endpoint (now : datetime.t) (pr_data : PRMerge.t)
    : Tx (HTTP (Response PROut.t)) :=
  result <- merge_pull_request now pr_data ;;
  match result with
  | Failure error =>
    if code error =? "PR_NOT_FOUND"
    then ret (HTTPException status.HTTP_404_NOT_FOUND error)
    else ret (HTTPException status.HTTP_500_INTERNAL_SERVER_ERROR error)
  | Success _ => ret (Responded status.HTTP_200_OK result)
  end.

(** [@app.get("/users/getReview")] *)
Definition get_user_review_prs (user_id : string)
    : Tx (HTTP (Response ReviewOut.t)) :=
  result <- get_user_review_pull_requests user_id ;;
  match result with
  | Failure error =>
    if code error =? "USER_NOT_FOUND"
    then ret (HTTPException status.HTTP_404_NOT_FOUND error)
    else ret (HTTPException status.HTTP_500_INTERNAL_SERVER_ERROR error)
  | Success _ => ret (Responded status.HTTP_200_OK result)
  end.

(** [@app.post("/pullRequest/reassign")] *)
Definition reassign_pull_request_reviewer_endpoint
    (reassign_data : PRReassign.t) : Tx (HTTP (Response ReassignOut.t)) :=
  result <- reassign_pull_request_reviewer reassign_data ;;
  match result with
  | Failure error =>
    if code_in error ["PR_NOT_FOUND"; "USER_NOT_IN_TEAM"]
    then ret (HTTPException status.HTTP_404_NOT_FOUND error)
    else if code_in error ["PR_MERGED"; "NOT_ASSIGNED"; "NO_CANDIDATE"]
    then ret (HTTPException status.HTTP_409_CONFLICT error)
    else ret (HTTPException status.HTTP_500_INTERNAL_SERVER_ERROR error)
  | Success _ => ret (Responded status.HTTP_200_OK result)
  end.

Module Stats.
Record t : Type := mk {
  total_users : nat;
  total_teams : nat;
  total_prs : nat;
  open_prs : nat;
  merged_prs : nat;
  user_assignments : list (string * nat)   (* user_id, assignment_count *)
}.
End Stats.

(** [q.count()] *)
Definition count {R} (q : Tx (list R)) : Tx nat :=
  l <- q ;; ret (length l).

(** The values of a column without repetition, each at its first place. *)
Fixpoint distinct (l : list string) : list string :=
  match l with
  | [] => []
  | x :: l' => x :: filter (fun y => negb (y =? x)) (distinct l')
  end.

(** [db.query(PullRequestReviewer.user_id,
              func.count(PullRequestReviewer.pull_request_id))
       .group_by(PullRequestReviewer.user_id)]:
    one row per user_id of the reviewer table, with the number of rows that
    carry it.  SQLite groups by sorting, so the groups come in the order of
    the user ids. *)
Definition query_assignment_counts : Tx (list (string * nat)) :=
  _autoflush ;;
  fun db =>
    let ids := map PullRequestReviewer.user_id
                   (pullrequestreviewers (database db)) in
    (db, Return (map (fun u => (u, length (filter (String.eqb u) ids)))
                     (sort_by String.leb (distinct ids)))).

(** [@app.get("/stats")] *)
Definition get_stats : Tx (Response Stats.t) :=
  try_except
    (total_users <- count (query User.t (fun _ => true)) ;;
     total_teams <- count (query Team.t (fun _ => true)) ;;
     total_prs <- count (query PullRequest.t (fun _ => true)) ;;
     open_prs <- count (query PullRequest.t
                   (fun p => PRStatus_.eqb (PullRequest.status p) OPEN)) ;;
     merged_prs <- count (query PullRequest.t
                     (fun p => PRStatus_.eqb (PullRequest.status p) MERGED)) ;;
     user_assignments <- all query_assignment_counts ;;
     let assignments_list := user_assignments in
     ret (Success (Stats.mk total_users total_teams total_prs open_prs
                            merged_prs assignments_list)))
    (fun e => ret (Failure SERVER_ERROR)).

(* ================================================================== *)
(** * What the operations compute, in terms of the rows *)
(* ================================================================== *)

(** The rows after the commit of [set_user_active_flag]. *)
Definition set_active_store (uid : string) (b : bool) (s : Store) : Store :=
  mkStore
    (map (fun u => if User.user_id u =? uid then User.set_is_active b u else u)
         (users s))
    (teams s)
    (map (fun m => if TeamMember.user_id m =? uid
                   then TeamMember.set_is_active b m else m)
         (teammembers s))
    (pullrequests s)
    (pullrequestreviewers s).

(** The active members of [team] other than [author], in store order. *)
Definition candidates (team author : string) (s : Store) : list TeamMember.t :=
  filter (fun m => (TeamMember.team_name m =? team)
                   && neqb (TeamMember.user_id m) author
                   && is_true (TeamMember.is_active m))
         (teammembers s).

(** The rows after the commit of a merge. *)
Definition merged_store (pid : string) (s : Store) : Store :=
  mkStore (users s) (teams s) (teammembers s)
          (map (fun p => if PullRequest.pull_request_id p =? pid
                         then PullRequest.set_status MERGED p else p)
               (pullrequests s))
          (pullrequestreviewers s).

(** The reviewers of a pull request, in store order. *)
Definition reviewer_ids (pid : string) (s : Store) : list string :=
  map PullRequestReviewer.user_id
      (filter (fun r => PullRequestReviewer.pull_request_id r =? pid)
              (pullrequestreviewers s)).

(** The reviewers of a pull request as a query for them lists them: in the
    order of the key (pull_request_id, user_id), that is by user id. *)
Definition listed_reviewer_ids (pid : string) (s : Store) : list string :=
  map PullRequestReviewer.user_id
      (index_order
         (filter (fun r => PullRequestReviewer.pull_request_id r =? pid)
                 (pullrequestreviewers s))).

(** The reviewers a reassignment answers with.  Its last query runs before
    the flush: it lists the rows as they were, in the order of their keys,
    and shows the object of the row of [old] with [new] assigned. *)
Definition relisted_reviewer_ids (pid old new : string) (s : Store)
    : list string :=
  map (fun u => if u =? old then new else u) (listed_reviewer_ids pid s).

(** The membership [.first()] takes for a user: the first active one in the
    order of the key (user_id, team_name), that is by team name. *)
Definition first_membership (uid : string) (s : Store)
    : option TeamMember.t :=
  hd_error
    (index_order
       (filter (fun m => (TeamMember.user_id m =? uid)
                         && is_true (TeamMember.is_active m))
               (teammembers s))).

Definition find_pull_request (pid : string) (s : Store) : option PullRequest.t :=
  hd_error (filter (fun p => PullRequest.pull_request_id p =? pid)
                   (pullrequests s)).

(** The entry of the response for one assignment row: the pull request it
    names, when there is one. *)
Definition review_entry (s : Store) (assignment : PullRequestReviewer.t)
    : list PRShortOut.t :=
  match find_pull_request (PullRequestReviewer.pull_request_id assignment) s with
  | Some pr => [PRShortOut.mk (PullRequest.pull_request_id pr)
                              (PullRequest.pull_request_name pr)
                              (PullRequest.author_id pr)
                              (PRStatus_.value (PullRequest.status pr))]
  | None => []
  end.

(** The rows after the commit of a reassignment: the row of [old] on [pid]
    names [new] instead. *)
Definition reassigned_store (pid old new : string) (s : Store) : Store :=
  mkStore (users s) (teams s) (teammembers s) (pullrequests s)
          (map (fun r => if has_pk (pid, old) r
                         then PullRequestReviewer.set_user_id new r else r)
               (pullrequestreviewers s)).

(** The replacement: the first active member of [team] who is neither the
    author nor a reviewer of the pull request. *)
Definition find_candidate (team author pid : string) (s : Store)
    : option TeamMember.t :=
  hd_error
    (filter (fun m => (TeamMember.team_name m =? team)
                      && neqb (TeamMember.user_id m) author
                      && not_in (TeamMember.user_id m) (reviewer_ids pid s)
                      && is_true (TeamMember.is_active m))
            (teammembers s)).

(** What the loop of [create_team_with_members] leaves in the unit of work
    for one member: the merged user, then the new membership row.  The users
    the merge looks up are the flushed ones. *)
Definition member_writes (team_name : string) (d : Store)
    (member_data : MemberData.t) : list Write :=
  let user := User.mk (MemberData.user_id member_data)
                      (MemberData.username member_data)
                      (MemberData.is_active member_data) in
  [ if existsb (has_pk (primary_key user)) (users d)
    then Dirty_user (primary_key user) (fun _ => user)
    else New_user user;
    New_teammember (TeamMember.mk (MemberData.user_id member_data) team_name
                                  (MemberData.username member_data)
                                  (MemberData.is_active member_data)) ].

Definition member_row (team_name : string) (member_data : MemberData.t)
    : TeamMember.t :=
  TeamMember.mk (MemberData.user_id member_data) team_name
                (MemberData.username member_data)
                (MemberData.is_active member_data).

Definition with_team (team_name : string) (s : Store) : Store :=
  mkStore (users s) (teams s ++ [Team.mk team_name]) (teammembers s)
          (pullrequests s) (pullrequestreviewers s).

(** The team of test.py, and a pull request of u1 reviewed by u2 and u3. *)
Definition payments : Store :=
  mkStore
    [User.mk "u1" "Alice" true; User.mk "u2" "Bob" true;
     User.mk "u3" "Charlie" true; User.mk "u4" "David" true]
    [Team.mk "payments"]
    [TeamMember.mk "u1" "payments" "Alice" true;
     TeamMember.mk "u2" "payments" "Bob" true;
     TeamMember.mk "u3" "payments" "Charlie" true;
     TeamMember.mk "u4" "payments" "David" true]
    [PullRequest.mk "pr-1001" "Add search" "u1" OPEN]
    [PullRequestReviewer.mk "pr-1001" "u2";
     PullRequestReviewer.mk "pr-1001" "u3"].

(** The same store after the merge of pr-1001. *)
Definition payments_merged : Store := merged_store "pr-1001" payments.

(** A team whose only member is the author. *)
Definition solo : Store :=
  mkStore [User.mk "u1" "Alice" true] [Team.mk "solo"]
          [TeamMember.mk "u1" "solo" "Alice" true] [] [].

(** u1 is in team zeta, made first, and in team alpha with u3. *)
Definition zeta_alpha : Store :=
  mkStore
    [User.mk "u1" "Alice" true; User.mk "u3" "Charlie" true]
    [Team.mk "zeta"; Team.mk "alpha"]
    [TeamMember.mk "u1" "zeta" "Alice" true;
     TeamMember.mk "u1" "alpha" "Alice" true;
     TeamMember.mk "u3" "alpha" "Charlie" true]
    [] [].

(** A team in which u3 joined before u2, and a pull request of u1 whose
    reviewer rows are therefore (p1, u3) and then (p1, u2). *)
Definition u3_before_u2 : Store :=
  mkStore
    [User.mk "u1" "Alice" true; User.mk "u3" "Charlie" true;
     User.mk "u2" "Bob" true; User.mk "u4" "David" true]
    [Team.mk "payments"]
    [TeamMember.mk "u1" "payments" "Alice" true;
     TeamMember.mk "u3" "payments" "Charlie" true;
     TeamMember.mk "u2" "payments" "Bob" true;
     TeamMember.mk "u4" "payments" "David" true]
    [PullRequest.mk "p1" "Add search" "u1" OPEN]
    [PullRequestReviewer.mk "p1" "u3"; PullRequestReviewer.mk "p1" "u2"].

(** A session that flushes before each query, the default of SQLAlchemy. *)
Definition SessionAutoflush (s : Store) : Session := mkSession true s s [].

(** The constraint of the schema on a store: every table has a unique key. *)
Definition unique_keys (s : Store) : Prop :=
  unique_pk (users s) /\ unique_pk (teams s) /\ unique_pk (teammembers s)
  /\ unique_pk (pullrequests s) /\ unique_pk (pullrequestreviewers s).

Definition session_ok (db : Session) : Prop :=
  unique_keys (committed db) /\ unique_keys (database db).

(** [m] never leaves a session whose rows violate a key. *)
Definition keeps {A} (m : Tx A) : Prop :=
  forall db, session_ok db -> session_ok (fst (m db)).

(** The author check read as an equivalence: the call fails with
    AUTHOR_NOT_FOUND exactly when no user row with [author] is active. *)
Definition author_not_found_exactly_when_inactive (s : Store)
    (pid name author : string) : Prop :=
  (forall u, In u (users s) -> User.user_id u = author ->
             User.is_active u = false)
  <-> snd (request (create_pull_request_with_reviewers
                      (PRCreate.mk pid name author)) s)
      = Return (Failure AUTHOR_NOT_FOUND).

(** An operation is atomic when it always answers with a response and a
    failure leaves the store as it was. *)
Definition atomic {A} (op : Tx (Response A)) : Prop :=
  forall s, exists r,
    snd (request op s) = Return r
    /\ (forall code, r = Failure code -> fst (request op s) = s).

(** The user has a membership row that is active. *)
Definition has_active_membership (uid : string) (s : Store) : Prop :=
  exists m, In m (teammembers s) /\ TeamMember.user_id m = uid
            /\ TeamMember.is_active m = true.

(** The user row [create_team_with_members] merges for a member. *)
Definition member_user (member_data : MemberData.t) : User.t :=
  User.mk (MemberData.user_id member_data) (MemberData.username member_data)
          (MemberData.is_active member_data).

(** The user table after the upserts of a member list: a user who is named
    is overwritten in place, the others follow in the order of the list. *)
Definition upsert_users (members : list MemberData.t) (us : list User.t)
    : list User.t :=
  map (fun u => match find (fun md => MemberData.user_id md =? User.user_id u)
                           members with
                | Some md => member_user md
                | None => u
                end) us
  ++ map member_user
       (filter (fun md => negb (existsb (@has_pk User.t Mapped_User
                                           (MemberData.user_id md)) us))
               members).

(** The rows after the commit of [create_team_with_members]. *)
Definition created_team_store (team_name : string)
    (members : list MemberData.t) (s : Store) : Store :=
  mkStore (upsert_users members (users s))
          (teams s ++ [Team.mk team_name])
          (teammembers s ++ map (member_row team_name) members)
          (pullrequests s)
          (pullrequestreviewers s).

(** The member of a team as [get_team_with_members] lists it. *)
Definition listed_member (member : TeamMember.t) : MemberData.t :=
  MemberData.mk (TeamMember.user_id member) (TeamMember.username member)
                (TeamMember.is_active member).

(** The pull request table only grows: the rows stay where they are, each as
    it was or with its status set to MERGED, and new rows come at the end. *)
Definition grows (ps ps' : list PullRequest.t) : Prop :=
  exists f added,
    ps' = map f ps ++ added
    /\ forall p, f p = p \/ f p = PullRequest.set_status MERGED p.

(** The foreign keys of schem.py, which SQLite does not check. *)
Definition foreign_keys (s : Store) : Prop :=
  (forall m, In m (teammembers s) ->
     In (TeamMember.user_id m) (map User.user_id (users s)))
  /\ (forall m, In m (teammembers s) ->
        In (TeamMember.team_name m) (map Team.team_name (teams s)))
  /\ (forall p, In p (pullrequests s) ->
        In (PullRequest.author_id p) (map User.user_id (users s)))
  /\ (forall r, In r (pullrequestreviewers s) ->
        In (PullRequestReviewer.pull_request_id r)
           (map PullRequest.pull_request_id (pullrequests s)))
  /\ (forall r, In r (pullrequestreviewers s) ->
        In (PullRequestReviewer.user_id r) (map User.user_id (users s))).

(** Nobody reviews a pull request of their own, and no pull request has more
    than two reviewers. *)
Definition review_discipline (s : Store) : Prop :=
  (forall r p, In r (pullrequestreviewers s) -> In p (pullrequests s) ->
     PullRequest.pull_request_id p = PullRequestReviewer.pull_request_id r ->
     PullRequest.author_id p <> PullRequestReviewer.user_id r)
  /\ (forall pid, length (reviewer_ids pid s) <= 2).

Definition well_formed (s : Store) : Prop :=
  unique_keys s /\ foreign_keys s /\ review_discipline s.

(** A route answers cleanly when it always answers, sends a body only with
    status 200 or 201 and only a successful one, and raises its
    HTTPException, with a status of 400 or more, over the store as it was
    before the request. *)
Definition answers_cleanly {A} (route : Tx (HTTP (Response A))) : Prop :=
  forall s, exists a,
    snd (request route s) = Return a
    /\ match a with
       | Responded status_code (Success _) =>
         status_code = status.HTTP_200_OK
         \/ status_code = status.HTTP_201_CREATED
       | Responded _ (Failure _) => False
       | HTTPException status_code _ =>
         400 <= status_code /\ fst (request route s) = s
       end.

(** An operation does not depend on having a session of its own: it returns,
    and whatever runs after it on the same session, as in test.py, runs as
    it would on a new session over the store the operation left. *)
Definition session_independent {A} (op : Tx A) : Prop :=
  forall s, exists r,
    snd (request op s) = Return r
    /\ forall B (k : A -> Tx B),
         request (bind op k) s = request (k r) (fst (request op s)).

(* ================================================================== *)
(** * Lists and tables *)
(* ================================================================== *)

Lemma pair_eqb_eq (a b : string * string) : pair_eqb a b = true <-> a = b.
Proof.
  destruct a as [a1 a2], b as [b1 b2]; unfold pair_eqb; simpl.
  rewrite andb_true_iff, !String.eqb_eq.
  split; [intros [-> ->]; reflexivity | intros E; inversion E; auto].
Qed.

#[export] Instance MappedLaws_User : MappedLaws User.t.
Proof. constructor. exact String.eqb_eq. Qed.

#[export] Instance MappedLaws_Team : MappedLaws Team.t.
Proof. constructor. exact String.eqb_eq. Qed.

#[export] Instance MappedLaws_TeamMember : MappedLaws TeamMember.t.
Proof. constructor. exact pair_eqb_eq. Qed.

#[export] Instance MappedLaws_PullRequest : MappedLaws PullRequest.t.
Proof. constructor. exact String.eqb_eq. Qed.

#[export] Instance MappedLaws_PullRequestReviewer :
  MappedLaws PullRequestReviewer.t.
Proof. constructor. exact pair_eqb_eq. Qed.

Lemma filter_nil_existsb {A} (p : A -> bool) (l : list A) :
  filter p l = [] -> existsb p l = false.
Proof.
  induction l as [|a l IH]; simpl; [reflexivity|].
  destruct (p a); [discriminate | exact IH].
Qed.

Lemma hd_error_filter_In {A} (p : A -> bool) (l : list A) (x : A) :
  hd_error (filter p l) = Some x -> In x l /\ p x = true.
Proof.
  intros E. apply filter_In. destruct (filter p l); inversion E; subst.
  now left.
Qed.

Lemma hd_error_filter_None {A} (p : A -> bool) (l : list A) :
  hd_error (filter p l) = None -> forall x, In x l -> p x = false.
Proof.
  intros E x Hx. destruct (p x) eqn:Px; [|reflexivity].
  assert (Hin : In x (filter p l)) by (apply filter_In; auto).
  destruct (filter p l); [destruct Hin | discriminate].
Qed.

Lemma flat_map_map_nil {A B C} (f : B -> list C) (g : A -> B) (l : list A) :
  (forall x, f (g x) = []) -> flat_map f (map g l) = [].
Proof.
  intros E. induction l as [|a l IH]; simpl; [reflexivity|].
  now rewrite E, IH.
Qed.

Lemma flat_map_map_single {A B C} (f : B -> list C) (g : A -> B) (h : A -> C)
    (l : list A) :
  (forall x, f (g x) = [h x]) -> flat_map f (map g l) = map h l.
Proof.
  intros E. induction l as [|a l IH]; simpl; [reflexivity|].
  now rewrite E, IH.
Qed.

(** The order of text and of the rows of an index search. *)
Lemma ascii_compare_trans (a b c : ascii) (o : comparison) :
  Ascii.compare a b = o -> Ascii.compare b c = o -> Ascii.compare a c = o.
Proof.
  unfold Ascii.compare. destruct o; intros H1 H2.
  - apply N.compare_eq_iff in H1, H2. apply N.compare_eq_iff. congruence.
  - rewrite N.compare_lt_iff in *. lia.
  - rewrite N.compare_gt_iff in *. lia.
Qed.

Lemma string_compare_refl (s : string) : String.compare s s = Eq.
Proof.
  induction s as [|a s IH]; simpl; [reflexivity|].
  unfold Ascii.compare. now rewrite N.compare_refl.
Qed.

Lemma string_leb_refl (s : string) : String.leb s s = true.
Proof. unfold String.leb. now rewrite string_compare_refl. Qed.

Lemma string_leb_trans (s1 s2 s3 : string) :
  String.leb s1 s2 = true -> String.leb s2 s3 = true ->
  String.leb s1 s3 = true.
Proof.
  unfold String.leb. revert s2 s3.
  induction s1 as [|a s1 IH]; intros [|b s2] [|c s3]; simpl; auto;
    try discriminate.
  destruct (Ascii.compare a b) eqn:Eab; try discriminate;
    destruct (Ascii.compare b c) eqn:Ebc; try discriminate; intros H1 H2.
  - rewrite (ascii_compare_trans a b c Eq Eab Ebc). now apply (IH s2).
  - apply Ascii.compare_eq_iff in Eab. subst b. now rewrite Ebc.
  - apply Ascii.compare_eq_iff in Ebc. subst c. now rewrite Eab.
  - now rewrite (ascii_compare_trans a b c Lt Eab Ebc).
Qed.

Section SortFacts.
Context {A : Type} (leb : A -> A -> bool).

Lemma insert_by_perm (x : A) (l : list A) :
  Permutation (insert_by leb x l) (x :: l).
Proof.
  induction l as [|y l IH]; simpl; [reflexivity|].
  destruct (leb x y); [reflexivity|].
  rewrite IH. apply perm_swap.
Qed.

Lemma sort_by_perm (l : list A) : Permutation (sort_by leb l) l.
Proof.
  induction l as [|x l IH]; simpl; [reflexivity|].
  rewrite insert_by_perm. now constructor.
Qed.

Lemma in_sort_by (x : A) (l : list A) : In x (sort_by leb l) <-> In x l.
Proof.
  split; apply Permutation_in; [|symmetry]; apply sort_by_perm.
Qed.

Lemma sort_by_nil (l : list A) : sort_by leb l = [] -> l = [].
Proof.
  intros E. apply Permutation_nil. rewrite <- E. apply sort_by_perm.
Qed.

Lemma hd_sort_by_None (l : list A) :
  hd_error (sort_by leb l) = None <-> hd_error l = None.
Proof.
  split; intros E.
  - destruct (sort_by leb l) eqn:S; [|discriminate].
    now rewrite (sort_by_nil l S).
  - destruct l; [reflexivity | discriminate].
Qed.

Lemma existsb_sort_by (p : A -> bool) (l : list A) :
  existsb p (sort_by leb l) = existsb p l.
Proof.
  apply eq_true_iff_eq. rewrite !existsb_exists.
  split; intros [x [Hx Px]]; exists x; split; auto; now apply in_sort_by.
Qed.

(** Rows that are already in order, equal keys included, stay as they are. *)
Lemma sort_by_sorted (l : list A) :
  (forall l1 x l2 y, l = l1 ++ x :: l2 -> In y l2 -> leb x y = true) ->
  sort_by leb l = l.
Proof.
  induction l as [|x l IH]; intros H; simpl; [reflexivity|].
  rewrite IH.
  - destruct l as [|y l]; [reflexivity|]. simpl.
    now rewrite (H [] x (y :: l) y eq_refl (or_introl eq_refl)).
  - intros l1 a l2 b E Hb. apply (H (x :: l1) a l2 b); [|exact Hb].
    simpl. now rewrite E.
Qed.

Lemma sort_by_same (l : list A) :
  (forall x y, In x l -> In y l -> leb x y = true) -> sort_by leb l = l.
Proof.
  intros H. apply sort_by_sorted. intros l1 x l2 y -> Hy.
  apply H; rewrite in_app_iff; right; [now left | now right].
Qed.

Lemma hd_insert_by_least (x : A) (l : list A) (m : A) :
  (forall a b c, leb a b = true -> leb b c = true -> leb a c = true) ->
  (forall a b, leb a b = true \/ leb b a = true) ->
  (forall h, hd_error l = Some h -> forall y, In y l -> leb h y = true) ->
  hd_error (insert_by leb x l) = Some m ->
  forall y, In y (x :: l) -> leb m y = true.
Proof.
  intros T Tot Hl. destruct l as [|h l]; simpl.
  - intros E y [<-|[]]. injection E as <-.
    destruct (Tot x x); assumption.
  - destruct (leb x h) eqn:E; simpl; intros Em; injection Em as <-.
    + intros y [<-|Hy].
      * destruct (Tot x x); assumption.
      * apply (T _ h); [exact E|]. now apply (Hl h eq_refl).
    + intros y [<-|Hy].
      * destruct (Tot h x) as [H|H]; [exact H | congruence].
      * now apply (Hl h eq_refl).
Qed.

(** The first row of an index search has the least key. *)
Lemma hd_sort_by_least (l : list A) (m : A) :
  (forall a b c, leb a b = true -> leb b c = true -> leb a c = true) ->
  (forall a b, leb a b = true \/ leb b a = true) ->
  hd_error (sort_by leb l) = Some m ->
  forall y, In y l -> leb m y = true.
Proof.
  intros T Tot. revert m. induction l as [|x l IH]; intros m E y Hy;
    [destruct Hy|].
  simpl in E. apply (hd_insert_by_least x (sort_by leb l) m T Tot);
    [| exact E |].
  - intros h Eh z Hz. apply (IH h Eh). now apply in_sort_by.
  - destruct Hy as [<-|Hy]; [now left | right; now apply in_sort_by].
Qed.
End SortFacts.

Lemma sort_by_ext {A} (leb leb' : A -> A -> bool) (l : list A) :
  (forall x y, In x l -> In y l -> leb x y = leb' x y) ->
  sort_by leb l = sort_by leb' l.
Proof.
  induction l as [|x l IH]; intros H; simpl; [reflexivity|].
  rewrite <- IH by (intros a b Ha Hb; apply H; now right).
  assert (G : forall s, (forall y, In y s -> In y l) ->
                insert_by leb x s = insert_by leb' x s).
  { induction s as [|y s IHs]; intros Hs; simpl; [reflexivity|].
    rewrite (H x y)
      by first [now left | right; apply Hs; now left].
    rewrite IHs by (intros z Hz; apply Hs; now right). reflexivity. }
  apply G. intros y Hy. now apply in_sort_by in Hy.
Qed.

Lemma sort_by_map {A B} (leb : A -> A -> bool) (leb' : B -> B -> bool)
    (f : A -> B) (l : list A) :
  (forall x y, leb' (f x) (f y) = leb x y) ->
  sort_by leb' (map f l) = map f (sort_by leb l).
Proof.
  intros H. induction l as [|x l IH]; simpl; [reflexivity|].
  rewrite IH. generalize (sort_by leb l). intros s.
  induction s as [|y s IHs]; simpl; [reflexivity|].
  rewrite H. destruct (leb x y); simpl; [reflexivity|]. now rewrite IHs.
Qed.

Section StatementFacts.
Context {R : Type} `{MappedLaws R}.

Lemma has_pk_true (k : PK) (r : R) : has_pk k r = true <-> primary_key r = k.
Proof. unfold has_pk. apply pk_eqb_eq. Qed.

Lemma has_pk_refl (r : R) : has_pk (primary_key r) r = true.
Proof. now apply has_pk_true. Qed.

Lemma has_pk_false (k : PK) (r : R) : has_pk k r = false <-> primary_key r <> k.
Proof.
  rewrite <- has_pk_true. destruct (has_pk k r); split; congruence.
Qed.

Lemma existsb_has_pk (k : PK) (tbl : list R) :
  existsb (has_pk k) tbl = true <-> In k (map primary_key tbl).
Proof.
  rewrite existsb_exists, in_map_iff.
  split; intros [r [A B]]; exists r.
  - apply has_pk_true in B. auto.
  - split; [exact B | now apply has_pk_true].
Qed.

Lemma in_memory_nil (r : R) : in_memory [] r = r.
Proof. reflexivity. Qed.

Lemma map_in_memory_nil (l : list R) : map (in_memory []) l = l.
Proof. apply map_id. Qed.

(** An UPDATE that leaves the key columns alone cannot violate the key. *)
Lemma sql_update_keep_pk (k : PK) (f : R -> R) (tbl : list R) :
  (forall r, primary_key (f r) = primary_key r) ->
  sql_update k f tbl = Some (map (fun r => if has_pk k r then f r else r) tbl).
Proof.
  intros Hf. unfold sql_update.
  replace (existsb _ tbl) with false; [reflexivity|].
  symmetry. apply not_true_is_false. intros E.
  apply existsb_exists in E. destruct E as [r [_ E]].
  unfold has_pk in E. rewrite Hf in E.
  destruct (pk_eqb (primary_key r) k); discriminate.
Qed.

Lemma flush_table_nil (tbl : list R) : flush_table [] [] tbl = Some tbl.
Proof. reflexivity. Qed.

Lemma fold_insert_None (new : list R) :
  fold_left (fun acc r => and_then acc (sql_insert r)) new None = None.
Proof. induction new; simpl; auto. Qed.

Lemma fold_update_None (dirty : list (PK * (R -> R))) :
  fold_left (fun acc d => and_then acc (sql_update (fst d) (snd d)))
            dirty None = None.
Proof. induction dirty; simpl; auto. Qed.

(** INSERTs succeed only for keys that are new and pairwise distinct. *)
Lemma fold_insert_Some (new tbl tbl' : list R) :
  fold_left (fun acc r => and_then acc (sql_insert r)) new (Some tbl)
    = Some tbl' ->
  tbl' = tbl ++ new /\ NoDup (map primary_key new) /\
  (forall r, In r new -> ~ In (primary_key r) (map primary_key tbl)).
Proof.
  revert tbl. induction new as [|a new IH]; simpl; intros tbl E.
  - inversion E. rewrite app_nil_r. repeat split; [constructor | tauto].
  - unfold sql_insert at 2 in E.
    destruct (existsb (has_pk (primary_key a)) tbl) eqn:Ex; simpl in E.
    + now rewrite fold_insert_None in E.
    + apply IH in E. destruct E as [-> [ND Hnew]].
      assert (Ha : ~ In (primary_key a) (map primary_key tbl)).
      { rewrite <- existsb_has_pk. congruence. }
      split; [now rewrite <- app_assoc|]. split.
      * constructor; [|exact ND]. intros Hin.
        apply in_map_iff in Hin. destruct Hin as [r [Er Hr]].
        apply (Hnew r Hr). rewrite map_app, in_app_iff. right.
        simpl. left. congruence.
      * intros r [<-|Hr]; [exact Ha|].
        intros Hin. apply (Hnew r Hr). rewrite map_app, in_app_iff.
        now left.
Qed.

Lemma fold_insert_ok (new tbl : list R) :
  NoDup (map primary_key new) ->
  (forall r, In r new -> ~ In (primary_key r) (map primary_key tbl)) ->
  fold_left (fun acc r => and_then acc (sql_insert r)) new (Some tbl)
    = Some (tbl ++ new).
Proof.
  revert tbl. induction new as [|a new IH]; simpl; intros tbl ND Hnew.
  - now rewrite app_nil_r.
  - unfold sql_insert at 2.
    replace (existsb (has_pk (primary_key a)) tbl) with false.
    + simpl. inversion ND; subst. rewrite IH; auto.
      * now rewrite <- app_assoc.
      * intros r Hr. rewrite map_app, in_app_iff. simpl.
        intros [Hin|[E|[]]]; [apply (Hnew r); auto|].
        match goal with N : ~ In _ (map _ new) |- _ => apply N end.
        rewrite E. now apply in_map.
    + symmetry. apply not_true_is_false. rewrite existsb_has_pk.
      apply Hnew. now left.
Qed.
End StatementFacts.

(* ================================================================== *)
(** * Running the session operations *)
(* ================================================================== *)

Lemma flush_store_nil (s : Store) : flush_store [] s = Some s.
Proof. destruct s; reflexivity. Qed.

(** The steps of an operation on a session made by [SessionLocal]
    ([autoflush] off): committed rows [c], flushed rows [d], unit of work [w]. *)
Section Run.
Variables (c d : Store) (w : list Write).
Context {A : Type}.

Lemma run_ret_bind {B} (b : B) (k : B -> Tx A) (db : Session) :
  bind (ret b) k db = k b db.
Proof. reflexivity. Qed.

Lemma run_query (R : Type) `{Table R} (p : R -> bool) (k : list R -> Tx A) :
  bind (query R p) k (mkSession false c d w)
  = k (map (in_memory (dirty_of w)) (filter p (rows d)))
      (mkSession false c d w).
Proof. reflexivity. Qed.

Lemma run_all (R : Type) `{Table R} (p : R -> bool) (k : list R -> Tx A) :
  bind (all (query R p)) k (mkSession false c d w)
  = k (map (in_memory (dirty_of w)) (filter p (rows d)))
      (mkSession false c d w).
Proof. reflexivity. Qed.

Lemma run_first (R : Type) `{Table R} (p : R -> bool) (k : option R -> Tx A) :
  bind (first (query R p)) k (mkSession false c d w)
  = k (hd_error (map (in_memory (dirty_of w)) (filter p (rows d))))
      (mkSession false c d w).
Proof. reflexivity. Qed.

Lemma run_all_by_key (R : Type) {M : Mapped R} {T : @Table R M}
    {I : @Indexed R M} (p : R -> bool) (k : list R -> Tx A) :
  bind (all (query_by_key R p)) k (mkSession false c d w)
  = k (map (in_memory (dirty_of w)) (index_order (filter p (rows d))))
      (mkSession false c d w).
Proof. reflexivity. Qed.

Lemma run_first_by_key (R : Type) {M : Mapped R} {T : @Table R M}
    {I : @Indexed R M} (p : R -> bool) (k : option R -> Tx A) :
  bind (first (query_by_key R p)) k (mkSession false c d w)
  = k (hd_error (map (in_memory (dirty_of w))
                     (index_order (filter p (rows d)))))
      (mkSession false c d w).
Proof. reflexivity. Qed.

Lemma run_limit (R : Type) `{Table R} (n : nat) (p : R -> bool)
    (k : list R -> Tx A) :
  bind (all (limit n (query R p))) k (mkSession false c d w)
  = k (firstn n (map (in_memory (dirty_of w)) (filter p (rows d))))
      (mkSession false c d w).
Proof. reflexivity. Qed.

Lemma run_add (x : Write) (k : unit -> Tx A) :
  bind (add x) k (mkSession false c d w)
  = k tt (mkSession false c d (w ++ [x])).
Proof. reflexivity. Qed.

Lemma run_setattr (x : Write) (k : unit -> Tx A) :
  bind (setattr x) k (mkSession false c d w)
  = k tt (mkSession false c d (w ++ [x])).
Proof. reflexivity. Qed.

Lemma run_merge (u : User.t) (k : unit -> Tx A) :
  bind (merge u) k (mkSession false c d w)
  = k tt (mkSession false c d
            (w ++ [if existsb (has_pk (primary_key u)) (users d)
                   then Dirty_user (primary_key u) (fun _ => u)
                   else New_user u])).
Proof.
  cbv [bind merge _autoflush record autoflush database pending committed rows
       Table_User].
  destruct (existsb _ (users d)); reflexivity.
Qed.

Lemma run_flush (k : unit -> Tx A) :
  bind flush k (mkSession false c d w)
  = match flush_store w d with
    | Some d' => k tt (mkSession false c d' [])
    | None => (mkSession false c d w, Raise IntegrityError)
    end.
Proof.
  cbv [bind flush autoflush database pending committed].
  destruct (flush_store w d); reflexivity.
Qed.

Lemma run_commit (k : unit -> Tx A) :
  bind commit k (mkSession false c d w)
  = match flush_store w d with
    | Some d' => k tt (mkSession false d' d' [])
    | None => (mkSession false c d w, Raise IntegrityError)
    end.
Proof.
  cbv [commit bind flush autoflush database pending committed].
  destruct (flush_store w d); reflexivity.
Qed.

Lemma run_rollback (k : unit -> Tx A) :
  bind rollback k (mkSession false c d w) = k tt (mkSession false c c []).
Proof. reflexivity. Qed.

Lemma run_for_each_setattr {B} (W : B -> Write) (l : list B)
    (k : unit -> Tx A) :
  bind (for_each l (fun x => setattr (W x))) k (mkSession false c d w)
  = k tt (mkSession false c d (w ++ map W l)).
Proof.
  clear. revert w k. induction l as [|x l IH]; intros w k; simpl.
  - now rewrite app_nil_r.
  - specialize (IH (w ++ [W x]) k). rewrite <- app_assoc in IH.
    simpl in IH. rewrite <- IH. reflexivity.
Qed.
End Run.

Lemma bind_assoc {A B C} (m : Tx A) (f : A -> Tx B) (g : B -> Tx C)
    (db : Session) :
  bind (bind m f) g db = bind m (fun x => bind (f x) g) db.
Proof. unfold bind. destruct (m db) as [db' [a|e]]; reflexivity. Qed.

Arguments bind : simpl never.
Arguments query : simpl never.
Arguments query_by_key : simpl never.
Arguments index_order : simpl never.
Arguments flush_store : simpl never.

(** Sort the unit of work by mapper. *)
Ltac uow :=
  cbn [rows new_of dirty_of Table_User Table_Team Table_TeamMember
       Table_PullRequest Table_PullRequestReviewer flat_map app];
  repeat match goal with
  | |- context [flat_map ?f (map ?g ?l)] =>
    first [ rewrite (flat_map_map_nil f g l) by reflexivity
          | erewrite (flat_map_map_single f g _ l) by reflexivity ]
  end.

Section UpdateFacts.
Context {R : Type} `{MappedLaws R}.

(** The object of the identity map agrees with its row on every attribute
    that no assignment of the unit of work touches. *)
Lemma in_memory_preserves {B} (g : R -> B) (dirty : list (PK * (R -> R)))
    (r : R) :
  (forall d x, In d dirty -> g (snd d x) = g x) ->
  g (in_memory dirty r) = g r.
Proof.
  unfold in_memory. intros Hd.
  enough (G : forall acc,
    g (fold_left (fun acc d => if has_pk (fst d) r then snd d acc else acc)
                 dirty acc) = g acc) by apply G.
  induction dirty as [|d dirty IH]; intros acc; simpl; [reflexivity|].
  rewrite IH.
  - destruct (has_pk (fst d) r); [apply Hd; now left | reflexivity].
  - intros d' x Hin. apply Hd. now right.
Qed.

(** UPDATEs that set the same attributes (by [g]) of the rows of [ms],
    none of them a key column. *)
Lemma fold_update_same (g : R -> R) (ms tbl : list R) :
  (forall r, primary_key (g r) = primary_key r) ->
  (forall r, g (g r) = g r) ->
  fold_left (fun acc d => and_then acc (sql_update (fst d) (snd d)))
            (map (fun m => (primary_key m, g)) ms) (Some tbl)
  = Some (map (fun r => if existsb (fun m => has_pk (primary_key m) r) ms
                        then g r else r) tbl).
Proof.
  intros Hk Hi. revert tbl.
  induction ms as [|m ms IH]; intros tbl; simpl.
  - now rewrite map_id.
  - rewrite sql_update_keep_pk by exact Hk. simpl. rewrite IH.
    rewrite map_map. f_equal. apply map_ext. intros r.
    destruct (has_pk (primary_key m) r) eqn:E; simpl.
    + assert (Ex : existsb (fun m0 => has_pk (primary_key m0) (g r)) ms
                   = existsb (fun m0 => has_pk (primary_key m0) r) ms).
      { clear - Hk. induction ms as [|x ms IH]; simpl; [reflexivity|].
        rewrite IH. unfold has_pk. now rewrite Hk. }
      rewrite Ex.
      destruct (existsb (fun m0 => has_pk (primary_key m0) r) ms);
        [apply Hi | reflexivity].
    + reflexivity.
Qed.

Lemma hd_in_memory_preserves {B} (g : R -> B) (dirty : list (PK * (R -> R)))
    (l : list R) :
  (forall d x, In d dirty -> g (snd d x) = g x) ->
  option_map g (hd_error (map (in_memory dirty) l))
  = option_map g (hd_error l).
Proof.
  intros Hd. destruct l as [|r l]; simpl; [reflexivity|].
  f_equal. now apply in_memory_preserves.
Qed.

Lemma flush_table_update_same (g : R -> R) (ms tbl : list R) :
  (forall r, primary_key (g r) = primary_key r) ->
  (forall r, g (g r) = g r) ->
  flush_table (map (fun m => (primary_key m, g)) ms) [] tbl
  = Some (map (fun r => if existsb (fun m => has_pk (primary_key m) r) ms
                        then g r else r) tbl).
Proof.
  intros Hk Hi. unfold flush_table. now rewrite fold_update_same.
Qed.
End UpdateFacts.

(** The rows of the user [uid] in a table that has a [user_id] column are
    the rows whose key is the key of a row selected by [user_id]. *)
Lemma existsb_member_key (uid : string) (tbl : list TeamMember.t)
    (r : TeamMember.t) :
  In r tbl ->
  existsb (fun m => has_pk (primary_key m) r)
          (filter (fun m => TeamMember.user_id m =? uid) tbl)
  = (TeamMember.user_id r =? uid).
Proof.
  intros Hr. destruct (TeamMember.user_id r =? uid) eqn:E.
  - apply existsb_exists. exists r. split; [|apply has_pk_refl].
    apply filter_In. auto.
  - apply not_true_is_false. intros Ex. apply existsb_exists in Ex.
    destruct Ex as [m [Hm Hk]]. apply filter_In in Hm. destruct Hm as [_ Hm].
    apply has_pk_true in Hk. simpl in Hk. inversion Hk as [[Hu Ht]].
    rewrite Hu in E. congruence.
Qed.

(* ================================================================== *)
(** * set_user_active_flag *)
(* ================================================================== *)

Lemma flush_set_active (uid : string) (b : bool) (s : Store) :
  flush_store
    (Dirty_user uid (User.set_is_active b)
     :: map (fun x : TeamMember.t =>
               Dirty_teammember (primary_key x) (TeamMember.set_is_active b))
            (index_order
               (filter (fun m => TeamMember.user_id m =? uid)
                       (teammembers s))))
    s
  = Some (set_active_store uid b s).
Proof.
  unfold flush_store, flush_mapper, set_active_store.
  uow.
  unfold flush_table at 1. cbn [fold_left and_then fst snd].
  rewrite sql_update_keep_pk by reflexivity. cbn [and_then].
  rewrite !flush_table_nil. cbn [and_then].
  match goal with
  | |- context [@flush_table ?R ?M ?D [] (teammembers s)] =>
    replace (@flush_table R M D [] (teammembers s))
      with (Some (map (fun r => if existsb (fun m => has_pk (primary_key m) r)
                                     (index_order
                                        (filter (fun m => TeamMember.user_id m
                                                          =? uid)
                                                (teammembers s)))
                                then TeamMember.set_is_active b r else r)
                      (teammembers s)))
      by (symmetry;
          apply (@flush_table_update_same _ Mapped_TeamMember
                   (TeamMember.set_is_active b));
          reflexivity)
  end.
  unfold flush_table. cbn [and_then fold_left]. do 2 f_equal.
  apply map_ext_in. intros r Hr. unfold index_order.
  now rewrite existsb_sort_by, existsb_member_key.
Qed.

(** What a request to [set_user_active_flag] does, in terms of the rows
    before the call. *)
Lemma set_user_active_flag_run (uid : string) (b : bool) (s : Store) :
  request (set_user_active_flag (UserActive.mk uid b)) s
  = match hd_error (filter (fun u => User.user_id u =? uid) (users s)) with
    | None => (s, Return (Failure USER_NOT_FOUND))
    | Some user =>
      (set_active_store uid b s,
       Return (Success (UserOut.mk uid (User.username user)
         (option_map TeamMember.team_name (first_membership uid s))
         b)))
    end.
Proof.
  unfold request, SessionLocal, set_user_active_flag, try_except,
    first_membership.
  rewrite run_first. simpl. rewrite map_in_memory_nil.
  destruct (hd_error _) as [user|] eqn:Eu; [|reflexivity].
  apply hd_error_filter_In in Eu. destruct Eu as [_ Eu].
  apply String.eqb_eq in Eu.
  rewrite run_setattr, run_all_by_key. simpl. rewrite map_in_memory_nil.
  rewrite run_for_each_setattr, run_first_by_key. simpl. rewrite run_commit.
  rewrite Eu, flush_set_active. simpl.
  do 4 f_equal.
  apply (hd_in_memory_preserves TeamMember.team_name).
  intros d x Hd. apply in_flat_map in Hd. destruct Hd as [w [Hw Hd]].
  apply in_map_iff in Hw. destruct Hw as [m' [<- _]].
  destruct Hd as [<-|[]]. reflexivity.
Qed.

(** A request for a user of the store succeeds, and afterwards the user and
    every membership row of the user carry the requested flag. *)
Lemma set_active_store_users (uid : string) (b : bool) (s : Store) (u : User.t) :
  In u (users (set_active_store uid b s)) -> User.user_id u = uid ->
  User.is_active u = b.
Proof.
  simpl. intros Hin Hu. apply in_map_iff in Hin. destruct Hin as [u0 [E _]].
  destruct (User.user_id u0 =? uid) eqn:E0.
  - now subst u.
  - subst u. apply String.eqb_neq in E0. contradiction.
Qed.

Lemma set_active_store_teammembers (uid : string) (b : bool) (s : Store)
    (m : TeamMember.t) :
  In m (teammembers (set_active_store uid b s)) -> TeamMember.user_id m = uid ->
  TeamMember.is_active m = b.
Proof.
  simpl. intros Hin Hu. apply in_map_iff in Hin. destruct Hin as [m0 [E _]].
  destruct (TeamMember.user_id m0 =? uid) eqn:E0.
  - now subst m.
  - subst m. apply String.eqb_neq in E0. contradiction.
Qed.

Lemma set_active_store_keys (uid : string) (b : bool) (s : Store) :
  map primary_key (users (set_active_store uid b s)) = map primary_key (users s)
  /\ map primary_key (teammembers (set_active_store uid b s))
     = map primary_key (teammembers s).
Proof.
  simpl. rewrite !map_map. split; apply map_ext; intros r.
  - now destruct (User.user_id r =? uid).
  - now destruct (TeamMember.user_id r =? uid).
Qed.

(* ================================================================== *)
(** * create_pull_request_with_reviewers *)
(* ================================================================== *)

Lemma hd_error_filter_existsb {A} (p : A -> bool) (l : list A) :
  hd_error (filter p l) = None -> existsb p l = false.
Proof.
  intros E. apply filter_nil_existsb. now destruct (filter p l).
Qed.

Lemma run_for_fold_add {A B E} (c d : Store) (W : B -> Write) (h : B -> E)
    (l : list B) (k : list E -> Tx A) (w : list Write) (acc : list E) :
  bind (for_fold l acc (fun acc x => add (W x) ;; ret (acc ++ [h x]))) k
       (mkSession false c d w)
  = k (acc ++ map h l) (mkSession false c d (w ++ map W l)).
Proof.
  revert w acc. induction l as [|x l IH]; intros w acc; simpl.
  - now rewrite !app_nil_r.
  - specialize (IH (w ++ [W x]) (acc ++ [h x])).
    rewrite <- !app_assoc in IH. simpl in IH. rewrite <- IH. reflexivity.
Qed.

Lemma flush_new_pullrequest (p : PullRequest.t) (s : Store) :
  existsb (fun q => PullRequest.pull_request_id q
                    =? PullRequest.pull_request_id p) (pullrequests s) = false ->
  flush_store [New_pullrequest p] s
  = Some (mkStore (users s) (teams s) (teammembers s) (pullrequests s ++ [p])
                  (pullrequestreviewers s)).
Proof.
  intros E. unfold flush_store, flush_mapper. uow.
  unfold flush_table. cbn [fold_left and_then]. unfold sql_insert.
  unfold has_pk. cbn [primary_key pk_eqb Mapped_PullRequest].
  rewrite E. reflexivity.
Qed.

Lemma flush_new_reviewers (rs : list PullRequestReviewer.t) (s : Store) :
  flush_store (map New_pullrequestreviewer rs) s
  = match flush_table [] rs (pullrequestreviewers s) with
    | Some rs' => Some (mkStore (users s) (teams s) (teammembers s)
                                (pullrequests s) rs')
    | None => None
    end.
Proof.
  unfold flush_store, flush_mapper. uow.
  rewrite map_id.
  unfold flush_table at 1 2 3 4. cbn [fold_left and_then]. reflexivity.
Qed.

Lemma create_pull_request_run (pid name author : string) (s : Store) :
  request (create_pull_request_with_reviewers (PRCreate.mk pid name author)) s
  = match hd_error (filter (fun p => PullRequest.pull_request_id p =? pid)
                           (pullrequests s)) with
    | Some _ => (s, Return (Failure PR_EXISTS))
    | None =>
      match hd_error (filter (fun u => (User.user_id u =? author)
                                       && is_true (User.is_active u))
                             (users s)) with
      | None => (s, Return (Failure AUTHOR_NOT_FOUND))
      | Some _ =>
        match first_membership author s with
        | None => (s, Return (Failure TEAM_NOT_FOUND))
        | Some author_team_member =>
          let potential_reviewers :=
            firstn 2 (candidates (TeamMember.team_name author_team_member)
                                 author s) in
          match flush_table []
                  (map (fun r => PullRequestReviewer.mk pid
                                   (TeamMember.user_id r))
                       potential_reviewers)
                  (pullrequestreviewers s) with
          | Some rs =>
            (mkStore (users s) (teams s) (teammembers s)
                     (pullrequests s ++ [PullRequest.mk pid name author OPEN])
                     rs,
             Return (Success (PROut.mk pid name author "OPEN"
                       (map TeamMember.user_id potential_reviewers) None)))
          | None => (s, Return (Failure INTEGRITY_ERROR))
          end
        end
      end
    end.
Proof.
  unfold request, SessionLocal, create_pull_request_with_reviewers, try_except,
    first_membership.
  rewrite run_first. simpl. rewrite map_in_memory_nil.
  destruct (hd_error _) as [existing|] eqn:Ep; [reflexivity|].
  rewrite run_first. simpl. rewrite map_in_memory_nil.
  destruct (hd_error (filter _ (users s))) as [a|] eqn:Ea; [|reflexivity].
  rewrite run_first_by_key. simpl. rewrite map_in_memory_nil.
  destruct (hd_error (index_order _)) as [atm|] eqn:Et; [|reflexivity].
  rewrite run_limit. simpl. rewrite map_in_memory_nil.
  rewrite run_add, run_flush. simpl.
  rewrite flush_new_pullrequest by (now apply hd_error_filter_existsb).
  rewrite (run_for_fold_add _ _
             (fun reviewer => New_pullrequestreviewer
                (PullRequestReviewer.mk pid (TeamMember.user_id reviewer)))
             TeamMember.user_id).
  simpl. rewrite run_commit.
  rewrite <- (map_map (fun r => PullRequestReviewer.mk pid (TeamMember.user_id r))
                      New_pullrequestreviewer).
  rewrite flush_new_reviewers. simpl. unfold candidates.
  destruct (flush_table _ _ _); reflexivity.
Qed.

(* ================================================================== *)
(** * merge_pull_request *)
(* ================================================================== *)

Lemma flush_merged (pid : string) (s : Store) :
  flush_store [Dirty_pullrequest pid (PullRequest.set_status MERGED)] s
  = Some (merged_store pid s).
Proof.
  unfold flush_store, flush_mapper. uow.
  unfold flush_table. cbn [fold_left and_then fst snd].
  rewrite sql_update_keep_pk by reflexivity. reflexivity.
Qed.

Lemma merge_pull_request_run (now : datetime.t) (pid : string) (s : Store) :
  request (merge_pull_request now (PRMerge.mk pid)) s
  = match find_pull_request pid s with
    | None => (s, Return (Failure PR_NOT_FOUND))
    | Some pr =>
      (if PRStatus_.eqb (PullRequest.status pr) MERGED then s
       else merged_store pid s,
       Return (Success (PROut.mk pid (PullRequest.pull_request_name pr)
                                 (PullRequest.author_id pr) "MERGED"
                                 (listed_reviewer_ids pid s)
                                 (Some (datetime.isoformat now ++ "Z")%string))))
    end.
Proof.
  unfold request, SessionLocal, merge_pull_request, try_except,
    find_pull_request, listed_reviewer_ids.
  rewrite run_first. simpl. rewrite map_in_memory_nil.
  destruct (hd_error _) as [pr|] eqn:Ep; [|reflexivity].
  apply hd_error_filter_In in Ep. destruct Ep as [_ Ep].
  apply String.eqb_eq in Ep.
  rewrite run_all_by_key. simpl. rewrite map_in_memory_nil.
  destruct (PRStatus_.eqb (PullRequest.status pr) MERGED).
  - simpl. rewrite Ep. reflexivity.
  - rewrite run_setattr. simpl. rewrite run_commit.
    rewrite Ep, flush_merged. reflexivity.
Qed.

(* ================================================================== *)
(** * get_team_with_members and get_user_review_pull_requests *)
(* ================================================================== *)

Lemma get_team_with_members_run (team_name : string) (s : Store) :
  get_team_with_members team_name (SessionLocal s)
  = (SessionLocal s,
     Return
       match hd_error (filter (fun t => Team.team_name t =? team_name)
                              (teams s)) with
       | None => Failure TEAM_NOT_FOUND
       | Some _ =>
         Success (TeamOut.mk team_name
           (map (fun member => MemberData.mk (TeamMember.user_id member)
                                             (TeamMember.username member)
                                             (TeamMember.is_active member))
                (filter (fun m => (TeamMember.team_name m =? team_name)
                                  && is_true (TeamMember.is_active m))
                        (teammembers s))))
       end).
Proof.
  unfold SessionLocal, get_team_with_members, try_except.
  rewrite run_first. simpl. rewrite map_in_memory_nil.
  destruct (hd_error _); [|reflexivity].
  rewrite run_all. simpl. rewrite map_in_memory_nil. reflexivity.
Qed.

Lemma run_review_loop {A} (s : Store) (l : list PullRequestReviewer.t)
    (acc : list PRShortOut.t) (k : list PRShortOut.t -> Tx A) :
  bind (for_fold l acc
          (fun pull_requests_list assignment =>
             pr <- first (query PullRequest.t
                       (fun p => PullRequest.pull_request_id p
                                 =? PullRequestReviewer.pull_request_id
                                      assignment)) ;;
             match pr with
             | Some pr =>
               ret (pull_requests_list
                      ++ [PRShortOut.mk (PullRequest.pull_request_id pr)
                                        (PullRequest.pull_request_name pr)
                                        (PullRequest.author_id pr)
                                        (PRStatus_.value (PullRequest.status pr))])
             | None => ret pull_requests_list
             end))
       k (SessionLocal s)
  = k (acc ++ flat_map (review_entry s) l) (SessionLocal s).
Proof.
  revert acc. induction l as [|a l IH]; intros acc; simpl.
  - now rewrite app_nil_r.
  - rewrite !bind_assoc. unfold SessionLocal at 1. rewrite run_first.
    simpl. rewrite map_in_memory_nil. fold (SessionLocal s).
    unfold review_entry at 1, find_pull_request.
    destruct (hd_error _) as [pr|]; rewrite run_ret_bind, IH.
    + now rewrite <- app_assoc.
    + reflexivity.
Qed.

Lemma get_user_review_pull_requests_run (user_id : string) (s : Store) :
  get_user_review_pull_requests user_id (SessionLocal s)
  = (SessionLocal s,
     Return
       match hd_error (filter (fun u => User.user_id u =? user_id)
                              (users s)) with
       | None => Failure USER_NOT_FOUND
       | Some _ =>
         Success (ReviewOut.mk user_id
           (flat_map (review_entry s)
              (filter (fun r => PullRequestReviewer.user_id r =? user_id)
                      (pullrequestreviewers s))))
       end).
Proof.
  unfold get_user_review_pull_requests, try_except.
  unfold SessionLocal at 1. rewrite run_first. simpl.
  rewrite map_in_memory_nil.
  destruct (hd_error _); [|reflexivity].
  rewrite run_all. simpl. rewrite map_in_memory_nil.
  fold (SessionLocal s). rewrite run_review_loop. reflexivity.
Qed.

(* ================================================================== *)
(** * reassign_pull_request_reviewer *)
(* ================================================================== *)

Lemma not_in_false_iff (a : string) (l : list string) :
  not_in a l = true <-> ~ In a l.
Proof.
  unfold not_in. rewrite negb_true_iff. split.
  - intros E Hin. apply not_true_iff_false in E. apply E.
    apply existsb_exists. exists a. split; [exact Hin | apply String.eqb_refl].
  - intros N. apply not_true_is_false. intros E. apply N.
    apply existsb_exists in E. destruct E as [x [Hx E]].
    apply String.eqb_eq in E. now subst.
Qed.

Lemma in_reviewer_ids (pid uid : string) (s : Store) :
  In uid (reviewer_ids pid s)
  <-> In (PullRequestReviewer.mk pid uid) (pullrequestreviewers s).
Proof.
  unfold reviewer_ids. rewrite in_map_iff. split.
  - intros [r [E Hr]]. apply filter_In in Hr. destruct Hr as [Hr Ep].
    apply String.eqb_eq in Ep. destruct r as [p u]. simpl in *. now subst.
  - intros Hin. exists (PullRequestReviewer.mk pid uid). split; [reflexivity|].
    apply filter_In. split; [exact Hin | apply String.eqb_refl].
Qed.

(** The UPDATE of a reassignment does not violate the key: the new key
    [(pid, new)] is not in the table when [new] does not review [pid]. *)
Lemma sql_update_reassign (pid old new : string) (s : Store) :
  ~ In new (reviewer_ids pid s) ->
  sql_update (pid, old) (PullRequestReviewer.set_user_id new)
             (pullrequestreviewers s)
  = Some (pullrequestreviewers (reassigned_store pid old new s)).
Proof.
  intros N. unfold sql_update.
  replace (existsb _ (pullrequestreviewers s)) with false; [reflexivity|].
  symmetry. apply not_true_is_false. intros E.
  apply existsb_exists in E. destruct E as [r [_ E]].
  apply andb_true_iff in E. destruct E as [E Ex].
  apply andb_true_iff in E. destruct E as [Ek _].
  apply has_pk_true in Ek. apply existsb_has_pk in Ex.
  apply in_map_iff in Ex. destruct Ex as [r' [Er' Hr']].
  apply N. apply in_reviewer_ids.
  destruct r as [p u], r' as [p' u']. simpl in *.
  inversion Ek. inversion Er'. now subst.
Qed.

Lemma flush_reassigned (pid old new : string) (s : Store) :
  ~ In new (reviewer_ids pid s) ->
  flush_store [Dirty_pullrequestreviewer (pid, old)
                 (PullRequestReviewer.set_user_id new)] s
  = Some (reassigned_store pid old new s).
Proof.
  intros N. unfold flush_store, flush_mapper. uow.
  unfold flush_table. cbn [fold_left and_then fst snd].
  rewrite sql_update_reassign by exact N. reflexivity.
Qed.

(** The objects a query returns after the assignment, against the rows a
    query finds after the UPDATE. *)
Lemma updated_reviewer_ids (pid old new : string)
    (l : list PullRequestReviewer.t) :
  map PullRequestReviewer.user_id
    (map (in_memory [((pid, old), PullRequestReviewer.set_user_id new)])
         (filter (fun r => PullRequestReviewer.pull_request_id r =? pid) l))
  = map PullRequestReviewer.user_id
      (filter (fun r => PullRequestReviewer.pull_request_id r =? pid)
         (map (fun r => if has_pk (pid, old) r
                        then PullRequestReviewer.set_user_id new r else r) l)).
Proof.
  assert (K : forall p u, has_pk (pid, old) (PullRequestReviewer.mk p u)
                          = (p =? pid) && (u =? old)) by reflexivity.
  induction l as [|[p u] l IH]; [reflexivity|].
  cbn [map filter PullRequestReviewer.pull_request_id].
  rewrite K.
  destruct (p =? pid) eqn:E1; destruct (u =? old) eqn:E2;
    cbn [andb map in_memory fold_left fst snd
         PullRequestReviewer.set_user_id PullRequestReviewer.pull_request_id
         PullRequestReviewer.user_id filter];
    rewrite ?K, ?E1, ?E2;
    cbn [andb map PullRequestReviewer.set_user_id
         PullRequestReviewer.user_id];
    rewrite ?IH; reflexivity.
Qed.

Lemma not_in_listed (a pid : string) (s : Store) :
  not_in a (listed_reviewer_ids pid s) = not_in a (reviewer_ids pid s).
Proof.
  unfold not_in, listed_reviewer_ids, reviewer_ids, index_order. f_equal.
  apply eq_true_iff_eq. rewrite !existsb_exists.
  split; intros [x [Hx E]]; exists x; (split; [|exact E]);
    apply in_map_iff in Hx; destruct Hx as [r [Er Hr]];
    apply in_map_iff; exists r; (split; [exact Er|]);
    first [now apply in_sort_by in Hr | now apply in_sort_by].
Qed.

(** The objects the last query of a reassignment returns. *)
Lemma relisted_in_memory (pid old new : string)
    (l : list PullRequestReviewer.t) :
  (forall r, In r l -> PullRequestReviewer.pull_request_id r = pid) ->
  map PullRequestReviewer.user_id
    (map (in_memory [((pid, old), PullRequestReviewer.set_user_id new)]) l)
  = map (fun u => if u =? old then new else u)
        (map PullRequestReviewer.user_id l).
Proof.
  assert (K : forall p u, has_pk (pid, old) (PullRequestReviewer.mk p u)
                          = (p =? pid) && (u =? old)) by reflexivity.
  induction l as [|[p u] l IH]; intros Hl; [reflexivity|].
  cbn [map]. rewrite IH by (intros r Hr; apply Hl; now right).
  f_equal. specialize (Hl _ (or_introl eq_refl)).
  cbn [PullRequestReviewer.pull_request_id] in Hl. subst p.
  cbn [in_memory fold_left fst snd]. rewrite K, String.eqb_refl.
  cbn [andb PullRequestReviewer.user_id].
  now destruct (u =? old).
Qed.

Lemma relisted_is_permutation (pid old new : string) (s : Store) :
  Permutation (relisted_reviewer_ids pid old new s)
              (reviewer_ids pid (reassigned_store pid old new s)).
Proof.
  unfold reviewer_ids, reassigned_store. cbn [pullrequestreviewers].
  rewrite <- updated_reviewer_ids.
  rewrite relisted_in_memory
    by (intros r Hr; apply filter_In in Hr; now apply String.eqb_eq).
  unfold relisted_reviewer_ids, listed_reviewer_ids, index_order.
  apply Permutation_map, Permutation_map, sort_by_perm.
Qed.

Lemma reassign_pull_request_reviewer_run (pid old : string) (s : Store) :
  request (reassign_pull_request_reviewer (PRReassign.mk pid old)) s
  = match find_pull_request pid s with
    | None => (s, Return (Failure PR_NOT_FOUND))
    | Some pr =>
      if PRStatus_.eqb (PullRequest.status pr) MERGED
      then (s, Return (Failure PR_MERGED))
      else
        match hd_error
                (filter (fun r => (PullRequestReviewer.pull_request_id r =? pid)
                                  && (PullRequestReviewer.user_id r =? old))
                        (pullrequestreviewers s)) with
        | None => (s, Return (Failure NOT_ASSIGNED))
        | Some _ =>
          match first_membership old s with
          | None => (s, Return (Failure USER_NOT_IN_TEAM))
          | Some old_reviewer_team =>
            match find_candidate (TeamMember.team_name old_reviewer_team)
                                 (PullRequest.author_id pr) pid s with
            | None => (s, Return (Failure NO_CANDIDATE))
            | Some candidate =>
              let new := TeamMember.user_id candidate in
              (reassigned_store pid old new s,
               Return (Success (ReassignOut.mk
                 (PROut.mk pid (PullRequest.pull_request_name pr)
                           (PullRequest.author_id pr)
                           (PRStatus_.value (PullRequest.status pr))
                           (relisted_reviewer_ids pid old new s)
                           None)
                 new)))
            end
          end
        end
    end.
Proof.
  unfold request, SessionLocal, reassign_pull_request_reviewer, try_except,
    find_pull_request, find_candidate, first_membership.
  rewrite run_first. simpl. rewrite map_in_memory_nil.
  destruct (hd_error _) as [pr|] eqn:Ep; [|reflexivity].
  apply hd_error_filter_In in Ep. destruct Ep as [_ Ep].
  apply String.eqb_eq in Ep.
  destruct (PRStatus_.eqb (PullRequest.status pr) MERGED); [reflexivity|].
  rewrite run_first. simpl. rewrite map_in_memory_nil.
  destruct (hd_error (filter _ (pullrequestreviewers s))) as [ora|] eqn:Eo;
    [|reflexivity].
  apply hd_error_filter_In in Eo. destruct Eo as [_ Eo].
  apply andb_true_iff in Eo. rewrite !String.eqb_eq in Eo.
  destruct Eo as [Eo1 Eo2].
  rewrite run_first_by_key. simpl. rewrite map_in_memory_nil.
  destruct (hd_error (index_order _)) as [ort|] eqn:Et; [|reflexivity].
  rewrite run_all_by_key. simpl. rewrite map_in_memory_nil.
  rewrite run_first. simpl. rewrite map_in_memory_nil.
  fold (listed_reviewer_ids pid s). clear Et.
  rewrite (filter_ext _
             (fun m => (TeamMember.team_name m =? TeamMember.team_name ort)
                       && neqb (TeamMember.user_id m) (PullRequest.author_id pr)
                       && not_in (TeamMember.user_id m) (reviewer_ids pid s)
                       && is_true (TeamMember.is_active m)))
    by (intros m; now rewrite not_in_listed).
  destruct (hd_error (filter _ (teammembers s))) as [cand|] eqn:Ec;
    [|reflexivity].
  apply hd_error_filter_In in Ec. destruct Ec as [_ Ec].
  rewrite !andb_true_iff in Ec. destruct Ec as [[[_ _] Ec] _].
  apply not_in_false_iff in Ec.
  rewrite run_setattr, run_all_by_key. simpl. rewrite run_commit.
  rewrite Eo1, Eo2, flush_reassigned by exact Ec. simpl.
  rewrite Ep. do 5 f_equal.
  unfold relisted_reviewer_ids, listed_reviewer_ids.
  apply relisted_in_memory. intros r Hr. unfold index_order in Hr.
  apply in_sort_by in Hr. apply filter_In in Hr. now apply String.eqb_eq.
Qed.

(* ================================================================== *)
(** * create_team_with_members *)
(* ================================================================== *)

Lemma run_member_loop {A} (team_name : string) (c d : Store)
    (l : list MemberData.t) (k : list TeamMember.t -> Tx A)
    (w : list Write) (acc : list TeamMember.t) :
  bind (for_fold l acc
          (fun created_members member_data =>
             let user_id := MemberData.user_id member_data in
             let username := MemberData.username member_data in
             let is_active := MemberData.is_active member_data in
             let user := User.mk user_id username is_active in
             merge user ;;
             let team_member :=
               TeamMember.mk user_id team_name username is_active in
             add (New_teammember team_member) ;;
             ret (created_members
                    ++ [TeamMember.mk user_id team_name username is_active])))
       k (mkSession false c d w)
  = k (acc ++ map (member_row team_name) l)
      (mkSession false c d (w ++ flat_map (member_writes team_name d) l)).
Proof.
  revert w acc. induction l as [|x l IH]; intros w acc; simpl.
  - now rewrite !app_nil_r.
  - rewrite !bind_assoc. cbv zeta. rewrite run_merge.
    rewrite !bind_assoc, run_add, run_ret_bind, IH.
    rewrite <- !app_assoc. reflexivity.
Qed.

Lemma new_teammembers_of_loop (team_name : string) (d : Store)
    (l : list MemberData.t) :
  new_of (flat_map (member_writes team_name d) l)
  = map (member_row team_name) l.
Proof.
  induction l as [|x l IH]; [reflexivity|].
  cbn [flat_map member_writes app map]. cbn [new_of Table_TeamMember] in *.
  cbn [flat_map]. rewrite IH.
  destruct (existsb _ (users d)); reflexivity.
Qed.

Lemma flush_new_team (t : Team.t) (s : Store) :
  existsb (fun q => Team.team_name q =? Team.team_name t) (teams s) = false ->
  flush_store [New_team t] s
  = Some (mkStore (users s) (teams s ++ [t]) (teammembers s) (pullrequests s)
                  (pullrequestreviewers s)).
Proof.
  intros E. unfold flush_store, flush_mapper. uow.
  unfold flush_table. cbn [fold_left and_then]. unfold sql_insert.
  unfold has_pk. cbn [primary_key pk_eqb Mapped_Team].
  rewrite E. reflexivity.
Qed.

Lemma create_team_with_members_run (team_name : string)
    (members : list MemberData.t) (s : Store) :
  request (create_team_with_members (TeamCreate.mk team_name members)) s
  = match hd_error (filter (fun t => Team.team_name t =? team_name)
                           (teams s)) with
    | Some _ => (s, Return (Failure TEAM_EXISTS))
    | None =>
      match flush_store
              (flat_map (member_writes team_name (with_team team_name s))
                        members)
              (with_team team_name s) with
      | Some s' =>
        (s', Return (Success (TeamOut.mk team_name
                                (map (member_row team_name) members))))
      | None => (s, Return (Failure INTEGRITY_ERROR))
      end
    end.
Proof.
  unfold request, SessionLocal, create_team_with_members, try_except.
  rewrite run_first. simpl. rewrite map_in_memory_nil.
  destruct (hd_error _) as [existing|] eqn:Et; [reflexivity|].
  rewrite run_add, run_flush. simpl.
  rewrite flush_new_team by (now apply hd_error_filter_existsb).
  fold (with_team team_name s).
  rewrite run_member_loop. simpl. rewrite run_commit.
  destruct (flush_store _ _); reflexivity.
Qed.

(** Two INSERTs with the same key: the flush fails. *)
Lemma flush_store_duplicate_members (team_name : string) (d s : Store)
    (members : list MemberData.t) :
  ~ NoDup (map MemberData.user_id members) ->
  flush_store (flat_map (member_writes team_name d) members) s = None.
Proof.
  intros ND. unfold flush_store.
  destruct (flush_mapper User.t _ s); [|reflexivity]. cbn [and_then].
  destruct (flush_mapper Team.t _ s); [|reflexivity]. cbn [and_then].
  destruct (flush_mapper TeamMember.t _ s) as [ms|] eqn:E; [|reflexivity].
  exfalso. apply ND. unfold flush_mapper in E.
  rewrite new_teammembers_of_loop in E. unfold flush_table in E.
  destruct (fold_left _ (dirty_of _) _) as [tbl|]; [|discriminate].
  cbn [and_then] in E. apply fold_insert_Some in E.
  destruct E as [_ [E _]]. rewrite map_map in E.
  apply (NoDup_map_inv (fun u => (u, team_name))). now rewrite map_map.
Qed.

(* ================================================================== *)
(** * isoformat tells instants apart *)
(* ================================================================== *)

Module datetime_facts.
Import datetime.

Lemma digit_inj (a b : Z) : digit a = digit b -> (a mod 10 = b mod 10)%Z.
Proof.
  unfold digit.
  assert (Ha : (0 <= a mod 10 < 10)%Z) by (apply Z.mod_pos_bound; lia).
  assert (Hb : (0 <= b mod 10 < 10)%Z) by (apply Z.mod_pos_bound; lia).
  set (x := (a mod 10)%Z) in *. set (y := (b mod 10)%Z) in *.
  clearbody x y.
  assert (Hx : (x = 0 \/ x = 1 \/ x = 2 \/ x = 3 \/ x = 4 \/ x = 5 \/ x = 6
                \/ x = 7 \/ x = 8 \/ x = 9)%Z) by lia.
  assert (Hy : (y = 0 \/ y = 1 \/ y = 2 \/ y = 3 \/ y = 4 \/ y = 5 \/ y = 6
                \/ y = 7 \/ y = 8 \/ y = 9)%Z) by lia.
  clear Ha Hb.
  repeat (destruct Hx as [Hx|Hx]); subst x;
    repeat (destruct Hy as [Hy|Hy]); subst y;
    intros E; first [reflexivity | discriminate E].
Qed.

Lemma d2_inj (a b : Z) (r1 r2 : string) :
  d2 a r1 = d2 b r2 -> (a mod 100 = b mod 100)%Z /\ r1 = r2.
Proof.
  unfold d2. intros E. inversion E as [[E1 E2 E3]].
  apply digit_inj in E1, E2. split; [Z.div_mod_to_equations; lia | reflexivity].
Qed.

Lemma d4_inj (a b : Z) (r1 r2 : string) :
  d4 a r1 = d4 b r2 -> (a mod 10000 = b mod 10000)%Z /\ r1 = r2.
Proof.
  unfold d4. intros E. apply d2_inj in E. destruct E as [E1 E].
  apply d2_inj in E. destruct E as [E2 E]. split; [Z.div_mod_to_equations; lia | exact E].
Qed.

Lemma d6_inj (a b : Z) (r1 r2 : string) :
  d6 a r1 = d6 b r2 -> (a mod 1000000 = b mod 1000000)%Z /\ r1 = r2.
Proof.
  unfold d6. intros E. apply d2_inj in E. destruct E as [E1 E].
  apply d4_inj in E. destruct E as [E2 E]. split; [Z.div_mod_to_equations; lia | exact E].
Qed.

(** Two instants with the same rendering are the same instant. *)
Lemma isoformat_Z_inj (t1 t2 : t) :
  valid t1 -> valid t2 ->
  (isoformat t1 ++ "Z")%string = (isoformat t2 ++ "Z")%string -> t1 = t2.
Proof.
  destruct t1 as [y1 mo1 da1 h1 mi1 s1 us1], t2 as [y2 mo2 da2 h2 mi2 s2 us2].
  unfold valid, isoformat. cbn [year month day hour minute second microsecond].
  intros V1 V2 E.
  unfold d4, d2 in E. cbn [String.append] in E.
  inversion E as [[Ey1 Ey2 Ey3 Ey4 Emo1 Emo2 Eda1 Eda2 Eh1 Eh2 Emi1 Emi2
                   Es1 Es2 Eus]].
  apply digit_inj in Ey1, Ey2, Ey3, Ey4, Emo1, Emo2, Eda1, Eda2, Eh1, Eh2,
    Emi1, Emi2, Es1, Es2.
  assert (us1 = us2) as ->.
  { destruct (Z.eqb_spec us1 0) as [U1|U1], (Z.eqb_spec us2 0) as [U2|U2];
      cbn [String.append] in Eus; try congruence; try discriminate Eus.
    unfold d6, d4, d2 in Eus. cbn [String.append] in Eus.
    injection Eus as D1 D2 D3 D4 D5 D6.
    apply digit_inj in D1, D2, D3, D4, D5, D6.
    Z.div_mod_to_equations; lia. }
  f_equal; Z.div_mod_to_equations; lia.
Qed.
End datetime_facts.

(* ================================================================== *)
(** * Facts about unique keys *)
(* ================================================================== *)

Section UniqueFacts.
Context {R : Type} `{MappedLaws R}.

(** With a unique key an UPDATE by key changes one row, in place. *)
Lemma update_one_row (k : PK) (f : R -> R) (r0 : R) (tbl : list R) :
  unique_pk tbl -> In r0 tbl -> primary_key r0 = k ->
  exists l1 l2,
    tbl = l1 ++ r0 :: l2 /\
    map (fun r => if has_pk k r then f r else r) tbl = l1 ++ f r0 :: l2.
Proof.
  intros U Hin Hk. apply in_split in Hin. destruct Hin as [l1 [l2 ->]].
  exists l1, l2. split; [reflexivity|].
  unfold unique_pk in U. rewrite map_app in U. simpl in U.
  pose proof (NoDup_remove_2 _ _ _ U) as N.
  rewrite map_app. simpl.
  assert (Hid : forall l, (forall r, In r l -> primary_key r <> k) ->
                map (fun r => if has_pk k r then f r else r) l = l).
  { intros l Hl. rewrite <- (map_id l) at 2. apply map_ext_in.
    intros r Hr. apply Hl in Hr. apply has_pk_false in Hr. now rewrite Hr. }
  rewrite !Hid.
  - apply has_pk_true in Hk. now rewrite Hk.
  - intros r Hr E. apply N. rewrite in_app_iff. right.
    rewrite Hk, <- E. now apply in_map.
  - intros r Hr E. apply N. rewrite in_app_iff. left.
    rewrite Hk, <- E. now apply in_map.
Qed.
End UniqueFacts.

Lemma In_firstn {A} (n : nat) (l : list A) (x : A) :
  In x (firstn n l) -> In x l.
Proof.
  intros Hin. rewrite <- (firstn_skipn n l). apply in_or_app. now left.
Qed.

Lemma hd_error_filter_map {A} (p : A -> bool) (f : A -> A) (l : list A) :
  (forall x, p (f x) = p x) ->
  hd_error (filter p (map f l)) = option_map f (hd_error (filter p l)).
Proof.
  intros Hp. induction l as [|a l IH]; simpl; [reflexivity|].
  rewrite Hp. destruct (p a); [reflexivity | exact IH].
Qed.

(* ================================================================== *)
(** * The keys stay unique *)
(* ================================================================== *)

Section KeyInvariant.
Context {R : Type} `{MappedLaws R}.

Lemma sql_insert_unique (r : R) (tbl tbl' : list R) :
  unique_pk tbl -> sql_insert r tbl = Some tbl' -> unique_pk tbl'.
Proof.
  unfold sql_insert, unique_pk. intros U.
  destruct (existsb _ tbl) eqn:Ex; [discriminate|].
  intros E. injection E as <-. rewrite map_app. simpl.
  apply (Permutation_NoDup (Permutation_cons_append _ _)).
  constructor; [|exact U]. rewrite <- existsb_has_pk. congruence.
Qed.

Lemma sql_update_unique (k : PK) (f : R -> R) (tbl tbl' : list R) :
  unique_pk tbl -> sql_update k f tbl = Some tbl' -> unique_pk tbl'.
Proof.
  unfold sql_update. intros U.
  destruct (existsb _ tbl) eqn:Ex; [discriminate|].
  intros E. injection E as <-.
  destruct (existsb (has_pk k) tbl) eqn:Ek.
  - apply existsb_exists in Ek. destruct Ek as [r0 [Hr0 Ek]].
    destruct (update_one_row k f r0 tbl U Hr0 (proj1 (has_pk_true k r0) Ek))
      as [l1 [l2 [E1 E2]]].
    rewrite E2. unfold unique_pk in *.
    assert (Hc : has_pk k (f r0) = true
                 \/ existsb (has_pk (primary_key (f r0))) tbl = false).
    { destruct (has_pk k (f r0)) eqn:Ef; [now left | right].
      apply not_true_is_false. intros Et.
      apply not_true_iff_false in Ex. apply Ex.
      apply existsb_exists. exists r0. split; [exact Hr0|].
      now rewrite Ek, Ef, Et. }
    destruct Hc as [Hc|Hc].
    + apply has_pk_true in Hc. apply has_pk_true in Ek.
      rewrite map_app. simpl. rewrite Hc, <- Ek.
      rewrite E1, map_app in U. exact U.
    + rewrite E1, map_app in U. simpl in U.
      rewrite map_app. simpl.
      apply (Permutation_NoDup (Permutation_middle _ _ _)).
      constructor; [|exact (NoDup_remove_1 _ _ _ U)].
      intros Hin. apply not_true_iff_false in Hc. apply Hc.
      apply existsb_has_pk. rewrite E1, map_app. simpl.
      apply in_app_iff in Hin. apply in_app_iff.
      destruct Hin; [now left | right; now right].
  - replace (map _ tbl) with tbl; [exact U|].
    rewrite <- (map_id tbl) at 1. apply map_ext_in. intros r Hr.
    destruct (has_pk k r) eqn:E; [|reflexivity].
    apply not_true_iff_false in Ek. exfalso. apply Ek.
    apply existsb_exists. now exists r.
Qed.

Lemma flush_table_unique (dirty : list (PK * (R -> R))) (new tbl tbl' : list R) :
  unique_pk tbl -> flush_table dirty new tbl = Some tbl' -> unique_pk tbl'.
Proof.
  unfold flush_table. intros U E.
  destruct (fold_left _ dirty (Some tbl)) as [tbl1|] eqn:Ed; [|discriminate].
  cbn [and_then] in E.
  assert (U1 : unique_pk tbl1).
  { clear E. revert tbl U Ed. induction dirty as [|d dirty IH]; intros tbl U.
    - simpl. intros E. now injection E as <-.
    - simpl. destruct (sql_update (fst d) (snd d) tbl) as [t|] eqn:Eu.
      + apply IH. exact (sql_update_unique _ _ _ _ U Eu).
      + now rewrite fold_update_None. }
  clear Ed U. revert tbl1 U1 E. induction new as [|r new IH]; intros tbl1 U1.
  - simpl. intros E. now injection E as <-.
  - simpl. destruct (sql_insert r tbl1) as [t|] eqn:Ei.
    + apply IH. exact (sql_insert_unique _ _ _ U1 Ei).
    + now rewrite fold_insert_None.
Qed.
End KeyInvariant.

Lemma flush_store_unique (w : list Write) (s s' : Store) :
  unique_keys s -> flush_store w s = Some s' -> unique_keys s'.
Proof.
  unfold flush_store, unique_keys.
  intros [U1 [U2 [U3 [U4 U5]]]].
  destruct (flush_mapper User.t w s) as [us|] eqn:E1; [|discriminate].
  destruct (flush_mapper Team.t w s) as [ts|] eqn:E2; [|discriminate].
  destruct (flush_mapper TeamMember.t w s) as [ms|] eqn:E3; [|discriminate].
  destruct (flush_mapper PullRequest.t w s) as [ps|] eqn:E4; [|discriminate].
  destruct (flush_mapper PullRequestReviewer.t w s) as [rs|] eqn:E5;
    [|discriminate].
  cbn [and_then]. intros E. injection E as <-.
  cbn [users teams teammembers pullrequests pullrequestreviewers].
  unfold flush_mapper in *.
  repeat split; eapply flush_table_unique; eauto.
Qed.

Lemma keeps_ret {A} (a : A) : keeps (ret a).
Proof. intros db Hdb. exact Hdb. Qed.

Lemma keeps_bind {A B} (m : Tx A) (k : A -> Tx B) :
  keeps m -> (forall a, keeps (k a)) -> keeps (bind m k).
Proof.
  intros Hm Hk db Hdb. specialize (Hm db Hdb). unfold bind.
  destruct (m db) as [db' [a|e]]; [apply Hk|]; exact Hm.
Qed.

Lemma keeps_try_except {A} (body : Tx A) (handler : Exception -> Tx A) :
  keeps body -> (forall e, keeps (handler e)) -> keeps (try_except body handler).
Proof.
  intros Hm Hk db Hdb. specialize (Hm db Hdb). unfold try_except.
  destruct (body db) as [db' [a|e]]; [|apply Hk]; exact Hm.
Qed.

Lemma keeps_for_each {A} (l : list A) (body : A -> Tx unit) :
  (forall x, keeps (body x)) -> keeps (for_each l body).
Proof.
  intros Hb. induction l as [|x l IH]; simpl;
    [apply keeps_ret | apply keeps_bind; auto].
Qed.

Lemma keeps_for_fold {A S} (l : list A) (acc : S) (body : S -> A -> Tx S) :
  (forall a x, keeps (body a x)) -> keeps (for_fold l acc body).
Proof.
  intros Hb. revert acc. induction l as [|x l IH]; intros acc; simpl;
    [apply keeps_ret | apply keeps_bind; auto].
Qed.

Lemma keeps_flush : keeps flush.
Proof.
  intros db [Hc Hd]. unfold flush.
  destruct (flush_store _ _) as [d|] eqn:E; [|now split].
  split; [exact Hc | exact (flush_store_unique _ _ _ Hd E)].
Qed.

Lemma keeps_commit : keeps commit.
Proof.
  apply keeps_bind; [apply keeps_flush|].
  intros _ db [_ Hd]. now split.
Qed.

Lemma keeps_rollback : keeps rollback.
Proof. intros db [Hc _]. now split. Qed.

Lemma keeps_record (w : Write) : keeps (record w).
Proof. intros db Hdb. exact Hdb. Qed.

Lemma keeps_autoflush : keeps _autoflush.
Proof.
  intros db Hdb. unfold _autoflush.
  destruct (autoflush db); [now apply keeps_flush | exact Hdb].
Qed.

Lemma keeps_query (R : Type) `{Table R} (p : R -> bool) : keeps (query R p).
Proof.
  apply keeps_bind; [apply keeps_autoflush|]. intros _ db Hdb. exact Hdb.
Qed.

Lemma keeps_query_by_key (R : Type) {M : Mapped R} {T : @Table R M}
    {I : @Indexed R M} (p : R -> bool) : keeps (query_by_key R p).
Proof.
  apply keeps_bind; [apply keeps_autoflush|]. intros _ db Hdb. exact Hdb.
Qed.

Lemma keeps_merge (u : User.t) : keeps (merge u).
Proof.
  apply keeps_bind; [apply keeps_autoflush|]. intros _ db Hdb.
  destruct (existsb _ _); exact Hdb.
Qed.

Ltac keeps_step :=
  first
    [ apply keeps_ret | apply keeps_flush | apply keeps_commit
    | apply keeps_rollback | apply keeps_record | apply keeps_merge
    | apply keeps_query | apply keeps_query_by_key
    | apply keeps_bind; [|intros]
    | apply keeps_try_except; [|intros]
    | apply keeps_for_each; intros
    | apply keeps_for_fold; intros
    | match goal with
      | |- keeps (match ?x with _ => _ end) => destruct x
      end ].

Ltac keeps_all :=
  cbv zeta;
  unfold first, all, limit, add, setattr;
  repeat (cbv zeta; keeps_step).

(** Every operation of interaction.py keeps the keys unique, whatever it
    answers. *)
Lemma operations_keep_keys :
  (forall d, keeps (create_team_with_members d))
  /\ (forall n, keeps (get_team_with_members n))
  /\ (forall d, keeps (set_user_active_flag d))
  /\ (forall d, keeps (create_pull_request_with_reviewers d))
  /\ (forall now d, keeps (merge_pull_request now d))
  /\ (forall u, keeps (get_user_review_pull_requests u))
  /\ (forall d, keeps (reassign_pull_request_reviewer d)).
Proof.
  refine (conj _ (conj _ (conj _ (conj _ (conj _ (conj _ _))))));
    repeat match goal with |- forall _, _ => intro end.
  - unfold create_team_with_members. keeps_all.
  - unfold get_team_with_members. keeps_all.
  - unfold set_user_active_flag. keeps_all.
  - unfold create_pull_request_with_reviewers. keeps_all.
  - unfold merge_pull_request. keeps_all.
  - unfold get_user_review_pull_requests. keeps_all.
  - unfold reassign_pull_request_reviewer. keeps_all.
Qed.

Lemma request_keeps_keys {A} (op : Tx A) (s : Store) :
  keeps op -> unique_keys s -> unique_keys (fst (request op s)).
Proof.
  intros Hop Hs. unfold request.
  specialize (Hop (SessionLocal s) (conj Hs Hs)).
  destruct (op (SessionLocal s)) as [db r]. exact (proj1 Hop).
Qed.

Lemma empty_store_unique : unique_keys empty_store.
Proof. repeat split; constructor. Qed.

(* ================================================================== *)
(** * The example stores are reachable *)
(* ================================================================== *)

Example payments_is_reachable :
  fst (request (create_pull_request_with_reviewers
                  (PRCreate.mk "pr-1001" "Add search" "u1"))
         (fst (request (create_team_with_members
                          (TeamCreate.mk "payments"
                             [MemberData.mk "u1" "Alice" true;
                              MemberData.mk "u2" "Bob" true;
                              MemberData.mk "u3" "Charlie" true;
                              MemberData.mk "u4" "David" true]))
                       empty_store)))
  = payments.
Proof. reflexivity. Qed.

(** The example store is reached from the empty store by two requests, so
    its keys are unique. *)
Lemma payments_unique : unique_keys payments.
Proof.
  rewrite <- payments_is_reachable.
  apply request_keeps_keys; [apply operations_keep_keys|].
  apply request_keeps_keys; [apply operations_keep_keys|].
  apply empty_store_unique.
Qed.

(* ================================================================== *)
(** * The membership a search of the key finds first *)
(* ================================================================== *)

Lemma pair_leb_total (a b : string * string) :
  pair_leb a b = true \/ pair_leb b a = true.
Proof.
  destruct a as [a1 a2], b as [b1 b2]. unfold pair_leb. cbn [fst snd].
  rewrite (String.eqb_sym b1 a1).
  destruct (a1 =? b1); apply String.leb_total.
Qed.

Lemma pair_leb_trans (a b c : string * string) :
  pair_leb a b = true -> pair_leb b c = true -> pair_leb a c = true.
Proof.
  destruct a as [a1 a2], b as [b1 b2], c as [c1 c2].
  unfold pair_leb. cbn [fst snd].
  destruct (String.eqb_spec a1 b1) as [->|Nab];
    destruct (String.eqb_spec b1 c1) as [->|Nbc].
  - apply string_leb_trans.
  - intros _ H. exact H.
  - intros H _. destruct (String.eqb_spec a1 c1); [contradiction | exact H].
  - intros H1 H2. destruct (String.eqb_spec a1 c1) as [->|Nac].
    + exfalso. apply Nab. now apply String.leb_antisym.
    + now apply (string_leb_trans a1 b1 c1).
Qed.

Lemma first_membership_Some (uid : string) (s : Store) (m : TeamMember.t) :
  first_membership uid s = Some m ->
  In m (teammembers s) /\ TeamMember.user_id m = uid
  /\ TeamMember.is_active m = true.
Proof.
  unfold first_membership, index_order. intros E.
  assert (Hm : In m (sort_by
                       (fun a b => pk_leb (primary_key a) (primary_key b))
                       (filter (fun m => (TeamMember.user_id m =? uid)
                                         && is_true (TeamMember.is_active m))
                               (teammembers s)))).
  { destruct (sort_by _ _) as [|x l]; [discriminate|].
    injection E as ->. now left. }
  apply in_sort_by, filter_In in Hm. destruct Hm as [Hm P].
  apply andb_true_iff in P. destruct P as [Eu Ea].
  apply String.eqb_eq in Eu. unfold is_true in Ea.
  split; [exact Hm|]. split; [exact Eu|].
  now destruct (TeamMember.is_active m).
Qed.

Lemma first_membership_None (uid : string) (s : Store) :
  first_membership uid s = None -> ~ has_active_membership uid s.
Proof.
  unfold first_membership, index_order. intros E [m [Hm [Eu Ea]]].
  apply hd_sort_by_None in E. apply (hd_error_filter_None _ _ E) in Hm.
  rewrite Eu, Ea, String.eqb_refl in Hm. discriminate.
Qed.

Lemma first_membership_found (uid : string) (s : Store) :
  has_active_membership uid s -> exists m, first_membership uid s = Some m.
Proof.
  intros H. destruct (first_membership uid s) as [m|] eqn:E;
    [now exists m|].
  now apply first_membership_None in E.
Qed.

(** Of the active memberships of the user, the first is the one whose team
    name comes first. *)
Lemma first_membership_least (uid : string) (s : Store) (m : TeamMember.t) :
  first_membership uid s = Some m ->
  forall m', In m' (teammembers s) -> TeamMember.user_id m' = uid ->
             TeamMember.is_active m' = true ->
             String.leb (TeamMember.team_name m) (TeamMember.team_name m')
             = true.
Proof.
  intros E m' Hm' Eu' Ea'.
  destruct (first_membership_Some uid s m E) as [_ [Eu _]].
  unfold first_membership, index_order in E.
  assert (L : pk_leb (primary_key m) (primary_key m') = true).
  { refine (hd_sort_by_least
              (fun a b : TeamMember.t =>
                 pk_leb (primary_key a) (primary_key b)) _ m _ _ E m' _).
    - intros a b c. apply pair_leb_trans.
    - intros a b. apply pair_leb_total.
    - apply filter_In. split; [exact Hm'|].
      now rewrite Eu', Ea', String.eqb_refl. }
  cbn [pk_leb Indexed_TeamMember primary_key Mapped_TeamMember] in L.
  unfold pair_leb in L. cbn [fst snd] in L.
  now rewrite Eu, Eu', String.eqb_refl in L.
Qed.

(** With one active membership there is nothing to choose. *)
Lemma first_membership_only (uid : string) (s : Store) (m : TeamMember.t) :
  filter (fun m => (TeamMember.user_id m =? uid)
                   && is_true (TeamMember.is_active m)) (teammembers s) = [m] ->
  first_membership uid s = Some m.
Proof. unfold first_membership, index_order. now intros ->. Qed.

(** A lookup by the whole key comes out the same from the index and from
    the table: its rows all have one key. *)
Lemma query_by_key_whole_key (R : Type) {M : Mapped R} {T : @Table R M}
    {I : @Indexed R M} (where_ : R -> bool) (k : PK) (db : Session) :
  pk_leb k k = true ->
  (forall r, where_ r = true -> primary_key r = k) ->
  query_by_key R where_ db = query R where_ db.
Proof.
  intros Hk Hw. unfold query_by_key, query, bind.
  destruct (_autoflush db) as [db' [[]|e]]; [|reflexivity].
  unfold index_order. rewrite sort_by_same; [reflexivity|].
  intros x y Hx Hy. apply filter_In in Hx, Hy.
  now rewrite (Hw x (proj2 Hx)), (Hw y (proj2 Hy)).
Qed.

(* ================================================================== *)
(** * The order of the rows, on two stores *)
(* ================================================================== *)

Example zeta_alpha_is_reachable :
  fst (request (create_team_with_members
                  (TeamCreate.mk "alpha"
                     [MemberData.mk "u1" "Alice" true;
                      MemberData.mk "u3" "Charlie" true]))
         (fst (request (create_team_with_members
                          (TeamCreate.mk "zeta"
                             [MemberData.mk "u1" "Alice" true]))
                       empty_store)))
  = zeta_alpha.
Proof. reflexivity. Qed.

Example u3_before_u2_is_reachable :
  fst (request (create_pull_request_with_reviewers
                  (PRCreate.mk "p1" "Add search" "u1"))
         (fst (request (create_team_with_members
                          (TeamCreate.mk "payments"
                             [MemberData.mk "u1" "Alice" true;
                              MemberData.mk "u3" "Charlie" true;
                              MemberData.mk "u2" "Bob" true;
                              MemberData.mk "u4" "David" true]))
                       empty_store)))
  = u3_before_u2.
Proof. reflexivity. Qed.

(** The team of an author with two teams is the one whose name comes first,
    not the one joined first: u1 gets u3 of team alpha as reviewer, although
    the membership in zeta, which has no other member, is the older row. *)
Example create_pull_request_takes_first_team_name :
  first_membership "u1" zeta_alpha
  = Some (TeamMember.mk "u1" "alpha" "Alice" true)
  /\ request (create_pull_request_with_reviewers
                (PRCreate.mk "pr-1" "Two teams" "u1")) zeta_alpha
     = (mkStore (users zeta_alpha) (teams zeta_alpha) (teammembers zeta_alpha)
                [PullRequest.mk "pr-1" "Two teams" "u1" OPEN]
                [PullRequestReviewer.mk "pr-1" "u3"],
        Return (Success (PROut.mk "pr-1" "Two teams" "u1" "OPEN" ["u3"]
                                  None))).
Proof. split; reflexivity. Qed.

(** The reviewers are listed by user id, not in the order of the rows. *)
Example merge_lists_reviewers_by_user_id :
  reviewer_ids "p1" u3_before_u2 = ["u3"; "u2"]
  /\ request (merge_pull_request (datetime.mk 2025 11 20 10 0 0 0)
                                 (PRMerge.mk "p1")) u3_before_u2
     = (merged_store "p1" u3_before_u2,
        Return (Success (PROut.mk "p1" "Add search" "u1" "MERGED"
                                  ["u2"; "u3"]
                                  (Some "2025-11-20T10:00:00Z")))).
Proof. split; reflexivity. Qed.

(** A reassignment answers with the list as it was ordered before the
    change: u4 stands where u3 stood, after u2, while the row of u4 is the
    first of the two rows. *)
Example reassign_lists_reviewers_as_before :
  request (reassign_pull_request_reviewer (PRReassign.mk "p1" "u3"))
          u3_before_u2
  = (reassigned_store "p1" "u3" "u4" u3_before_u2,
     Return (Success (ReassignOut.mk
       (PROut.mk "p1" "Add search" "u1" "OPEN" ["u2"; "u4"] None) "u4")))
  /\ reviewer_ids "p1" (reassigned_store "p1" "u3" "u4" u3_before_u2)
     = ["u4"; "u2"].
Proof. split; reflexivity. Qed.

(* ================================================================== *)
(** * The claims *)
(* ================================================================== *)

(** C1. For every user present in the store, [set_user_active_flag] succeeds
    and sets the flag of the user and of every membership row of that user,
    in whatever team, to the requested value: afterwards no membership row of
    the user differs from the flag of the user.  No user or membership row is
    added or removed. *)
Theorem set_user_active_propagates (s : Store) (uid : string) (b : bool) :
  (exists u, In u (users s) /\ User.user_id u = uid) ->
  exists s' out,
    request (set_user_active_flag (UserActive.mk uid b)) s
      = (s', Return (Success out))
    /\ UserOut.is_active out = b
    /\ (exists u, In u (users s') /\ User.user_id u = uid)
    /\ (forall u, In u (users s') -> User.user_id u = uid ->
                  User.is_active u = b)
    /\ (forall m, In m (teammembers s') -> TeamMember.user_id m = uid ->
                  TeamMember.is_active m = b)
    /\ map primary_key (users s') = map primary_key (users s)
    /\ map primary_key (teammembers s') = map primary_key (teammembers s).
Proof.
  intros [u [Hu Eu]]. rewrite set_user_active_flag_run.
  destruct (hd_error _) as [user|] eqn:E.
  - eexists _, _. split; [reflexivity|]. split; [reflexivity|].
    split; [|split; [|split; [|apply set_active_store_keys]]].
    + exists (User.set_is_active b u). split; [|exact Eu].
      simpl. apply in_map_iff. exists u. split; [|exact Hu].
      apply String.eqb_eq in Eu. now rewrite Eu.
    + apply set_active_store_users.
    + apply set_active_store_teammembers.
  - exfalso. apply (hd_error_filter_None _ _ E) in Hu.
    apply String.eqb_neq in Hu. contradiction.
Qed.

Lemma set_user_active_propagates_witness :
  exists s' out,
    request (set_user_active_flag (UserActive.mk "u2" false)) payments
      = (s', Return (Success out))
    /\ UserOut.is_active out = false
    /\ (exists u, In u (users s') /\ User.user_id u = "u2")
    /\ (forall u, In u (users s') -> User.user_id u = "u2" ->
                  User.is_active u = false)
    /\ (forall m, In m (teammembers s') -> TeamMember.user_id m = "u2" ->
                  TeamMember.is_active m = false)
    /\ map primary_key (users s') = map primary_key (users payments)
    /\ map primary_key (teammembers s')
       = map primary_key (teammembers payments).
Proof.
  apply (set_user_active_propagates payments "u2" false).
  exists (User.mk "u2" "Bob" true). split; [simpl; auto | reflexivity].
Defined.

(** C2. Every successful reassignment returns a replacement that is neither
    the author of the pull request nor one of its reviewers at the time of
    the call, the replaced one included.  It changes the [user_id] of one
    reviewer row, in place: the reviewer table is the same list with that one
    row naming the replacement, so the rows of the pull request keep their
    number and every row keeps its pull request; nothing else is written.
    The response lists the reviewers in the order of their keys before the
    change, with the replacement in the place of the replaced one: the same
    reviewers as the rows after the change, not always in the same order.
    The reviewer table has a unique key, as the schema demands. *)
Theorem reassign_replaces_one_row (s s' : Store) (pid old : string)
    (out : ReassignOut.t) :
  unique_pk (pullrequestreviewers s) ->
  request (reassign_pull_request_reviewer (PRReassign.mk pid old)) s
    = (s', Return (Success out)) ->
  let new := ReassignOut.replaced_by out in
  (exists pr, find_pull_request pid s = Some pr
              /\ new <> PullRequest.author_id pr)
  /\ ~ In new (reviewer_ids pid s)
  /\ In old (reviewer_ids pid s)
  /\ new <> old
  /\ (exists l1 l2,
        pullrequestreviewers s
          = l1 ++ PullRequestReviewer.mk pid old :: l2
        /\ pullrequestreviewers s'
           = l1 ++ PullRequestReviewer.mk pid new :: l2)
  /\ length (reviewer_ids pid s') = length (reviewer_ids pid s)
  /\ map PullRequestReviewer.pull_request_id (pullrequestreviewers s')
     = map PullRequestReviewer.pull_request_id (pullrequestreviewers s)
  /\ PROut.assigned_reviewers (ReassignOut.pr out)
     = relisted_reviewer_ids pid old new s
  /\ Permutation (PROut.assigned_reviewers (ReassignOut.pr out))
                 (reviewer_ids pid s')
  /\ users s' = users s /\ teams s' = teams s
  /\ teammembers s' = teammembers s /\ pullrequests s' = pullrequests s.
Proof.
  intros U. rewrite reassign_pull_request_reviewer_run.
  destruct (find_pull_request pid s) as [pr|] eqn:Ep; [|discriminate].
  destruct (PRStatus_.eqb _ _); [discriminate|].
  destruct (hd_error _) as [ora|] eqn:Eo; [|discriminate].
  destruct (first_membership old s) as [ort|]; [|discriminate].
  destruct (find_candidate _ _ _ _) as [cand|] eqn:Ec; [|discriminate].
  cbv zeta. intros E. inversion E; subst s' out; clear E.
  cbn [ReassignOut.replaced_by ReassignOut.pr PROut.assigned_reviewers].
  set (new := TeamMember.user_id cand).
  (* the candidate passed the filter *)
  unfold find_candidate in Ec. apply hd_error_filter_In in Ec.
  destruct Ec as [_ Ec]. rewrite !andb_true_iff in Ec.
  destruct Ec as [[[_ Ea] En] _].
  apply negb_true_iff, String.eqb_neq in Ea.
  apply not_in_false_iff in En. fold new in Ea, En.
  (* the row of the old reviewer *)
  apply hd_error_filter_In in Eo. destruct Eo as [Ho Eo].
  apply andb_true_iff in Eo. rewrite !String.eqb_eq in Eo.
  assert (ora = PullRequestReviewer.mk pid old) as ->.
  { destruct ora; simpl in Eo; destruct Eo; now subst. }
  assert (Hold : In old (reviewer_ids pid s)) by now apply in_reviewer_ids.
  destruct (@update_one_row _ _ MappedLaws_PullRequestReviewer (pid, old)
              (PullRequestReviewer.set_user_id new)
              (PullRequestReviewer.mk pid old) _ U Ho eq_refl)
    as [l1 [l2 [E1 E2]]].
  cbn [PullRequestReviewer.set_user_id PullRequestReviewer.pull_request_id] in E2.
  assert (Hrows : pullrequestreviewers (reassigned_store pid old new s)
                  = l1 ++ PullRequestReviewer.mk pid new :: l2) by exact E2.
  split; [exists pr; auto|]. split; [exact En|]. split; [exact Hold|].
  split; [congruence|]. split; [exists l1, l2; auto|].
  split; [|split; [|split; [reflexivity|split; [|repeat split]]]].
  - unfold reviewer_ids. rewrite Hrows, E1, !length_map, !filter_app.
    cbn [filter PullRequestReviewer.pull_request_id].
    rewrite String.eqb_refl, !length_app. reflexivity.
  - rewrite Hrows, E1, !map_app. reflexivity.
  - apply relisted_is_permutation.
Qed.

Lemma reassign_replaces_one_row_witness :
  unique_pk (pullrequestreviewers payments)
  /\ request (reassign_pull_request_reviewer (PRReassign.mk "pr-1001" "u2"))
             payments
     = (reassigned_store "pr-1001" "u2" "u4" payments,
        Return (Success (ReassignOut.mk
          (PROut.mk "pr-1001" "Add search" "u1" "OPEN" ["u4"; "u3"] None)
          "u4")))
  /\ ~ In "u4" (reviewer_ids "pr-1001" payments)
  /\ "u4" <> "u2".
Proof.
  assert (U : unique_pk (pullrequestreviewers payments))
    by exact (proj2 (proj2 (proj2 (proj2 payments_unique)))).
  assert (E : request (reassign_pull_request_reviewer
                         (PRReassign.mk "pr-1001" "u2")) payments
              = (reassigned_store "pr-1001" "u2" "u4" payments,
                 Return (Success (ReassignOut.mk
                   (PROut.mk "pr-1001" "Add search" "u1" "OPEN" ["u4"; "u3"]
                             None)
                   "u4")))) by reflexivity.
  pose proof (reassign_replaces_one_row payments _ "pr-1001" "u2" _ U E) as P.
  cbv zeta in P.
  split; [exact U|]. split; [exact E|].
  split; [exact (proj1 (proj2 P)) | exact (proj1 (proj2 (proj2 (proj2 P))))].
Defined.

(** C3. A successful [create_pull_request_with_reviewers] assigns the first
    two candidates of the author's team, the active members other than the
    author: the author is never among the reviewers, there are at most two of
    them, and their number is the smaller of 2 and the number of candidates.
    With no candidate at all the call still succeeds, with no reviewer.  The
    author's team is the team of the author's active membership whose team
    name comes first. *)
Theorem create_pull_request_assigns (s : Store) (pid name author : string) :
  (forall s' out,
     request (create_pull_request_with_reviewers
                (PRCreate.mk pid name author)) s
       = (s', Return (Success out)) ->
     ~ In author (PROut.assigned_reviewers out)
     /\ length (PROut.assigned_reviewers out) <= 2
     /\ exists author_team_member,
          first_membership author s = Some author_team_member
          /\ In author_team_member (teammembers s)
          /\ TeamMember.user_id author_team_member = author
          /\ TeamMember.is_active author_team_member = true
          /\ (forall m, In m (teammembers s) ->
                TeamMember.user_id m = author ->
                TeamMember.is_active m = true ->
                String.leb (TeamMember.team_name author_team_member)
                           (TeamMember.team_name m) = true)
          /\ let pool := candidates (TeamMember.team_name author_team_member)
                                    author s in
             (forall m, In m pool <->
                In m (teammembers s)
                /\ TeamMember.team_name m
                   = TeamMember.team_name author_team_member
                /\ TeamMember.user_id m <> author
                /\ TeamMember.is_active m = true)
             /\ PROut.assigned_reviewers out
                = map TeamMember.user_id (firstn 2 pool)
             /\ length (PROut.assigned_reviewers out)
                = Nat.min 2 (length pool)
             /\ pullrequestreviewers s'
                = pullrequestreviewers s
                  ++ map (PullRequestReviewer.mk pid)
                         (PROut.assigned_reviewers out)
             /\ pullrequests s'
                = pullrequests s ++ [PullRequest.mk pid name author OPEN])
  /\
  (forall author_team_member,
     find_pull_request pid s = None ->
     (exists u, In u (users s) /\ User.user_id u = author
                /\ User.is_active u = true) ->
     first_membership author s = Some author_team_member ->
     (forall m, In m (teammembers s) ->
        TeamMember.team_name m = TeamMember.team_name author_team_member ->
        TeamMember.is_active m = true ->
        TeamMember.user_id m = author) ->
     request (create_pull_request_with_reviewers
                (PRCreate.mk pid name author)) s
     = (mkStore (users s) (teams s) (teammembers s)
                (pullrequests s ++ [PullRequest.mk pid name author OPEN])
                (pullrequestreviewers s),
        Return (Success (PROut.mk pid name author "OPEN" [] None)))).
Proof.
  rewrite create_pull_request_run. split.
  - intros s' out.
    destruct (hd_error _) as [existing|]; [discriminate|].
    destruct (hd_error (filter _ (users s))) as [a|]; [|discriminate].
    destruct (first_membership author s) as [atm|] eqn:Et; [|discriminate].
    cbv zeta.
    remember (firstn 2 (candidates (TeamMember.team_name atm) author s))
      as potential_reviewers eqn:Epot.
    destruct (flush_table _ _ _) as [rs|] eqn:Ef; [|discriminate].
    intros E. injection E as <- <-.
    cbn [PROut.assigned_reviewers pullrequestreviewers pullrequests].
    subst potential_reviewers.
    split; [|split].
    + intros Hin. apply in_map_iff in Hin. destruct Hin as [m [Em Hm]].
      apply In_firstn in Hm. apply filter_In in Hm. destruct Hm as [_ Hm].
      rewrite !andb_true_iff in Hm. destruct Hm as [[_ Hm] _].
      apply negb_true_iff, String.eqb_neq in Hm. contradiction.
    + rewrite length_map, length_firstn. lia.
    + exists atm. split; [reflexivity|].
      destruct (first_membership_Some _ _ _ Et) as [Hatm [Eatm Aatm]].
      split; [exact Hatm|]. split; [exact Eatm|]. split; [exact Aatm|].
      split; [exact (first_membership_least _ _ _ Et)|].
      split.
      { intros m. unfold candidates. rewrite filter_In, !andb_true_iff.
        unfold neqb, is_true.
        rewrite negb_true_iff, String.eqb_eq, String.eqb_neq.
        destruct (TeamMember.is_active m); simpl; intuition congruence. }
      split; [reflexivity|].
      split; [now rewrite length_map, length_firstn|].
      split; [|reflexivity].
      unfold flush_table in Ef. cbn [fold_left and_then] in Ef.
      apply fold_insert_Some in Ef. destruct Ef as [-> _].
      now rewrite map_map.
  - intros atm Ep [u [Hu [Eu Au]]] Et Hnone.
    assert (Ec : candidates (TeamMember.team_name atm) author s = []).
    { unfold candidates.
      destruct (filter _ (teammembers s)) as [|m l] eqn:Ef; [reflexivity|].
      assert (Hm : In m (m :: l)) by now left.
      rewrite <- Ef in Hm. apply filter_In in Hm. destruct Hm as [Hm Pm].
      rewrite !andb_true_iff in Pm. destruct Pm as [[Pt Pa] Pact].
      apply String.eqb_eq in Pt. apply negb_true_iff, String.eqb_neq in Pa.
      unfold is_true in Pact. exfalso. apply Pa. apply (Hnone m Hm Pt).
      now destruct (TeamMember.is_active m). }
    unfold find_pull_request in Ep. rewrite Ep, Et.
    destruct (hd_error (filter _ (users s))) as [a|] eqn:Ea.
    + cbv zeta. rewrite Ec. reflexivity.
    + exfalso. apply (hd_error_filter_None _ _ Ea) in Hu.
      rewrite Eu, Au, String.eqb_refl in Hu. discriminate.
Qed.

Lemma create_pull_request_assigns_witness :
  (request (create_pull_request_with_reviewers
              (PRCreate.mk "pr-1002" "Fix bug" "u2")) payments
   = (mkStore (users payments) (teams payments) (teammembers payments)
              (pullrequests payments
                 ++ [PullRequest.mk "pr-1002" "Fix bug" "u2" OPEN])
              (pullrequestreviewers payments
                 ++ [PullRequestReviewer.mk "pr-1002" "u1";
                     PullRequestReviewer.mk "pr-1002" "u3"]),
      Return (Success (PROut.mk "pr-1002" "Fix bug" "u2" "OPEN" ["u1"; "u3"]
                                None)))
   /\ ~ In "u2" ["u1"; "u3"])
  /\ ((forall m, In m (teammembers solo) ->
         TeamMember.team_name m = "solo" -> TeamMember.is_active m = true ->
         TeamMember.user_id m = "u1")
      /\ request (create_pull_request_with_reviewers
                    (PRCreate.mk "pr-1" "Alone" "u1")) solo
         = (mkStore (users solo) (teams solo) (teammembers solo)
                    [PullRequest.mk "pr-1" "Alone" "u1" OPEN] [],
            Return (Success (PROut.mk "pr-1" "Alone" "u1" "OPEN" [] None)))).
Proof.
  split.
  - split; [reflexivity|].
    exact (proj1 (proj1 (create_pull_request_assigns payments
                           "pr-1002" "Fix bug" "u2") _ _ eq_refl)).
  - assert (N : forall m, In m (teammembers solo) ->
                  TeamMember.team_name m = "solo" ->
                  TeamMember.is_active m = true ->
                  TeamMember.user_id m = "u1").
    { simpl. intros m [<-|[]] _ _. reflexivity. }
    split; [exact N|].
    apply (proj2 (create_pull_request_assigns solo "pr-1" "Alone" "u1")
                 (TeamMember.mk "u1" "solo" "Alice" true)).
    + reflexivity.
    + exists (User.mk "u1" "Alice" true). simpl. auto.
    + reflexivity.
    + exact N.
Defined.

(** The team name in the response of [set_user_active_flag] is read by a
    query that runs before the flush: it is the team of the first membership
    of the user, by team name, that was active before the call, whatever the
    new flag. *)
Lemma set_user_active_team_name_before (s : Store) (uid : string) (b : bool)
    (user : User.t) :
  hd_error (filter (fun u => User.user_id u =? uid) (users s)) = Some user ->
  exists s' out,
    request (set_user_active_flag (UserActive.mk uid b)) s
      = (s', Return (Success out))
    /\ UserOut.team_name out
       = option_map TeamMember.team_name (first_membership uid s).
Proof.
  intros E. rewrite set_user_active_flag_run, E.
  eexists _, _. split; reflexivity.
Qed.

Example set_user_active_with_autoflush :
  snd (set_user_active_flag (UserActive.mk "u1" false) (SessionAutoflush solo))
  = Return (Success (UserOut.mk "u1" "Alice" None false)).
Proof. reflexivity. Qed.

(** C4. Deactivating u1, whose only membership is active, in a session of
    [SessionLocal]: the membership row is inactive afterwards, and the
    response still names its team, because the query for the active
    membership saw the rows as they were before the assignment. *)
Theorem set_user_active_returns_stale_team :
  request (set_user_active_flag (UserActive.mk "u1" false)) solo
  = (mkStore [User.mk "u1" "Alice" false] [Team.mk "solo"]
             [TeamMember.mk "u1" "solo" "Alice" false] [] [],
     Return (Success (UserOut.mk "u1" "Alice" (Some "solo") false))).
Proof. reflexivity. Qed.

(** The other direction: activating a user whose membership is inactive
    answers with no team, although the membership is active afterwards. *)
Example set_user_active_misses_team :
  request (set_user_active_flag (UserActive.mk "u1" true))
          (mkStore [User.mk "u1" "Alice" false] [Team.mk "solo"]
                   [TeamMember.mk "u1" "solo" "Alice" false] [] [])
  = (solo, Return (Success (UserOut.mk "u1" "Alice" None true))).
Proof. reflexivity. Qed.

Lemma Some_inj {A} {a b : A} : Some a = Some b -> a = b.
Proof. congruence. Qed.

Lemma find_merged (pid : string) (s : Store) (pr : PullRequest.t) :
  find_pull_request pid s = Some pr ->
  find_pull_request pid (merged_store pid s)
  = Some (PullRequest.set_status MERGED pr).
Proof.
  unfold find_pull_request, merged_store. cbn [pullrequests]. intros E.
  rewrite hd_error_filter_map.
  - rewrite E. cbn [option_map].
    apply hd_error_filter_In in E. destruct E as [_ E]. now rewrite E.
  - intros x.
    destruct (PullRequest.pull_request_id x =? pid) eqn:Ex; simpl; auto.
Qed.

(** C5. Merging is idempotent: for the id of a pull request of the store, a
    first and a second call both succeed with status MERGED, the second
    response lists the reviewers of the first, which are the reviewers of
    the pull request in the order of their user ids, and the second call
    leaves the store as the first call left it, with the pull request
    MERGED. *)
Theorem merge_pull_request_idempotent (s : Store) (pid : string)
    (pr : PullRequest.t) (now1 now2 : datetime.t) :
  find_pull_request pid s = Some pr ->
  exists s1 out1 out2,
    request (merge_pull_request now1 (PRMerge.mk pid)) s
      = (s1, Return (Success out1))
    /\ request (merge_pull_request now2 (PRMerge.mk pid)) s1
       = (s1, Return (Success out2))
    /\ PROut.status out1 = "MERGED" /\ PROut.status out2 = "MERGED"
    /\ PROut.assigned_reviewers out2 = PROut.assigned_reviewers out1
    /\ PROut.assigned_reviewers out1 = listed_reviewer_ids pid s
    /\ Permutation (PROut.assigned_reviewers out1) (reviewer_ids pid s)
    /\ find_pull_request pid s1 = Some (PullRequest.set_status MERGED pr)
    /\ pullrequestreviewers s1 = pullrequestreviewers s.
Proof.
  intros E. rewrite merge_pull_request_run, E.
  assert (P : Permutation (listed_reviewer_ids pid s) (reviewer_ids pid s)).
  { unfold listed_reviewer_ids, reviewer_ids, index_order.
    apply Permutation_map, sort_by_perm. }
  destruct (PRStatus_.eqb (PullRequest.status pr) MERGED) eqn:Es.
  - eexists _, _, _. split; [reflexivity|].
    rewrite merge_pull_request_run, E, Es.
    split; [reflexivity|].
    refine (conj eq_refl (conj eq_refl (conj eq_refl (conj eq_refl
              (conj P (conj _ eq_refl)))))).
    f_equal. destruct pr as [i n a st]. simpl in *.
    now destruct st.
  - eexists _, _, _. split; [reflexivity|].
    rewrite merge_pull_request_run, (find_merged _ _ _ E).
    cbn [PullRequest.set_status PullRequest.status PRStatus_.eqb].
    split; [reflexivity|].
    exact (conj eq_refl (conj eq_refl (conj eq_refl (conj eq_refl
             (conj P (conj eq_refl eq_refl)))))).
Qed.

Lemma merge_pull_request_idempotent_witness :
  find_pull_request "pr-1001" payments
    = Some (PullRequest.mk "pr-1001" "Add search" "u1" OPEN)
  /\ exists s1 out1 out2,
    request (merge_pull_request (datetime.mk 2025 11 20 10 0 0 0)
                                (PRMerge.mk "pr-1001")) payments
      = (s1, Return (Success out1))
    /\ request (merge_pull_request (datetime.mk 2025 11 20 10 0 7 15)
                                   (PRMerge.mk "pr-1001")) s1
       = (s1, Return (Success out2))
    /\ PROut.status out1 = "MERGED" /\ PROut.status out2 = "MERGED"
    /\ PROut.assigned_reviewers out2 = PROut.assigned_reviewers out1
    /\ PROut.assigned_reviewers out1 = listed_reviewer_ids "pr-1001" payments
    /\ Permutation (PROut.assigned_reviewers out1)
                   (reviewer_ids "pr-1001" payments)
    /\ find_pull_request "pr-1001" s1
       = Some (PullRequest.set_status MERGED
                 (PullRequest.mk "pr-1001" "Add search" "u1" OPEN))
    /\ pullrequestreviewers s1 = pullrequestreviewers payments.
Proof.
  split; [reflexivity|].
  apply (merge_pull_request_idempotent payments "pr-1001"
           (PullRequest.mk "pr-1001" "Add search" "u1" OPEN)).
  reflexivity.
Defined.

(** C6. On a pull request that is MERGED a reassignment fails with PR_MERGED
    whoever the reviewer to replace is, assigned or not, in a team or not,
    with or without a candidate, and the store is left as it was. *)
Theorem reassign_on_merged_fails (s : Store) (pid old : string)
    (pr : PullRequest.t) :
  find_pull_request pid s = Some pr ->
  PullRequest.status pr = MERGED ->
  request (reassign_pull_request_reviewer (PRReassign.mk pid old)) s
  = (s, Return (Failure PR_MERGED)).
Proof.
  intros E Es. rewrite reassign_pull_request_reviewer_run, E, Es. reflexivity.
Qed.

Lemma reassign_on_merged_fails_witness :
  find_pull_request "pr-1001" payments_merged
    = Some (PullRequest.mk "pr-1001" "Add search" "u1" MERGED)
  /\ request (reassign_pull_request_reviewer (PRReassign.mk "pr-1001" "u2"))
             payments_merged
     = (payments_merged, Return (Failure PR_MERGED))
  /\ request (reassign_pull_request_reviewer (PRReassign.mk "pr-1001" "u999"))
             payments_merged
     = (payments_merged, Return (Failure PR_MERGED)).
Proof.
  split; [reflexivity|]. split.
  - apply (reassign_on_merged_fails payments_merged "pr-1001" "u2"
             (PullRequest.mk "pr-1001" "Add search" "u1" MERGED));
      reflexivity.
  - apply (reassign_on_merged_fails payments_merged "pr-1001" "u999"
             (PullRequest.mk "pr-1001" "Add search" "u1" MERGED));
      reflexivity.
Defined.

(** C7. [mergedAt] is the clock at response time and is stored nowhere: a
    pull request row has no such column; on a pull request that is MERGED,
    two calls at different instants leave the store untouched and answer
    with different [mergedAt]; and for any pull request the rows written by a
    merge do not depend on the clock. *)
Theorem merged_at_is_not_persisted (s : Store) (pid : string)
    (pr : PullRequest.t) (now1 now2 : datetime.t) :
  find_pull_request pid s = Some pr ->
  PullRequest.status pr = MERGED ->
  datetime.valid now1 -> datetime.valid now2 -> now1 <> now2 ->
  (exists out1 out2,
     request (merge_pull_request now1 (PRMerge.mk pid)) s
       = (s, Return (Success out1))
     /\ request (merge_pull_request now2 (PRMerge.mk pid)) s
        = (s, Return (Success out2))
     /\ PROut.mergedAt out1 = Some (datetime.isoformat now1 ++ "Z")%string
     /\ PROut.mergedAt out2 = Some (datetime.isoformat now2 ++ "Z")%string
     /\ PROut.mergedAt out1 <> PROut.mergedAt out2)
  /\ (forall s0 pid0,
        fst (request (merge_pull_request now1 (PRMerge.mk pid0)) s0)
        = fst (request (merge_pull_request now2 (PRMerge.mk pid0)) s0)).
Proof.
  intros E Es V1 V2 N. split.
  - rewrite !merge_pull_request_run, E, Es. cbn [PRStatus_.eqb].
    eexists _, _. repeat split.
    cbn [PROut.mergedAt]. intros Eq. apply N.
    apply datetime_facts.isoformat_Z_inj; [exact V1 | exact V2 |].
    exact (Some_inj Eq).
  - intros s0 pid0. rewrite !merge_pull_request_run.
    destruct (find_pull_request pid0 s0); reflexivity.
Qed.

Lemma merged_at_is_not_persisted_witness :
  datetime.valid (datetime.mk 2025 11 20 10 0 0 0)
  /\ datetime.valid (datetime.mk 2025 11 20 10 0 7 15)
  /\ exists out1 out2,
     request (merge_pull_request (datetime.mk 2025 11 20 10 0 0 0)
                                 (PRMerge.mk "pr-1001")) payments_merged
       = (payments_merged, Return (Success out1))
     /\ request (merge_pull_request (datetime.mk 2025 11 20 10 0 7 15)
                                    (PRMerge.mk "pr-1001")) payments_merged
        = (payments_merged, Return (Success out2))
     /\ PROut.mergedAt out1 = Some "2025-11-20T10:00:00Z"
     /\ PROut.mergedAt out2 = Some "2025-11-20T10:00:07.000015Z"
     /\ PROut.mergedAt out1 <> PROut.mergedAt out2.
Proof.
  assert (V1 : datetime.valid (datetime.mk 2025 11 20 10 0 0 0))
    by (unfold datetime.valid; simpl; lia).
  assert (V2 : datetime.valid (datetime.mk 2025 11 20 10 0 7 15))
    by (unfold datetime.valid; simpl; lia).
  split; [exact V1|]. split; [exact V2|].
  apply (merged_at_is_not_persisted payments_merged "pr-1001"
           (PullRequest.mk "pr-1001" "Add search" "u1" MERGED)
           (datetime.mk 2025 11 20 10 0 0 0)
           (datetime.mk 2025 11 20 10 0 7 15)
           eq_refl eq_refl V1 V2).
  discriminate.
Defined.

(** C8, as stated, fails: with an id that is already taken the call answers
    PR_EXISTS before it looks at the author, here an author that does not
    exist. *)
Lemma author_not_found_counterexample :
  request (create_pull_request_with_reviewers
             (PRCreate.mk "pr-1001" "Again" "u999")) payments
    = (payments, Return (Failure PR_EXISTS))
  /\ ~ author_not_found_exactly_when_inactive payments "pr-1001" "Again" "u999".
Proof.
  split; [reflexivity|]. intros [H _].
  assert (E : snd (request (create_pull_request_with_reviewers
                              (PRCreate.mk "pr-1001" "Again" "u999")) payments)
              = Return (Failure AUTHOR_NOT_FOUND)).
  { apply H. simpl. intros u Hu Eu.
    repeat (destruct Hu as [<-|Hu]; [discriminate Eu|]). destruct Hu. }
  discriminate E.
Qed.

(** C8, amended. For an id that is not taken yet, the call fails with
    AUTHOR_NOT_FOUND exactly when no user row with [author] is active, be it
    that the user is inactive or that there is no such user; the failure
    leaves the store as it was, so no pull request or reviewer row is made. *)
Theorem author_not_found_iff_no_active_author (s : Store)
    (pid name author : string) :
  find_pull_request pid s = None ->
  author_not_found_exactly_when_inactive s pid name author
  /\ (forall s' code,
        request (create_pull_request_with_reviewers
                   (PRCreate.mk pid name author)) s
          = (s', Return (Failure code)) ->
        code = AUTHOR_NOT_FOUND -> s' = s).
Proof.
  intros Ep. unfold author_not_found_exactly_when_inactive.
  rewrite create_pull_request_run. unfold find_pull_request in Ep. rewrite Ep.
  destruct (hd_error (filter _ (users s))) as [a|] eqn:Ea.
  - apply hd_error_filter_In in Ea. destruct Ea as [Ha Ea].
    apply andb_true_iff in Ea. destruct Ea as [Eu Eact].
    apply String.eqb_eq in Eu. apply eqb_prop in Eact.
    split; [split|].
    + intros H. specialize (H a Ha Eu). congruence.
    + destruct (first_membership _ s); [|discriminate].
      cbv zeta. destruct (flush_table _ _ _); discriminate.
    + intros s' code.
      destruct (first_membership _ s).
      * cbv zeta. destruct (flush_table _ _ _); intros E ->; discriminate E.
      * intros E ->. discriminate E.
  - split; [split; [reflexivity|]|].
    + intros _ u Hu Eu. apply (hd_error_filter_None _ _ Ea) in Hu.
      rewrite Eu, String.eqb_refl in Hu. simpl in Hu.
      unfold is_true in Hu. now destruct (User.is_active u).
    + intros s' code E _. congruence.
Qed.

Lemma author_not_found_iff_no_active_author_witness :
  find_pull_request "pr-7" (set_active_store "u1" false payments) = None
  /\ request (create_pull_request_with_reviewers
                (PRCreate.mk "pr-7" "By inactive" "u1"))
             (set_active_store "u1" false payments)
     = (set_active_store "u1" false payments,
        Return (Failure AUTHOR_NOT_FOUND))
  /\ request (create_pull_request_with_reviewers
                (PRCreate.mk "pr-7" "By nobody" "u999"))
             (set_active_store "u1" false payments)
     = (set_active_store "u1" false payments,
        Return (Failure AUTHOR_NOT_FOUND))
  /\ author_not_found_exactly_when_inactive
       (set_active_store "u1" false payments) "pr-7" "By inactive" "u1".
Proof.
  split; [reflexivity|]. split; [reflexivity|]. split; [reflexivity|].
  exact (proj1 (author_not_found_iff_no_active_author
                  (set_active_store "u1" false payments)
                  "pr-7" "By inactive" "u1" eq_refl)).
Defined.

(** C9, as stated, fails: when the team exists already the call answers
    TEAM_EXISTS before it looks at the members, duplicates or not. *)
Lemma duplicate_member_counterexample :
  ~ NoDup (map MemberData.user_id
             [MemberData.mk "u7" "Eve" true; MemberData.mk "u7" "Eve" true])
  /\ request (create_team_with_members
                (TeamCreate.mk "payments"
                   [MemberData.mk "u7" "Eve" true;
                    MemberData.mk "u7" "Eve" true])) payments
     = (payments, Return (Failure TEAM_EXISTS))
  /\ request (create_team_with_members
                (TeamCreate.mk "payments"
                   [MemberData.mk "u7" "Eve" true;
                    MemberData.mk "u7" "Eve" true])) payments
     <> (payments, Return (Failure INTEGRITY_ERROR)).
Proof.
  split; [|split; [reflexivity | discriminate]].
  intros N. inversion N as [|x l Hx _]; subst. apply Hx. now left.
Qed.

(** C9, amended. For a team name that is not taken yet and a member list
    that names a user twice, the call fails with INTEGRITY_ERROR, on the
    second INSERT of the key [(user_id, team_name)] at the latest, and the
    rollback leaves the store as it was: no team row, no user, no membership
    row of the call remains. *)
Theorem duplicate_member_is_rolled_back (s : Store) (team_name : string)
    (members : list MemberData.t) :
  ~ In team_name (map Team.team_name (teams s)) ->
  ~ NoDup (map MemberData.user_id members) ->
  request (create_team_with_members (TeamCreate.mk team_name members)) s
  = (s, Return (Failure INTEGRITY_ERROR)).
Proof.
  intros Ht ND. rewrite create_team_with_members_run.
  destruct (hd_error _) as [t|] eqn:E.
  - exfalso. apply hd_error_filter_In in E. destruct E as [Hin E].
    apply String.eqb_eq in E. apply Ht. rewrite <- E. now apply in_map.
  - now rewrite flush_store_duplicate_members.
Qed.

Lemma duplicate_member_is_rolled_back_witness :
  ~ In "search" (map Team.team_name (teams payments))
  /\ ~ NoDup (map MemberData.user_id
                [MemberData.mk "u7" "Eve" true; MemberData.mk "u1" "Alice" true;
                 MemberData.mk "u7" "Eve" false])
  /\ request (create_team_with_members
                (TeamCreate.mk "search"
                   [MemberData.mk "u7" "Eve" true;
                    MemberData.mk "u1" "Alice" true;
                    MemberData.mk "u7" "Eve" false])) payments
     = (payments, Return (Failure INTEGRITY_ERROR)).
Proof.
  assert (Ht : ~ In "search" (map Team.team_name (teams payments))).
  { simpl. intros [E|[]]. discriminate E. }
  assert (ND : ~ NoDup (map MemberData.user_id
                [MemberData.mk "u7" "Eve" true; MemberData.mk "u1" "Alice" true;
                 MemberData.mk "u7" "Eve" false])).
  { intros N. inversion N as [|x l Hx _]; subst. apply Hx. simpl. auto. }
  split; [exact Ht|]. split; [exact ND|].
  exact (duplicate_member_is_rolled_back payments "search" _ Ht ND).
Defined.

(** C10. [get_team_with_members] and [get_user_review_pull_requests] only
    read: on every input, found or not, they return a response and leave
    the session as it was, with nothing flushed and nothing pending, so the
    five tables of the store are the ones before the call. *)
Theorem reads_leave_the_store_unchanged :
  (forall s team_name,
     (exists r, get_team_with_members team_name (SessionLocal s)
                = (SessionLocal s, Return r))
     /\ fst (request (get_team_with_members team_name) s) = s)
  /\ (forall s user_id,
        (exists r, get_user_review_pull_requests user_id (SessionLocal s)
                   = (SessionLocal s, Return r))
        /\ fst (request (get_user_review_pull_requests user_id) s) = s).
Proof.
  split; intros s x; unfold request.
  - rewrite get_team_with_members_run. split; [eexists|]; reflexivity.
  - rewrite get_user_review_pull_requests_run. split; [eexists|]; reflexivity.
Qed.

(* ================================================================== *)
(** * Failures, frames and compositions *)
(* ================================================================== *)

(** X1. Every operation of interaction.py that writes is atomic: whatever the
    input and the store, it answers with a response and never lets an
    exception out, and when the response is a failure the store is the one
    before the call. *)
Theorem writing_operations_are_atomic :
  (forall d, atomic (create_team_with_members d))
  /\ (forall d, atomic (set_user_active_flag d))
  /\ (forall d, atomic (create_pull_request_with_reviewers d))
  /\ (forall now d, atomic (merge_pull_request now d))
  /\ (forall d, atomic (reassign_pull_request_reviewer d)).
Proof.
  refine (conj _ (conj _ (conj _ (conj _ _)))).
  - intros [team members] s. rewrite create_team_with_members_run.
    destruct (hd_error _); [|destruct (flush_store _ _)];
      eexists; (split; [reflexivity|]); intros code E;
      first [reflexivity | discriminate E].
  - intros [uid b] s. rewrite set_user_active_flag_run.
    destruct (hd_error _);
      eexists; (split; [reflexivity|]); intros code E;
      first [reflexivity | discriminate E].
  - intros [pid name author] s. rewrite create_pull_request_run.
    destruct (hd_error _);
      [|destruct (hd_error (filter _ (users s)));
        [destruct (first_membership _ s);
          [cbv zeta; destruct (flush_table _ _ _)|]|]];
      eexists; (split; [reflexivity|]); intros code E;
      first [reflexivity | discriminate E].
  - intros now [pid] s. rewrite merge_pull_request_run.
    destruct (find_pull_request pid s);
      eexists; (split; [reflexivity|]); intros code E;
      first [reflexivity | discriminate E].
  - intros [pid old] s. rewrite reassign_pull_request_reviewer_run.
    destruct (find_pull_request pid s) as [pr|];
      [destruct (PRStatus_.eqb _ _);
        [|destruct (hd_error _);
          [destruct (first_membership _ s);
            [destruct (find_candidate _ _ _ _)|]|]]|];
      eexists; (split; [reflexivity|]); intros code E;
      first [reflexivity | discriminate E].
Qed.

Lemma filter_map_frame {A} (p : A -> bool) (f : A -> A) (l : list A) :
  (forall x, p (f x) = p x) -> (forall x, p x = true -> f x = x) ->
  filter p (map f l) = filter p l.
Proof.
  intros Hp Hf. induction l as [|a l IH]; simpl; [reflexivity|].
  rewrite Hp. destruct (p a) eqn:E; [|exact IH].
  now rewrite (Hf a E), IH.
Qed.

(** X2. [set_user_active_flag] writes the rows of one user only: teams, pull
    requests and reviewer rows are untouched, and so are, in their order, the
    user rows and the membership rows of every other user.  It fails with
    USER_NOT_FOUND exactly when no user row has the id. *)
Theorem set_user_active_touches_one_user (s : Store) (uid : string) (b : bool) :
  let s' := fst (request (set_user_active_flag (UserActive.mk uid b)) s) in
  teams s' = teams s
  /\ pullrequests s' = pullrequests s
  /\ pullrequestreviewers s' = pullrequestreviewers s
  /\ filter (fun u => neqb (User.user_id u) uid) (users s')
     = filter (fun u => neqb (User.user_id u) uid) (users s)
  /\ filter (fun m => neqb (TeamMember.user_id m) uid) (teammembers s')
     = filter (fun m => neqb (TeamMember.user_id m) uid) (teammembers s)
  /\ (snd (request (set_user_active_flag (UserActive.mk uid b)) s)
        = Return (Failure USER_NOT_FOUND)
      <-> forall u, In u (users s) -> User.user_id u <> uid).
Proof.
  rewrite set_user_active_flag_run.
  destruct (hd_error _) as [user|] eqn:E; cbv zeta; cbn [fst snd].
  - repeat split; try reflexivity.
    + cbn [set_active_store users]. apply filter_map_frame.
      * intros x. now destruct (User.user_id x =? uid).
      * intros x Hx. unfold neqb in Hx. apply negb_true_iff in Hx.
        now rewrite Hx.
    + cbn [set_active_store teammembers]. apply filter_map_frame.
      * intros x. now destruct (TeamMember.user_id x =? uid).
      * intros x Hx. unfold neqb in Hx. apply negb_true_iff in Hx.
        now rewrite Hx.
    + discriminate.
    + intros H. exfalso. apply hd_error_filter_In in E. destruct E as [Hu E].
      apply String.eqb_eq in E. exact (H user Hu E).
  - repeat split; try reflexivity.
    intros _ u Hu. apply (hd_error_filter_None _ _ E) in Hu.
    now apply String.eqb_neq.
Qed.

Lemma set_active_store_twice (uid : string) (b1 b2 : bool) (s : Store) :
  set_active_store uid b2 (set_active_store uid b1 s) = set_active_store uid b2 s.
Proof.
  unfold set_active_store.
  cbn [users teams teammembers pullrequests pullrequestreviewers].
  rewrite !map_map. f_equal; apply map_ext; intros x.
  - destruct (User.user_id x =? uid) eqn:E; simpl; now rewrite E.
  - destruct (TeamMember.user_id x =? uid) eqn:E; simpl; now rewrite E.
Qed.

(** X3. Two calls of [set_user_active_flag] for the same user compose to the
    last one: the store after setting [b1] and then [b2] is the store after
    setting [b2] alone, whether the user exists or not.  In particular a
    repeated call changes nothing more. *)
Theorem set_user_active_last_call_wins (s : Store) (uid : string)
    (b1 b2 : bool) :
  fst (request (set_user_active_flag (UserActive.mk uid b2))
         (fst (request (set_user_active_flag (UserActive.mk uid b1)) s)))
  = fst (request (set_user_active_flag (UserActive.mk uid b2)) s).
Proof.
  rewrite (set_user_active_flag_run uid b1 s).
  destruct (hd_error (filter _ (users s))) as [user|] eqn:E; cbn [fst].
  - rewrite !set_user_active_flag_run, E.
    cbn [set_active_store users].
    rewrite hd_error_filter_map, E.
    + cbn [option_map fst]. apply set_active_store_twice.
    + intros x. now destruct (User.user_id x =? uid) eqn:Ex; simpl; rewrite ?Ex.
  - reflexivity.
Qed.

Lemma is_true_eq (b : bool) : is_true b = true -> b = true.
Proof. unfold is_true. now destruct b. Qed.

(** X4. The reviewers [create_pull_request_with_reviewers] assigns come from
    the author's team.  The author has an active membership, and the team is
    the one of the author's active membership whose team name comes first;
    each reviewer has an active membership row in that team. *)
Theorem assigned_reviewers_are_active_teammates (s s' : Store)
    (pid name author : string) (out : PROut.t) :
  request (create_pull_request_with_reviewers (PRCreate.mk pid name author)) s
    = (s', Return (Success out)) ->
  exists a,
    first_membership author s = Some a
    /\ In a (teammembers s) /\ TeamMember.user_id a = author
    /\ TeamMember.is_active a = true
    /\ (forall m, In m (teammembers s) -> TeamMember.user_id m = author ->
          TeamMember.is_active m = true ->
          String.leb (TeamMember.team_name a) (TeamMember.team_name m) = true)
    /\ forall uid, In uid (PROut.assigned_reviewers out) ->
         exists m, In m (teammembers s) /\ TeamMember.user_id m = uid
                   /\ TeamMember.team_name m = TeamMember.team_name a
                   /\ TeamMember.is_active m = true.
Proof.
  rewrite create_pull_request_run.
  destruct (hd_error _) as [existing|]; [discriminate|].
  destruct (hd_error (filter _ (users s))) as [a|]; [|discriminate].
  destruct (first_membership author s) as [atm|] eqn:Et; [|discriminate].
  cbv zeta.
  remember (firstn 2 (candidates (TeamMember.team_name atm) author s))
    as potential_reviewers eqn:Epot.
  destruct (flush_table _ _ _) as [rs|]; [|discriminate].
  intros E. injection E as <- <-. cbn [PROut.assigned_reviewers].
  exists atm. split; [reflexivity|].
  destruct (first_membership_Some _ _ _ Et) as [Ha [Eu Eact]].
  split; [exact Ha|]. split; [exact Eu|]. split; [exact Eact|].
  split; [exact (first_membership_least _ _ _ Et)|].
  intros uid Hin. apply in_map_iff in Hin. destruct Hin as [m [<- Hm]].
  subst potential_reviewers. apply In_firstn in Hm.
  apply filter_In in Hm. destruct Hm as [Hm Em].
  rewrite !andb_true_iff in Em. destruct Em as [[Et' _] Eact'].
  apply String.eqb_eq in Et'. apply is_true_eq in Eact'.
  exists m; repeat split; auto.
Qed.

Lemma assigned_reviewers_are_active_teammates_witness :
  exists a,
    first_membership "u2" payments = Some a
    /\ In a (teammembers payments) /\ TeamMember.user_id a = "u2"
    /\ TeamMember.is_active a = true
    /\ (forall m, In m (teammembers payments) ->
          TeamMember.user_id m = "u2" -> TeamMember.is_active m = true ->
          String.leb (TeamMember.team_name a) (TeamMember.team_name m) = true)
    /\ forall uid, In uid ["u1"; "u3"] ->
         exists m, In m (teammembers payments) /\ TeamMember.user_id m = uid
                   /\ TeamMember.team_name m = TeamMember.team_name a
                   /\ TeamMember.is_active m = true.
Proof.
  exact (assigned_reviewers_are_active_teammates payments _
           "pr-1002" "Fix bug" "u2" _ eq_refl).
Defined.

(** X5. The replacement [reassign_pull_request_reviewer] picks comes from the
    team of the reviewer it replaces, which is the team of that reviewer's
    active membership whose team name comes first: the replacement has an
    active membership row in it.  The pull request is OPEN and stays OPEN.
    The response lists the reviewers in the order of their keys before the
    change, with the replacement in the place of the replaced one; they are
    the reviewers of the rows after the change. *)
Theorem replacement_is_active_teammate (s s' : Store) (pid old : string)
    (out : ReassignOut.t) :
  request (reassign_pull_request_reviewer (PRReassign.mk pid old)) s
    = (s', Return (Success out)) ->
  (exists o,
     first_membership old s = Some o
     /\ In o (teammembers s) /\ TeamMember.user_id o = old
     /\ TeamMember.is_active o = true
     /\ (forall m, In m (teammembers s) -> TeamMember.user_id m = old ->
           TeamMember.is_active m = true ->
           String.leb (TeamMember.team_name o) (TeamMember.team_name m)
           = true)
     /\ exists m, In m (teammembers s)
                  /\ TeamMember.user_id m = ReassignOut.replaced_by out
                  /\ TeamMember.team_name m = TeamMember.team_name o
                  /\ TeamMember.is_active m = true)
  /\ PROut.status (ReassignOut.pr out) = "OPEN"
  /\ pullrequests s' = pullrequests s
  /\ In (ReassignOut.replaced_by out)
        (PROut.assigned_reviewers (ReassignOut.pr out))
  /\ PROut.assigned_reviewers (ReassignOut.pr out)
     = relisted_reviewer_ids pid old (ReassignOut.replaced_by out) s
  /\ Permutation (PROut.assigned_reviewers (ReassignOut.pr out))
                 (reviewer_ids pid s').
Proof.
  rewrite reassign_pull_request_reviewer_run.
  destruct (find_pull_request pid s) as [pr|]; [|discriminate].
  destruct (PRStatus_.eqb _ _) eqn:Es; [discriminate|].
  destruct (hd_error _) as [ora|] eqn:Eo; [|discriminate].
  destruct (first_membership old s) as [ort|] eqn:Et; [|discriminate].
  destruct (find_candidate _ _ _ _) as [cand|] eqn:Ec; [|discriminate].
  cbv zeta. intros E. injection E as <- <-.
  cbn [ReassignOut.replaced_by ReassignOut.pr PROut.assigned_reviewers
       PROut.status].
  pose proof (relisted_is_permutation pid old (TeamMember.user_id cand) s)
    as P.
  split; [|split; [|split; [reflexivity|split; [|split; [reflexivity|exact P]]]]].
  - exists ort. split; [reflexivity|].
    destruct (first_membership_Some _ _ _ Et) as [Ho [Eu Eact]].
    split; [exact Ho|]. split; [exact Eu|]. split; [exact Eact|].
    split; [exact (first_membership_least _ _ _ Et)|].
    unfold find_candidate in Ec. apply hd_error_filter_In in Ec.
    destruct Ec as [Hc Ec]. rewrite !andb_true_iff in Ec.
    destruct Ec as [[[Et' _] _] Eact'].
    apply String.eqb_eq in Et'. apply is_true_eq in Eact'.
    exists cand; repeat split; auto.
  - destruct (PullRequest.status pr); [reflexivity | discriminate Es].
  - apply (Permutation_in _ (Permutation_sym P)).
    apply in_reviewer_ids. cbn [reassigned_store pullrequestreviewers].
    apply hd_error_filter_In in Eo. destruct Eo as [Ho Eo].
    apply andb_true_iff in Eo. rewrite !String.eqb_eq in Eo.
    apply in_map_iff. exists ora. split; [|exact Ho].
    destruct ora as [p u]. simpl in Eo. destruct Eo as [-> ->].
    assert (K : has_pk (pid, old) (PullRequestReviewer.mk pid old) = true)
      by (now apply has_pk_true).
    now rewrite K.
Qed.

Lemma replacement_is_active_teammate_witness :
  (exists o,
     first_membership "u2" payments = Some o
     /\ In o (teammembers payments) /\ TeamMember.user_id o = "u2"
     /\ TeamMember.is_active o = true
     /\ (forall m, In m (teammembers payments) ->
           TeamMember.user_id m = "u2" -> TeamMember.is_active m = true ->
           String.leb (TeamMember.team_name o) (TeamMember.team_name m)
           = true)
     /\ exists m, In m (teammembers payments)
                  /\ TeamMember.user_id m = "u4"
                  /\ TeamMember.team_name m = TeamMember.team_name o
                  /\ TeamMember.is_active m = true)
  /\ "OPEN" = "OPEN"
  /\ pullrequests (reassigned_store "pr-1001" "u2" "u4" payments)
     = pullrequests payments
  /\ In "u4" ["u4"; "u3"]
  /\ ["u4"; "u3"] = relisted_reviewer_ids "pr-1001" "u2" "u4" payments
  /\ Permutation ["u4"; "u3"]
       (reviewer_ids "pr-1001"
          (reassigned_store "pr-1001" "u2" "u4" payments)).
Proof.
  exact (replacement_is_active_teammate payments _ "pr-1001" "u2" _ eq_refl).
Defined.

(* ================================================================== *)
(** * What a success tells about the store before *)
(* ================================================================== *)

Lemma in_candidates (team author : string) (s : Store) (m : TeamMember.t) :
  In m (candidates team author s)
  <-> In m (teammembers s) /\ TeamMember.team_name m = team
      /\ TeamMember.user_id m <> author /\ TeamMember.is_active m = true.
Proof.
  unfold candidates. rewrite filter_In, !andb_true_iff.
  unfold neqb. rewrite negb_true_iff, String.eqb_eq, String.eqb_neq.
  unfold is_true. destruct (TeamMember.is_active m); simpl; intuition congruence.
Qed.

Lemma find_candidate_Some (team author pid : string) (s : Store)
    (cand : TeamMember.t) :
  find_candidate team author pid s = Some cand ->
  In cand (teammembers s) /\ TeamMember.team_name cand = team
  /\ TeamMember.user_id cand <> author
  /\ ~ In (TeamMember.user_id cand) (reviewer_ids pid s)
  /\ TeamMember.is_active cand = true.
Proof.
  unfold find_candidate. intros E. apply hd_error_filter_In in E.
  destruct E as [Hin E]. rewrite !andb_true_iff in E.
  destruct E as [[[Et Ea] En] Eact].
  apply String.eqb_eq in Et. apply negb_true_iff, String.eqb_neq in Ea.
  apply not_in_false_iff in En. apply is_true_eq in Eact. auto.
Qed.

Lemma first_active_membership (uid : string) (s : Store) (m : TeamMember.t) :
  first_membership uid s = Some m ->
  In m (teammembers s) /\ TeamMember.user_id m = uid
  /\ TeamMember.is_active m = true.
Proof. apply first_membership_Some. Qed.

(** A successful creation: the checks that passed and the rows written. *)
Lemma create_success_inv (s s' : Store) (pid name author : string)
    (out : PROut.t) :
  request (create_pull_request_with_reviewers (PRCreate.mk pid name author)) s
    = (s', Return (Success out)) ->
  find_pull_request pid s = None
  /\ (exists u, In u (users s) /\ User.user_id u = author
                /\ User.is_active u = true)
  /\ exists atm potential_reviewers,
       first_membership author s = Some atm
       /\ potential_reviewers
          = firstn 2 (candidates (TeamMember.team_name atm) author s)
       /\ out = PROut.mk pid name author "OPEN"
                  (map TeamMember.user_id potential_reviewers) None
       /\ s' = mkStore (users s) (teams s) (teammembers s)
                 (pullrequests s ++ [PullRequest.mk pid name author OPEN])
                 (pullrequestreviewers s
                    ++ map (fun r => PullRequestReviewer.mk pid
                                       (TeamMember.user_id r))
                           potential_reviewers).
Proof.
  rewrite create_pull_request_run. unfold find_pull_request.
  destruct (hd_error _) as [existing|]; [discriminate|].
  destruct (hd_error (filter _ (users s))) as [a|] eqn:Ea; [|discriminate].
  destruct (first_membership _ s) as [atm|] eqn:Et;
    [|discriminate].
  cbv zeta.
  remember (firstn 2 (candidates (TeamMember.team_name atm) author s))
    as potential_reviewers eqn:Epot.
  destruct (flush_table _ _ _) as [rs|] eqn:Ef; [|discriminate].
  intros E. injection E as <- <-.
  split; [reflexivity|]. split.
  - apply hd_error_filter_In in Ea. destruct Ea as [Ha Ea].
    apply andb_true_iff in Ea. destruct Ea as [Eu Eact].
    apply String.eqb_eq in Eu. apply is_true_eq in Eact.
    exists a; repeat split; auto.
  - exists atm, potential_reviewers.
    split; [reflexivity|]. split; [exact Epot|]. split; [reflexivity|].
    unfold flush_table in Ef. cbn [fold_left and_then] in Ef.
    apply fold_insert_Some in Ef. destruct Ef as [-> _]. reflexivity.
Qed.

(** A successful reassignment: the checks that passed and the row written. *)
Lemma reassign_success_inv (s s' : Store) (pid old : string)
    (out : ReassignOut.t) :
  request (reassign_pull_request_reviewer (PRReassign.mk pid old)) s
    = (s', Return (Success out)) ->
  exists pr ort cand,
    find_pull_request pid s = Some pr
    /\ PullRequest.status pr = OPEN
    /\ In (PullRequestReviewer.mk pid old) (pullrequestreviewers s)
    /\ first_membership old s = Some ort
    /\ find_candidate (TeamMember.team_name ort) (PullRequest.author_id pr)
                      pid s = Some cand
    /\ s' = reassigned_store pid old (TeamMember.user_id cand) s
    /\ ReassignOut.replaced_by out = TeamMember.user_id cand
    /\ PROut.assigned_reviewers (ReassignOut.pr out)
       = relisted_reviewer_ids pid old (TeamMember.user_id cand) s.
Proof.
  rewrite reassign_pull_request_reviewer_run.
  destruct (find_pull_request pid s) as [pr|]; [|discriminate].
  destruct (PRStatus_.eqb _ _) eqn:Es; [discriminate|].
  destruct (hd_error _) as [ora|] eqn:Eo; [|discriminate].
  destruct (first_membership _ s) as [ort|] eqn:Et;
    [|discriminate].
  destruct (find_candidate _ _ _ _) as [cand|] eqn:Ec; [|discriminate].
  cbv zeta. intros E. injection E as <- <-.
  exists pr, ort, cand. repeat split; auto.
  - destruct (PullRequest.status pr); [reflexivity | discriminate Es].
  - apply hd_error_filter_In in Eo. destruct Eo as [Ho Eo].
    apply andb_true_iff in Eo. rewrite !String.eqb_eq in Eo.
    destruct ora as [p u]. simpl in Eo. destruct Eo as [<- <-]. exact Ho.
Qed.

(** X6. A user who was deactivated takes no part in reviews afterwards: in
    the store after [set_user_active_flag] with flag false, no pull request
    can be created by the user, none is assigned to the user, the user is
    never picked as a replacement, and the user cannot be replaced either,
    since a reassignment needs an active membership of the old reviewer. *)
Theorem deactivated_user_is_out_of_reviews (s : Store) (uid : string) :
  (exists u, In u (users s) /\ User.user_id u = uid) ->
  let s1 := fst (request (set_user_active_flag (UserActive.mk uid false)) s) in
  (forall pid name author s2 out,
     request (create_pull_request_with_reviewers
                (PRCreate.mk pid name author)) s1
       = (s2, Return (Success out)) ->
     author <> uid /\ ~ In uid (PROut.assigned_reviewers out))
  /\ (forall pid old s2 out,
        request (reassign_pull_request_reviewer (PRReassign.mk pid old)) s1
          = (s2, Return (Success out)) ->
        old <> uid /\ ReassignOut.replaced_by out <> uid).
Proof.
  intros [u [Hu Eu]]. rewrite set_user_active_flag_run.
  destruct (hd_error _) as [user|] eqn:E.
  2:{ exfalso. apply (hd_error_filter_None _ _ E) in Hu.
      apply String.eqb_neq in Hu. contradiction. }
  cbv zeta. cbn [fst].
  assert (Off : forall m, In m (teammembers (set_active_store uid false s)) ->
                TeamMember.user_id m = uid -> TeamMember.is_active m = true ->
                False).
  { intros m Hm Em Ea.
    rewrite (set_active_store_teammembers uid false s m Hm Em) in Ea.
    discriminate. }
  split.
  - intros pid name author s2 out Hs. apply create_success_inv in Hs.
    destruct Hs as [_ [_ [atm [pot [Et [Ep [Eo _]]]]]]].
    apply first_active_membership in Et. destruct Et as [Ha [Eau Eact]].
    split.
    + intros ->. exact (Off atm Ha Eau Eact).
    + subst out. cbn [PROut.assigned_reviewers]. intros Hin.
      apply in_map_iff in Hin. destruct Hin as [m [Em Hm]].
      subst pot. apply In_firstn in Hm. apply in_candidates in Hm.
      destruct Hm as [Hm [_ [_ Eact']]]. exact (Off m Hm Em Eact').
  - intros pid old s2 out Hs. apply reassign_success_inv in Hs.
    destruct Hs as [pr [ort [cand [_ [_ [_ [Et [Ec [_ [Er _]]]]]]]]]].
    apply first_active_membership in Et. destruct Et as [Ho [Eou Eact]].
    apply find_candidate_Some in Ec. destruct Ec as [Hc [_ [_ [_ Eact']]]].
    split.
    + intros ->. exact (Off ort Ho Eou Eact).
    + rewrite Er. intros Ec. exact (Off cand Hc Ec Eact').
Qed.

Lemma deactivated_user_is_out_of_reviews_witness :
  (exists u, In u (users payments) /\ User.user_id u = "u3")
  /\ request (create_pull_request_with_reviewers
                (PRCreate.mk "pr-1002" "Fix bug" "u2"))
             (set_active_store "u3" false payments)
     = (mkStore (users (set_active_store "u3" false payments))
                (teams payments)
                (teammembers (set_active_store "u3" false payments))
                (pullrequests payments
                   ++ [PullRequest.mk "pr-1002" "Fix bug" "u2" OPEN])
                (pullrequestreviewers payments
                   ++ [PullRequestReviewer.mk "pr-1002" "u1";
                       PullRequestReviewer.mk "pr-1002" "u4"]),
        Return (Success (PROut.mk "pr-1002" "Fix bug" "u2" "OPEN"
                                  ["u1"; "u4"] None)))
  /\ "u2" <> "u3" /\ ~ In "u3" ["u1"; "u4"]
  /\ request (reassign_pull_request_reviewer (PRReassign.mk "pr-1001" "u3"))
             (set_active_store "u3" false payments)
     = (set_active_store "u3" false payments,
        Return (Failure USER_NOT_IN_TEAM)).
Proof.
  assert (Hu : exists u, In u (users payments) /\ User.user_id u = "u3").
  { exists (User.mk "u3" "Charlie" true). simpl. auto. }
  split; [exact Hu|]. split; [reflexivity|].
  split; [|split; [|reflexivity]].
  - exact (proj1 (proj1 (deactivated_user_is_out_of_reviews payments "u3" Hu)
                    "pr-1002" "Fix bug" "u2" _ _ eq_refl)).
  - exact (proj2 (proj1 (deactivated_user_is_out_of_reviews payments "u3" Hu)
                    "pr-1002" "Fix bug" "u2" _ _ eq_refl)).
Defined.

(* ================================================================== *)
(** * The flush of create_team_with_members *)
(* ================================================================== *)

Lemma loop_writes_nothing_else (team_name : string) (d : Store)
    (l : list MemberData.t) :
  dirty_of (R := TeamMember.t) (flat_map (member_writes team_name d) l) = []
  /\ new_of (R := Team.t) (flat_map (member_writes team_name d) l) = []
  /\ new_of (R := PullRequest.t) (flat_map (member_writes team_name d) l) = []
  /\ dirty_of (R := PullRequest.t) (flat_map (member_writes team_name d) l) = []
  /\ new_of (R := PullRequestReviewer.t)
            (flat_map (member_writes team_name d) l) = []
  /\ dirty_of (R := PullRequestReviewer.t)
              (flat_map (member_writes team_name d) l) = [].
Proof.
  cbn [new_of dirty_of Table_Team Table_TeamMember Table_PullRequest
       Table_PullRequestReviewer].
  induction l as [|x l IH]; [repeat split|].
  cbn [flat_map member_writes app].
  destruct IH as [I1 [I2 [I3 [I4 [I5 I6]]]]].
  destruct (existsb _ (users d)); cbn [flat_map app];
    rewrite I1, I2, I3, I4, I5, I6; repeat split.
Qed.

Lemma user_writes_of_loop (team_name : string) (d : Store)
    (l : list MemberData.t) :
  dirty_of (R := User.t) (flat_map (member_writes team_name d) l)
  = flat_map (fun md => if existsb (@has_pk User.t Mapped_User (MemberData.user_id md))
                                  (users d)
                        then [(MemberData.user_id md, fun _ => member_user md)]
                        else []) l
  /\ new_of (R := User.t) (flat_map (member_writes team_name d) l)
     = map member_user
         (filter (fun md => negb (existsb (@has_pk User.t Mapped_User
                                            (MemberData.user_id md))
                                          (users d))) l).
Proof.
  cbn [new_of dirty_of Table_User].
  induction l as [|x l [I1 I2]]; [split; reflexivity|].
  cbn [flat_map member_writes app filter].
  cbn [primary_key Mapped_User User.user_id].
  destruct (existsb _ (users d)); cbn [flat_map app negb map];
    rewrite I1, I2; split; reflexivity.
Qed.

Lemma sql_update_to_key {R : Type} `{MappedLaws R} (k : PK) (f : R -> R)
    (tbl : list R) :
  (forall r, primary_key (f r) = k) ->
  sql_update k f tbl = Some (map (fun r => if has_pk k r then f r else r) tbl).
Proof.
  intros Hf. unfold sql_update.
  replace (existsb _ tbl) with false; [reflexivity|].
  symmetry. apply not_true_is_false. intros E.
  apply existsb_exists in E. destruct E as [r [_ E]].
  rewrite (proj2 (has_pk_true k (f r)) (Hf r)) in E.
  destruct (has_pk k r); discriminate.
Qed.

Lemma find_member_none (uid : string) (l : list MemberData.t) :
  ~ In uid (map MemberData.user_id l) ->
  find (fun md => MemberData.user_id md =? uid) l = None.
Proof.
  intros N. destruct (find _ l) as [md|] eqn:E; [|reflexivity].
  apply find_some in E. destruct E as [Hin E]. apply String.eqb_eq in E.
  exfalso. apply N. rewrite <- E. now apply in_map.
Qed.

(** The UPDATEs of the merged users: every named user is overwritten. *)
Lemma fold_update_users (us : list User.t) (members : list MemberData.t) :
  NoDup (map MemberData.user_id members) ->
  forall tbl,
    (forall u, In u tbl ->
       existsb (@has_pk User.t Mapped_User (User.user_id u)) us = true) ->
    fold_left (fun acc d => and_then acc (@sql_update User.t Mapped_User
                                            (fst d) (snd d)))
      (flat_map (fun md => if existsb (@has_pk User.t Mapped_User (MemberData.user_id md)) us
                           then [(MemberData.user_id md,
                                  fun _ : User.t => member_user md)]
                           else []) members)
      (Some tbl)
    = Some (map (fun u => match find (fun md => MemberData.user_id md
                                                 =? User.user_id u) members with
                          | Some md => member_user md
                          | None => u
                          end) tbl).
Proof.
  induction members as [|md rest IH]; intros ND tbl Htbl.
  - simpl. now rewrite map_id.
  - inversion ND as [|x l Hx ND']; subst.
    cbn [flat_map find].
    destruct (existsb (@has_pk User.t Mapped_User (MemberData.user_id md)) us) eqn:Ex.
    + cbn [app fold_left and_then fst snd].
      rewrite (@sql_update_to_key _ _ MappedLaws_User) by reflexivity.
      cbn [and_then]. rewrite IH; [|exact ND'|].
      * rewrite map_map. f_equal. apply map_ext. intros u.
        change (@has_pk User.t Mapped_User (MemberData.user_id md) u)
          with (User.user_id u =? MemberData.user_id md).
        rewrite (String.eqb_sym (MemberData.user_id md)).
        destruct (User.user_id u =? MemberData.user_id md); [|reflexivity].
        cbn [member_user User.user_id].
        now rewrite (find_member_none _ _ Hx).
      * intros u Hu. apply in_map_iff in Hu. destruct Hu as [u0 [<- Hu0]].
        destruct (@has_pk User.t Mapped_User (MemberData.user_id md) u0);
          [exact Ex | auto].
    + cbn [app]. rewrite IH; [|exact ND'|exact Htbl].
      f_equal. apply map_ext_in. intros u Hu.
      destruct (MemberData.user_id md =? User.user_id u) eqn:E; [|reflexivity].
      apply String.eqb_eq in E. rewrite E, (Htbl u Hu) in Ex. discriminate.
Qed.

Lemma upsert_keeps_keys (members : list MemberData.t) (us : list User.t) :
  map User.user_id
    (map (fun u => match find (fun md => MemberData.user_id md
                                         =? User.user_id u) members with
                   | Some md => member_user md
                   | None => u
                   end) us)
  = map User.user_id us.
Proof.
  rewrite map_map. apply map_ext. intros u.
  destruct (find _ members) as [md|] eqn:E; [|reflexivity].
  apply find_some in E. destruct E as [_ E]. now apply String.eqb_eq in E.
Qed.

(** The flush of the user mapper: it cannot fail when no user is named
    twice. *)
Lemma flush_upsert_users (team_name : string) (d : Store)
    (members : list MemberData.t) :
  NoDup (map MemberData.user_id members) ->
  flush_mapper User.t (flat_map (member_writes team_name d) members) d
  = Some (upsert_users members (users d)).
Proof.
  intros ND. unfold flush_mapper, flush_table.
  destruct (user_writes_of_loop team_name d members) as [-> ->].
  cbn [rows Table_User].
  rewrite (fold_update_users (users d) members ND).
  2:{ intros u Hu. apply existsb_exists. exists u. split; [exact Hu|].
      apply (@has_pk_refl _ _ MappedLaws_User). }
  cbn [and_then]. unfold upsert_users. apply fold_insert_ok.
  - rewrite map_map. cbn [primary_key Mapped_User member_user User.user_id].
    clear - ND. induction members as [|md l IH]; [constructor|].
    inversion ND as [|x l' Hx ND']; subst. cbn [filter].
    destruct (negb _); [|now apply IH].
    cbn [map]. constructor; [|now apply IH].
    intros Hin. apply Hx. apply in_map_iff in Hin.
    destruct Hin as [md' [E Hmd']]. apply filter_In in Hmd'.
    rewrite <- E. apply in_map. tauto.
  - intros r Hr. apply in_map_iff in Hr. destruct Hr as [md [<- Hmd]].
    apply filter_In in Hmd. destruct Hmd as [_ Hmd].
    apply negb_true_iff in Hmd.
    cbn [primary_key Mapped_User]. rewrite upsert_keeps_keys.
    intros Hin. apply not_true_iff_false in Hmd. apply Hmd.
    now apply existsb_has_pk.
Qed.

(** The flush of the loop, table by table. *)
Lemma flush_member_writes (team_name : string) (d d0 s' : Store)
    (members : list MemberData.t) :
  flush_store (flat_map (member_writes team_name d) members) d0 = Some s' ->
  flush_mapper User.t (flat_map (member_writes team_name d) members) d0
    = Some (users s')
  /\ teams s' = teams d0
  /\ teammembers s' = teammembers d0 ++ map (member_row team_name) members
  /\ pullrequests s' = pullrequests d0
  /\ pullrequestreviewers s' = pullrequestreviewers d0
  /\ NoDup (map MemberData.user_id members)
  /\ (forall md, In md members ->
         ~ In (MemberData.user_id md, team_name)
              (map primary_key (teammembers d0))).
Proof.
  unfold flush_store.
  destruct (flush_mapper User.t _ d0) as [us|]; [|discriminate].
  cbn [and_then]. unfold flush_mapper at 1 2 3 4.
  destruct (loop_writes_nothing_else team_name d members)
    as [-> [-> [-> [-> [-> ->]]]]].
  rewrite new_teammembers_of_loop.
  unfold flush_table at 1. cbn [fold_left and_then].
  unfold flush_table at 1. cbn [fold_left and_then].
  destruct (fold_left _ (map (member_row team_name) members) _) as [ms|] eqn:Em;
    [|discriminate].
  cbn [and_then]. unfold flush_table. cbn [fold_left and_then].
  intros E. injection E as <-.
  cbn [users teams teammembers pullrequests pullrequestreviewers rows
       Table_Team Table_TeamMember Table_PullRequest
       Table_PullRequestReviewer].
  apply fold_insert_Some in Em. destruct Em as [-> [ND Hnew]].
  repeat split.
  - rewrite map_map in ND.
    apply (NoDup_map_inv (fun u => (u, team_name))). now rewrite map_map.
  - intros md Hmd. apply (Hnew (member_row team_name md)).
    now apply in_map.
Qed.

Lemma NoDup_map_injective {A B} (f : A -> B) (l : list A) :
  (forall a b, f a = f b -> a = b) -> NoDup l -> NoDup (map f l).
Proof.
  intros Hf ND. induction ND as [|a l Ha ND IH]; simpl; constructor; auto.
  intros Hin. apply in_map_iff in Hin. destruct Hin as [b [E Hb]].
  apply Hf in E. now subst.
Qed.

Lemma flush_member_writes_ok (team_name : string) (d : Store)
    (members : list MemberData.t) :
  NoDup (map MemberData.user_id members) ->
  (forall md, In md members ->
     ~ In (MemberData.user_id md, team_name)
          (map primary_key (teammembers d))) ->
  flush_store (flat_map (member_writes team_name d) members) d
  = Some (mkStore (upsert_users members (users d)) (teams d)
                  (teammembers d ++ map (member_row team_name) members)
                  (pullrequests d) (pullrequestreviewers d)).
Proof.
  intros ND Hst. unfold flush_store.
  rewrite (flush_upsert_users team_name d members ND). cbn [and_then].
  unfold flush_mapper.
  destruct (loop_writes_nothing_else team_name d members)
    as [-> [-> [-> [-> [-> ->]]]]].
  rewrite new_teammembers_of_loop.
  unfold flush_table. cbn [fold_left and_then].
  cbn [rows Table_Team Table_TeamMember Table_PullRequest
       Table_PullRequestReviewer].
  rewrite fold_insert_ok; [reflexivity| |].
  - rewrite map_map. cbn [primary_key Mapped_TeamMember member_row
                          TeamMember.user_id TeamMember.team_name].
    rewrite <- (map_map MemberData.user_id (fun u => (u, team_name))).
    apply NoDup_map_injective; [|exact ND].
    intros a b E. now injection E.
  - intros r Hr. apply in_map_iff in Hr. destruct Hr as [md [<- Hmd]].
    exact (Hst md Hmd).
Qed.

(** A successful team creation: the checks that passed and the rows written. *)
Lemma create_team_success_inv (s s' : Store) (team_name : string)
    (members : list MemberData.t) (out : TeamOut.t TeamMember.t) :
  request (create_team_with_members (TeamCreate.mk team_name members)) s
    = (s', Return (Success out)) ->
  ~ In team_name (map Team.team_name (teams s))
  /\ NoDup (map MemberData.user_id members)
  /\ s' = created_team_store team_name members s
  /\ out = TeamOut.mk team_name (map (member_row team_name) members).
Proof.
  rewrite create_team_with_members_run.
  destruct (hd_error _) as [t|] eqn:Et; [discriminate|].
  destruct (flush_store _ _) as [s1|] eqn:Ef; [|discriminate].
  intros E. injection E as <- <-.
  pose proof (flush_member_writes _ _ _ _ _ Ef)
    as [Eu [Ets [Ems [Eps [Ers [ND _]]]]]].
  rewrite (flush_upsert_users _ _ _ ND) in Eu. injection Eu as Eu.
  split; [|split; [exact ND|split; [|reflexivity]]].
  - intros Hin. apply in_map_iff in Hin. destruct Hin as [t [E Ht]].
    apply (hd_error_filter_None _ _ Et) in Ht.
    rewrite E, String.eqb_refl in Ht. discriminate.
  - destruct s1 as [us ts ms ps rs].
    cbn [users teams teammembers pullrequests pullrequestreviewers with_team]
      in *.
    unfold created_team_store. now subst.
Qed.

Lemma team_absent_filter (team_name : string) (s : Store) :
  ~ In team_name (map Team.team_name (teams s)) ->
  hd_error (filter (fun t => Team.team_name t =? team_name) (teams s)) = None.
Proof.
  intros N. destruct (hd_error _) as [t|] eqn:E; [|reflexivity].
  apply hd_error_filter_In in E. destruct E as [Hin E].
  apply String.eqb_eq in E. exfalso. apply N. rewrite <- E. now apply in_map.
Qed.

(** X7. [create_team_with_members] succeeds for a team name that is not
    taken, members with pairwise distinct ids and no membership row left for
    that team.  It appends the team row and one membership row per member in
    the order given; a member whose user exists overwrites that user in
    place (username and flag), the other members become new users; pull
    requests and reviewer rows are untouched. *)
Theorem create_team_upserts_users (s : Store) (team_name : string)
    (members : list MemberData.t) :
  ~ In team_name (map Team.team_name (teams s)) ->
  NoDup (map MemberData.user_id members) ->
  (forall m, In m (teammembers s) -> TeamMember.team_name m <> team_name) ->
  request (create_team_with_members (TeamCreate.mk team_name members)) s
  = (created_team_store team_name members s,
     Return (Success (TeamOut.mk team_name
                        (map (member_row team_name) members)))).
Proof.
  intros Ht ND Hm. rewrite create_team_with_members_run.
  rewrite (team_absent_filter _ _ Ht).
  rewrite flush_member_writes_ok; [reflexivity | exact ND |].
  intros md _ Hin. cbn [with_team teammembers] in Hin.
  apply in_map_iff in Hin. destruct Hin as [m [E Hin]].
  apply (Hm m Hin). cbn [primary_key Mapped_TeamMember] in E. congruence.
Qed.

Lemma create_team_upserts_users_witness :
  ~ In "search" (map Team.team_name (teams payments))
  /\ NoDup (map MemberData.user_id
              [MemberData.mk "u7" "Eve" true; MemberData.mk "u1" "Al" false])
  /\ (forall m, In m (teammembers payments) ->
                TeamMember.team_name m <> "search")
  /\ request (create_team_with_members
                (TeamCreate.mk "search"
                   [MemberData.mk "u7" "Eve" true;
                    MemberData.mk "u1" "Al" false])) payments
     = (mkStore
          [User.mk "u1" "Al" false; User.mk "u2" "Bob" true;
           User.mk "u3" "Charlie" true; User.mk "u4" "David" true;
           User.mk "u7" "Eve" true]
          [Team.mk "payments"; Team.mk "search"]
          (teammembers payments
             ++ [TeamMember.mk "u7" "search" "Eve" true;
                 TeamMember.mk "u1" "search" "Al" false])
          (pullrequests payments) (pullrequestreviewers payments),
        Return (Success (TeamOut.mk "search"
                  [TeamMember.mk "u7" "search" "Eve" true;
                   TeamMember.mk "u1" "search" "Al" false]))).
Proof.
  assert (Ht : ~ In "search" (map Team.team_name (teams payments))).
  { simpl. intros [E|[]]. discriminate E. }
  assert (ND : NoDup (map MemberData.user_id
              [MemberData.mk "u7" "Eve" true; MemberData.mk "u1" "Al" false])).
  { simpl. repeat constructor; simpl; intuition discriminate. }
  assert (Hm : forall m, In m (teammembers payments) ->
                         TeamMember.team_name m <> "search").
  { simpl. intros m Hm.
    repeat (destruct Hm as [<-|Hm]; [discriminate|]). destruct Hm. }
  split; [exact Ht|]. split; [exact ND|]. split; [exact Hm|].
  exact (create_team_upserts_users payments "search" _ Ht ND Hm).
Defined.

Lemma hd_error_filter_found {A} (p : A -> bool) (l : list A) (x : A) :
  In x l -> p x = true -> exists y, hd_error (filter p l) = Some y.
Proof.
  intros Hin Hp. destruct (hd_error (filter p l)) as [y|] eqn:E;
    [now exists y|].
  rewrite (hd_error_filter_None _ _ E x Hin) in Hp. discriminate.
Qed.

Lemma request_get_team (team_name : string) (s : Store) :
  request (get_team_with_members team_name) s
  = (s, Return
       match hd_error (filter (fun t => Team.team_name t =? team_name)
                              (teams s)) with
       | None => Failure TEAM_NOT_FOUND
       | Some _ =>
         Success (TeamOut.mk team_name
           (map listed_member
                (filter (fun m => (TeamMember.team_name m =? team_name)
                                  && is_true (TeamMember.is_active m))
                        (teammembers s))))
       end).
Proof.
  unfold request. rewrite get_team_with_members_run. reflexivity.
Qed.

(** X8. Creating a team and reading it back: after a successful
    [create_team_with_members], [get_team_with_members] answers with the
    members of the request that are active, in the order of the request and
    with the data given; the inactive ones are stored and left out. *)
Theorem get_team_after_create_team (s : Store) (team_name : string)
    (members : list MemberData.t) :
  ~ In team_name (map Team.team_name (teams s)) ->
  NoDup (map MemberData.user_id members) ->
  (forall m, In m (teammembers s) -> TeamMember.team_name m <> team_name) ->
  snd (request (get_team_with_members team_name)
         (fst (request (create_team_with_members
                          (TeamCreate.mk team_name members)) s)))
  = Return (Success (TeamOut.mk team_name
                       (filter MemberData.is_active members))).
Proof.
  intros Ht ND Hm.
  assert (E := create_team_with_members_run team_name members s).
  rewrite (team_absent_filter _ _ Ht) in E.
  rewrite flush_member_writes_ok in E; [|exact ND|].
  2:{ intros md _ Hin. cbn [with_team teammembers] in Hin.
      apply in_map_iff in Hin. destruct Hin as [m [Em Hin]].
      apply (Hm m Hin). cbn [primary_key Mapped_TeamMember] in Em.
      congruence. }
  rewrite E. cbn [fst]. rewrite request_get_team.
  cbn [snd teams teammembers with_team]. rewrite filter_app.
  cbn [filter Team.team_name]. rewrite String.eqb_refl.
  replace (hd_error (_ ++ [Team.mk team_name])) with
    (Some (hd (Team.mk team_name)
              (filter (fun t => Team.team_name t =? team_name) (teams s)
                 ++ [Team.mk team_name]))).
  2:{ now destruct (filter _ (teams s)). }
  do 3 f_equal. rewrite filter_app.
  replace (filter _ (teammembers s)) with (@nil TeamMember.t).
  2:{ symmetry. induction (teammembers s) as [|m l IH]; [reflexivity|].
      cbn [filter]. pose proof (Hm m (or_introl eq_refl)) as N.
      apply String.eqb_neq in N. rewrite N. cbn [andb].
      apply IH. intros m' Hm'. apply Hm. now right. }
  cbn [app]. clear. induction members as [|md l IH]; [reflexivity|].
  cbn [map filter member_row TeamMember.team_name TeamMember.is_active].
  rewrite String.eqb_refl. cbn [andb]. unfold is_true at 1.
  destruct md as [u n a]. cbn [MemberData.is_active].
  destruct a; cbn [Bool.eqb map listed_member TeamMember.user_id
                   TeamMember.username TeamMember.is_active];
    now rewrite IH.
Qed.

Lemma get_team_after_create_team_witness :
  ~ In "search" (map Team.team_name (teams payments))
  /\ NoDup (map MemberData.user_id
              [MemberData.mk "u7" "Eve" true; MemberData.mk "u1" "Al" false;
               MemberData.mk "u2" "Bob" true])
  /\ (forall m, In m (teammembers payments) ->
                TeamMember.team_name m <> "search")
  /\ snd (request (get_team_with_members "search")
            (fst (request (create_team_with_members
                             (TeamCreate.mk "search"
                                [MemberData.mk "u7" "Eve" true;
                                 MemberData.mk "u1" "Al" false;
                                 MemberData.mk "u2" "Bob" true])) payments)))
     = Return (Success (TeamOut.mk "search"
                          [MemberData.mk "u7" "Eve" true;
                           MemberData.mk "u2" "Bob" true])).
Proof.
  assert (Ht : ~ In "search" (map Team.team_name (teams payments))).
  { simpl. intros [E|[]]. discriminate E. }
  assert (ND : NoDup (map MemberData.user_id
              [MemberData.mk "u7" "Eve" true; MemberData.mk "u1" "Al" false;
               MemberData.mk "u2" "Bob" true])).
  { simpl. repeat constructor; simpl; intuition discriminate. }
  assert (Hm : forall m, In m (teammembers payments) ->
                         TeamMember.team_name m <> "search").
  { simpl. intros m Hm.
    repeat (destruct Hm as [<-|Hm]; [discriminate|]). destruct Hm. }
  split; [exact Ht|]. split; [exact ND|]. split; [exact Hm|].
  exact (get_team_after_create_team payments "search" _ Ht ND Hm).
Defined.

(** X9. A team is created once: after a successful
    [create_team_with_members], any further call for the same name, with
    whatever members, fails with TEAM_EXISTS and adds no row. *)
Theorem create_team_twice_fails (s s' : Store) (team_name : string)
    (members members' : list MemberData.t) (out : TeamOut.t TeamMember.t) :
  request (create_team_with_members (TeamCreate.mk team_name members)) s
    = (s', Return (Success out)) ->
  request (create_team_with_members (TeamCreate.mk team_name members')) s'
  = (s', Return (Failure TEAM_EXISTS)).
Proof.
  intros E. apply create_team_success_inv in E.
  destruct E as [_ [_ [-> _]]]. rewrite create_team_with_members_run.
  destruct (hd_error_filter_found
              (fun t => Team.team_name t =? team_name)
              (teams (created_team_store team_name members s))
              (Team.mk team_name)) as [t ->]; [| |reflexivity].
  - cbn [created_team_store teams]. apply in_or_app. right. now left.
  - apply String.eqb_refl.
Qed.

Lemma create_team_twice_fails_witness :
  request (create_team_with_members
             (TeamCreate.mk "search" [MemberData.mk "u7" "Eve" true])) payments
    = (created_team_store "search" [MemberData.mk "u7" "Eve" true] payments,
       Return (Success (TeamOut.mk "search"
                          [TeamMember.mk "u7" "search" "Eve" true])))
  /\ request (create_team_with_members
                (TeamCreate.mk "search" [MemberData.mk "u8" "Dan" true]))
             (created_team_store "search" [MemberData.mk "u7" "Eve" true]
                                 payments)
     = (created_team_store "search" [MemberData.mk "u7" "Eve" true] payments,
        Return (Failure TEAM_EXISTS)).
Proof.
  split; [reflexivity|].
  exact (create_team_twice_fails payments _ "search"
           [MemberData.mk "u7" "Eve" true] [MemberData.mk "u8" "Dan" true]
           _ eq_refl).
Defined.

Lemma NoDup_map_eq {A B} (f : A -> B) (l : list A) (a b : A) :
  NoDup (map f l) -> In a l -> In b l -> f a = f b -> a = b.
Proof.
  induction l as [|x l IH]; simpl; intros ND Ha Hb E; [destruct Ha|].
  inversion ND as [|y l' Hx ND']; subst.
  destruct Ha as [->|Ha], Hb as [->|Hb]; auto.
  - exfalso. apply Hx. rewrite E. now apply in_map.
  - exfalso. apply Hx. rewrite <- E. now apply in_map.
Qed.

Lemma in_upsert_users (members : list MemberData.t) (us : list User.t)
    (u : User.t) :
  In u (upsert_users members us) ->
  (exists md, In md members /\ u = member_user md)
  \/ (In u us /\ ~ In (User.user_id u) (map MemberData.user_id members)).
Proof.
  unfold upsert_users. intros H. rewrite in_app_iff, !in_map_iff in H.
  destruct H as [[u0 [E Hu0]]|[md [E Hmd]]].
  - destruct (find _ members) as [md|] eqn:Ef.
    + left. apply find_some in Ef. exists md. split; [tauto | now subst].
    + right. subst u0. split; [exact Hu0|]. intros Hin.
      apply in_map_iff in Hin. destruct Hin as [md [E Hmd]].
      apply (find_none _ _ Ef) in Hmd. rewrite E, String.eqb_refl in Hmd.
      discriminate.
  - left. apply filter_In in Hmd. exists md. split; [tauto | now subst].
Qed.

(** X10. [create_team_with_members] does not propagate a flag: it overwrites
    the user row of a member who exists already, and it leaves every
    membership row that was there untouched.  After a success the only user
    row of a member carries the member's username and flag, while the
    memberships of that user in other teams keep the flag they had, equal or
    not. *)
Theorem create_team_keeps_old_memberships (s s' : Store) (team_name : string)
    (members : list MemberData.t) (out : TeamOut.t TeamMember.t)
    (md : MemberData.t) :
  request (create_team_with_members (TeamCreate.mk team_name members)) s
    = (s', Return (Success out)) ->
  In md members ->
  (forall m, In m (teammembers s) -> In m (teammembers s'))
  /\ (forall u, In u (users s') ->
        User.user_id u = MemberData.user_id md -> u = member_user md)
  /\ ((exists u, In u (users s) /\ User.user_id u = MemberData.user_id md) ->
      In (member_user md) (users s')).
Proof.
  intros E Hmd. apply create_team_success_inv in E.
  destruct E as [_ [ND [-> _]]].
  cbn [created_team_store users teammembers].
  split; [|split].
  - intros m Hm. apply in_or_app. now left.
  - intros u Hu Eu. apply in_upsert_users in Hu.
    destruct Hu as [[md' [Hmd' ->]]|[_ N]].
    + f_equal. apply (NoDup_map_eq MemberData.user_id members); auto.
    + exfalso. apply N. rewrite Eu. now apply in_map.
  - intros [u [Hu Eu]]. unfold upsert_users. apply in_or_app. left.
    apply in_map_iff. exists u. split; [|exact Hu].
    destruct (find _ members) as [md'|] eqn:Ef.
    + apply find_some in Ef. destruct Ef as [Hmd' Ef].
      apply String.eqb_eq in Ef. f_equal.
      apply (NoDup_map_eq MemberData.user_id members); auto. congruence.
    + apply (find_none _ _ Ef) in Hmd. rewrite Eu, String.eqb_refl in Hmd.
      discriminate.
Qed.

Lemma create_team_keeps_old_memberships_witness :
  request (create_team_with_members
             (TeamCreate.mk "search" [MemberData.mk "u1" "Al" false])) payments
    = (created_team_store "search" [MemberData.mk "u1" "Al" false] payments,
       Return (Success (TeamOut.mk "search"
                          [TeamMember.mk "u1" "search" "Al" false])))
  /\ In (TeamMember.mk "u1" "payments" "Alice" true)
        (teammembers (created_team_store "search"
                        [MemberData.mk "u1" "Al" false] payments))
  /\ In (User.mk "u1" "Al" false)
        (users (created_team_store "search"
                  [MemberData.mk "u1" "Al" false] payments)).
Proof.
  assert (E : request (create_team_with_members
             (TeamCreate.mk "search" [MemberData.mk "u1" "Al" false])) payments
    = (created_team_store "search" [MemberData.mk "u1" "Al" false] payments,
       Return (Success (TeamOut.mk "search"
                          [TeamMember.mk "u1" "search" "Al" false]))))
    by reflexivity.
  pose proof (create_team_keeps_old_memberships payments _ "search" _ _
                (MemberData.mk "u1" "Al" false) E (or_introl eq_refl)) as P.
  split; [exact E|]. split.
  - apply (proj1 P). simpl. auto.
  - apply (proj2 (proj2 P)). exists (User.mk "u1" "Alice" true). simpl. auto.
Defined.

(* ================================================================== *)
(** * Review lists *)
(* ================================================================== *)

Lemma request_get_user_review (user_id : string) (s : Store) :
  request (get_user_review_pull_requests user_id) s
  = (s, Return
       match hd_error (filter (fun u => User.user_id u =? user_id)
                              (users s)) with
       | None => Failure USER_NOT_FOUND
       | Some _ =>
         Success (ReviewOut.mk user_id
           (flat_map (review_entry s)
              (filter (fun r => PullRequestReviewer.user_id r =? user_id)
                      (pullrequestreviewers s))))
       end).
Proof.
  unfold request. rewrite get_user_review_pull_requests_run. reflexivity.
Qed.

(** The review list of a user of the store. *)
Lemma review_list_of_user (uid : string) (s : Store) :
  (exists u, In u (users s) /\ User.user_id u = uid) ->
  snd (request (get_user_review_pull_requests uid) s)
  = Return (Success (ReviewOut.mk uid
      (flat_map (review_entry s)
         (filter (fun r => PullRequestReviewer.user_id r =? uid)
                 (pullrequestreviewers s))))).
Proof.
  intros [u [Hu Eu]]. rewrite request_get_user_review. cbn [snd].
  destruct (hd_error_filter_found (fun u => User.user_id u =? uid)
              (users s) u Hu) as [y ->]; [|reflexivity].
  now apply String.eqb_eq.
Qed.

Lemma in_review_list (uid pid : string) (s : Store) (pr : PullRequest.t) :
  In (PullRequestReviewer.mk pid uid) (pullrequestreviewers s) ->
  find_pull_request pid s = Some pr ->
  In (PRShortOut.mk (PullRequest.pull_request_id pr)
                    (PullRequest.pull_request_name pr)
                    (PullRequest.author_id pr)
                    (PRStatus_.value (PullRequest.status pr)))
     (flat_map (review_entry s)
        (filter (fun r => PullRequestReviewer.user_id r =? uid)
                (pullrequestreviewers s))).
Proof.
  intros Hr Ep. apply in_flat_map. exists (PullRequestReviewer.mk pid uid).
  split.
  - apply filter_In. split; [exact Hr | apply String.eqb_refl].
  - unfold review_entry. cbn [PullRequestReviewer.pull_request_id].
    rewrite Ep. now left.
Qed.

Lemma find_appended (pid : string) (s : Store) (p : PullRequest.t)
    (us : list User.t) (ts : list Team.t) (ms : list TeamMember.t)
    (rs : list PullRequestReviewer.t) :
  find_pull_request pid s = None ->
  PullRequest.pull_request_id p = pid ->
  find_pull_request pid (mkStore us ts ms (pullrequests s ++ [p]) rs) = Some p.
Proof.
  unfold find_pull_request. cbn [pullrequests]. intros E Ep.
  rewrite filter_app. destruct (filter _ (pullrequests s)); [|discriminate].
  cbn [app filter]. apply String.eqb_eq in Ep. now rewrite Ep.
Qed.

(** X11. A pull request shows up in the review list of each reviewer it was
    assigned to: after a successful [create_pull_request_with_reviewers],
    [get_user_review_pull_requests] of an assigned reviewer who is a user
    lists the new pull request, with its name, its author and status OPEN. *)
Theorem review_list_after_create (s s' : Store) (pid name author uid : string)
    (out : PROut.t) :
  request (create_pull_request_with_reviewers (PRCreate.mk pid name author)) s
    = (s', Return (Success out)) ->
  In uid (PROut.assigned_reviewers out) ->
  (exists u, In u (users s) /\ User.user_id u = uid) ->
  exists l,
    snd (request (get_user_review_pull_requests uid) s')
      = Return (Success (ReviewOut.mk uid l))
    /\ In (PRShortOut.mk pid name author "OPEN") l.
Proof.
  intros E Hin Hu. apply create_success_inv in E.
  destruct E as [Ep [_ [atm [pot [_ [_ [-> ->]]]]]]].
  cbn [PROut.assigned_reviewers] in Hin.
  eexists. split; [apply review_list_of_user; exact Hu|].
  apply (in_review_list uid pid _ (PullRequest.mk pid name author OPEN)).
  - cbn [pullrequestreviewers]. apply in_or_app. right.
    apply in_map_iff in Hin. destruct Hin as [m [<- Hm]].
    apply in_map_iff. now exists m.
  - now apply find_appended.
Qed.

Lemma review_list_after_create_witness :
  request (create_pull_request_with_reviewers
             (PRCreate.mk "pr-1002" "Fix bug" "u2")) payments
    = (mkStore (users payments) (teams payments) (teammembers payments)
               (pullrequests payments
                  ++ [PullRequest.mk "pr-1002" "Fix bug" "u2" OPEN])
               (pullrequestreviewers payments
                  ++ [PullRequestReviewer.mk "pr-1002" "u1";
                      PullRequestReviewer.mk "pr-1002" "u3"]),
       Return (Success (PROut.mk "pr-1002" "Fix bug" "u2" "OPEN"
                                 ["u1"; "u3"] None)))
  /\ In "u3" ["u1"; "u3"]
  /\ (exists u, In u (users payments) /\ User.user_id u = "u3")
  /\ exists l,
       snd (request (get_user_review_pull_requests "u3")
              (mkStore (users payments) (teams payments)
                       (teammembers payments)
                       (pullrequests payments
                          ++ [PullRequest.mk "pr-1002" "Fix bug" "u2" OPEN])
                       (pullrequestreviewers payments
                          ++ [PullRequestReviewer.mk "pr-1002" "u1";
                              PullRequestReviewer.mk "pr-1002" "u3"])))
         = Return (Success (ReviewOut.mk "u3" l))
       /\ In (PRShortOut.mk "pr-1002" "Fix bug" "u2" "OPEN") l.
Proof.
  assert (Hin : In "u3" ["u1"; "u3"]) by (simpl; auto).
  assert (Hu : exists u, In u (users payments) /\ User.user_id u = "u3").
  { exists (User.mk "u3" "Charlie" true). simpl. auto. }
  split; [reflexivity|]. split; [exact Hin|]. split; [exact Hu|].
  exact (review_list_after_create payments _ "pr-1002" "Fix bug" "u2" "u3"
           _ eq_refl Hin Hu).
Defined.

(** X12. A merge is seen by the reviewers: after [merge_pull_request] on a
    pull request of the store, the review list of each of its reviewers who
    is a user shows that pull request with status MERGED. *)
Theorem review_list_after_merge (s : Store) (pid uid : string)
    (pr : PullRequest.t) (now : datetime.t) :
  find_pull_request pid s = Some pr ->
  In uid (reviewer_ids pid s) ->
  (exists u, In u (users s) /\ User.user_id u = uid) ->
  exists l,
    snd (request (get_user_review_pull_requests uid)
           (fst (request (merge_pull_request now (PRMerge.mk pid)) s)))
      = Return (Success (ReviewOut.mk uid l))
    /\ In (PRShortOut.mk pid (PullRequest.pull_request_name pr)
                         (PullRequest.author_id pr) "MERGED") l.
Proof.
  intros Ep Hin Hu. rewrite merge_pull_request_run, Ep. cbn [fst].
  assert (Eid : PullRequest.pull_request_id pr = pid).
  { unfold find_pull_request in Ep. apply hd_error_filter_In in Ep.
    now apply String.eqb_eq. }
  apply in_reviewer_ids in Hin.
  destruct (PRStatus_.eqb (PullRequest.status pr) MERGED) eqn:Es.
  - eexists. split; [apply review_list_of_user; exact Hu|].
    assert (Est : PullRequest.status pr = MERGED)
      by (destruct (PullRequest.status pr); [discriminate Es | reflexivity]).
    pose proof (in_review_list uid pid s pr Hin Ep) as P.
    now rewrite Eid, Est in P.
  - eexists. split; [apply review_list_of_user; exact Hu|].
    pose proof (in_review_list uid pid (merged_store pid s)
                  (PullRequest.set_status MERGED pr) Hin
                  (find_merged _ _ _ Ep)) as P.
    cbn [PullRequest.set_status PullRequest.pull_request_id
         PullRequest.pull_request_name PullRequest.author_id
         PullRequest.status PRStatus_.value] in P.
    now rewrite Eid in P.
Qed.

Lemma review_list_after_merge_witness :
  find_pull_request "pr-1001" payments
    = Some (PullRequest.mk "pr-1001" "Add search" "u1" OPEN)
  /\ In "u2" (reviewer_ids "pr-1001" payments)
  /\ (exists u, In u (users payments) /\ User.user_id u = "u2")
  /\ exists l,
       snd (request (get_user_review_pull_requests "u2")
              (fst (request (merge_pull_request
                               (datetime.mk 2025 11 20 10 0 0 0)
                               (PRMerge.mk "pr-1001")) payments)))
         = Return (Success (ReviewOut.mk "u2" l))
       /\ In (PRShortOut.mk "pr-1001" "Add search" "u1" "MERGED") l.
Proof.
  assert (Hin : In "u2" (reviewer_ids "pr-1001" payments)) by (simpl; auto).
  assert (Hu : exists u, In u (users payments) /\ User.user_id u = "u2").
  { exists (User.mk "u2" "Bob" true). simpl. auto. }
  split; [reflexivity|]. split; [exact Hin|]. split; [exact Hu|].
  exact (review_list_after_merge payments "pr-1001" "u2"
           (PullRequest.mk "pr-1001" "Add search" "u1" OPEN)
           (datetime.mk 2025 11 20 10 0 0 0) eq_refl Hin Hu).
Defined.

Lemma old_row_is_gone (pid old new : string) (s : Store) :
  new <> old ->
  ~ In (PullRequestReviewer.mk pid old)
       (pullrequestreviewers (reassigned_store pid old new s)).
Proof.
  intros N Hin. cbn [reassigned_store pullrequestreviewers] in Hin.
  apply in_map_iff in Hin. destruct Hin as [[p u] [E _]].
  assert (K : has_pk (pid, old) (PullRequestReviewer.mk p u)
              = (p =? pid) && (u =? old)) by reflexivity.
  rewrite K in E.
  destruct (p =? pid) eqn:E1, (u =? old) eqn:E2; cbn [andb] in E;
    cbn [PullRequestReviewer.set_user_id
         PullRequestReviewer.pull_request_id] in E;
    injection E as E3 E4; subst.
  - contradiction.
  - rewrite String.eqb_refl in E2. discriminate.
  - rewrite String.eqb_refl in E1. discriminate.
  - rewrite String.eqb_refl in E1. discriminate.
Qed.

(** X13. A reassignment takes the old reviewer off the pull request: after a
    successful [reassign_pull_request_reviewer] the old reviewer has no row
    on it, the replacement has one, and asking again to replace the old
    reviewer fails with NOT_ASSIGNED and changes nothing. *)
Theorem reassign_twice_is_not_assigned (s s' : Store) (pid old : string)
    (out : ReassignOut.t) :
  request (reassign_pull_request_reviewer (PRReassign.mk pid old)) s
    = (s', Return (Success out)) ->
  ~ In old (reviewer_ids pid s')
  /\ In (ReassignOut.replaced_by out) (reviewer_ids pid s')
  /\ request (reassign_pull_request_reviewer (PRReassign.mk pid old)) s'
     = (s', Return (Failure NOT_ASSIGNED)).
Proof.
  intros E. apply reassign_success_inv in E.
  destruct E as [pr [ort [cand [Ep [Es [Hold [_ [Ec [-> [-> _]]]]]]]]]].
  apply find_candidate_Some in Ec. destruct Ec as [_ [_ [_ [Nin _]]]].
  assert (N : TeamMember.user_id cand <> old).
  { intros E. apply Nin. rewrite E. now apply in_reviewer_ids. }
  pose proof (old_row_is_gone pid old _ s N) as Gone.
  split; [|split].
  - intros Hin. apply in_reviewer_ids in Hin. contradiction.
  - apply in_reviewer_ids. cbn [reassigned_store pullrequestreviewers].
    apply in_map_iff. exists (PullRequestReviewer.mk pid old).
    split; [|exact Hold].
    assert (K : has_pk (pid, old) (PullRequestReviewer.mk pid old) = true)
      by (now apply has_pk_true).
    now rewrite K.
  - rewrite reassign_pull_request_reviewer_run.
    replace (find_pull_request pid (reassigned_store pid old
                                      (TeamMember.user_id cand) s))
      with (Some pr) by (symmetry; exact Ep).
    rewrite Es. cbn [PRStatus_.eqb].
    destruct (hd_error _) as [r|] eqn:Er; [|reflexivity].
    exfalso. apply hd_error_filter_In in Er. destruct Er as [Hr Er].
    apply andb_true_iff in Er. rewrite !String.eqb_eq in Er.
    destruct r as [p u]. simpl in Er. destruct Er as [-> ->].
    contradiction.
Qed.

Lemma reassign_twice_is_not_assigned_witness :
  request (reassign_pull_request_reviewer (PRReassign.mk "pr-1001" "u2"))
          payments
    = (reassigned_store "pr-1001" "u2" "u4" payments,
       Return (Success (ReassignOut.mk
         (PROut.mk "pr-1001" "Add search" "u1" "OPEN" ["u4"; "u3"] None)
         "u4")))
  /\ ~ In "u2" (reviewer_ids "pr-1001"
                  (reassigned_store "pr-1001" "u2" "u4" payments))
  /\ request (reassign_pull_request_reviewer (PRReassign.mk "pr-1001" "u2"))
             (reassigned_store "pr-1001" "u2" "u4" payments)
     = (reassigned_store "pr-1001" "u2" "u4" payments,
        Return (Failure NOT_ASSIGNED)).
Proof.
  assert (E : request (reassign_pull_request_reviewer
                         (PRReassign.mk "pr-1001" "u2")) payments
    = (reassigned_store "pr-1001" "u2" "u4" payments,
       Return (Success (ReassignOut.mk
         (PROut.mk "pr-1001" "Add search" "u1" "OPEN" ["u4"; "u3"] None)
         "u4")))) by reflexivity.
  pose proof (reassign_twice_is_not_assigned payments _ "pr-1001" "u2" _ E)
    as P.
  split; [exact E|]. split; [exact (proj1 P) | exact (proj2 (proj2 P))].
Defined.

(* ================================================================== *)
(** * Invariants of the store *)
(* ================================================================== *)

Lemma grows_refl (ps : list PullRequest.t) : grows ps ps.
Proof.
  exists (fun p => p), []. rewrite map_id, app_nil_r. split; auto.
Qed.

(** X14. No operation of interaction.py removes, reorders, renames or
    reopens a pull request: after any call the rows that were in the pull
    request table are still there, in place, each unchanged or with its
    status set to MERGED, and a row that was MERGED is unchanged. *)
Theorem pull_requests_only_grow (s : Store) :
  (forall d, grows (pullrequests s)
               (pullrequests (fst (request (create_team_with_members d) s))))
  /\ (forall d, grows (pullrequests s)
                  (pullrequests (fst (request (set_user_active_flag d) s))))
  /\ (forall d, grows (pullrequests s)
         (pullrequests
            (fst (request (create_pull_request_with_reviewers d) s))))
  /\ (forall now d, grows (pullrequests s)
         (pullrequests (fst (request (merge_pull_request now d) s))))
  /\ (forall d, grows (pullrequests s)
         (pullrequests (fst (request (reassign_pull_request_reviewer d) s))))
  /\ (forall ps', grows (pullrequests s) ps' ->
        forall p, In p (pullrequests s) -> PullRequest.status p = MERGED ->
                  In p ps').
Proof.
  refine (conj _ (conj _ (conj _ (conj _ (conj _ _))))).
  - intros [team members].
    rewrite create_team_with_members_run.
    destruct (hd_error _); [apply grows_refl|].
    destruct (flush_store _ _) as [s'|] eqn:Ef; [|apply grows_refl].
    apply flush_member_writes in Ef. destruct Ef as [_ [_ [_ [Ep _]]]].
    cbn [fst]. rewrite Ep. apply grows_refl.
  - intros [uid b]. rewrite set_user_active_flag_run.
    destruct (hd_error _); apply grows_refl.
  - intros [pid name author]. rewrite create_pull_request_run.
    destruct (hd_error _); [apply grows_refl|].
    destruct (hd_error (filter _ (users s))); [|apply grows_refl].
    destruct (first_membership _ s); [|apply grows_refl].
    cbv zeta. destruct (flush_table _ _ _); [|apply grows_refl].
    exists (fun p => p), [PullRequest.mk pid name author OPEN].
    cbn [fst pullrequests]. rewrite map_id. split; auto.
  - intros now [pid]. rewrite merge_pull_request_run.
    destruct (find_pull_request pid s) as [pr|]; [|apply grows_refl].
    cbn [fst]. destruct (PRStatus_.eqb _ _); [apply grows_refl|].
    exists (fun p => if PullRequest.pull_request_id p =? pid
                     then PullRequest.set_status MERGED p else p), [].
    cbn [merged_store pullrequests]. rewrite app_nil_r. split; [reflexivity|].
    intros p. destruct (PullRequest.pull_request_id p =? pid); auto.
  - intros [pid old]. rewrite reassign_pull_request_reviewer_run.
    destruct (find_pull_request pid s) as [pr|]; [|apply grows_refl].
    destruct (PRStatus_.eqb _ _); [apply grows_refl|].
    destruct (hd_error _); [|apply grows_refl].
    destruct (first_membership _ s); [|apply grows_refl].
    destruct (find_candidate _ _ _ _); apply grows_refl.
  - intros ps' [f [added [-> Hf]]] p Hp Es. apply in_or_app. left.
    apply in_map_iff. exists p. split; [|exact Hp].
    destruct (Hf p) as [E|E]; rewrite E; [reflexivity|].
    destruct p as [i n a st]. simpl in *. now subst.
Qed.

Lemma filter_none {A} (p : A -> bool) (l : list A) :
  (forall x, In x l -> p x = false) -> filter p l = [].
Proof.
  induction l as [|a l IH]; simpl; intros H; [reflexivity|].
  rewrite (H a (or_introl eq_refl)). apply IH. intros x Hx. apply H.
  now right.
Qed.

Lemma filter_map_comm {A} (p : A -> bool) (f : A -> A) (l : list A) :
  (forall x, p (f x) = p x) -> filter p (map f l) = map f (filter p l).
Proof.
  intros Hp. induction l as [|a l IH]; simpl; [reflexivity|].
  rewrite Hp. destruct (p a); simpl; now rewrite IH.
Qed.

Lemma reviewer_ids_length_reassigned (pid' pid old new : string) (s : Store) :
  length (reviewer_ids pid' (reassigned_store pid old new s))
  = length (reviewer_ids pid' s).
Proof.
  unfold reviewer_ids. cbn [reassigned_store pullrequestreviewers].
  rewrite filter_map_comm, !length_map; [reflexivity|].
  intros [p u].
  now destruct (@has_pk PullRequestReviewer.t Mapped_PullRequestReviewer (pid, old)
                 (PullRequestReviewer.mk p u)).
Qed.

Lemma find_pull_request_In (pid : string) (s : Store) (p : PullRequest.t) :
  find_pull_request pid s = Some p ->
  In p (pullrequests s) /\ PullRequest.pull_request_id p = pid.
Proof.
  unfold find_pull_request. intros E. apply hd_error_filter_In in E.
  now rewrite String.eqb_eq in E.
Qed.

Lemma find_pull_request_None (pid : string) (s : Store) :
  find_pull_request pid s = None ->
  ~ In pid (map PullRequest.pull_request_id (pullrequests s)).
Proof.
  unfold find_pull_request. intros E Hin. apply in_map_iff in Hin.
  destruct Hin as [p [Ep Hp]]. apply (hd_error_filter_None _ _ E) in Hp.
  rewrite Ep, String.eqb_refl in Hp. discriminate.
Qed.

Lemma in_upsert_keys (members : list MemberData.t) (us : list User.t)
    (uid : string) :
  In uid (map User.user_id us)
  \/ In uid (map MemberData.user_id members) ->
  In uid (map User.user_id (upsert_users members us)).
Proof.
  unfold upsert_users. rewrite map_app, upsert_keeps_keys, in_app_iff.
  intros [H|H]; [now left|].
  destruct (in_dec string_dec uid (map User.user_id us)) as [Hin|Hnin];
    [now left | right].
  apply in_map_iff in H. destruct H as [md [E Hmd]].
  apply in_map_iff. exists (member_user md). split; [exact E|].
  apply in_map. apply filter_In. split; [exact Hmd|].
  apply negb_true_iff, not_true_is_false. intros Ex. apply Hnin.
  apply existsb_exists in Ex. destruct Ex as [u [Hu Ek]].
  apply (@has_pk_true _ _ MappedLaws_User) in Ek.
  cbn [primary_key Mapped_User] in Ek. rewrite <- E, <- Ek. now apply in_map.
Qed.

Section WellFormed.
Variable s : Store.
Hypothesis FK : foreign_keys s.
Hypothesis RD : review_discipline s.

Lemma set_active_store_ok (uid : string) (b : bool) :
  foreign_keys (set_active_store uid b s)
  /\ review_discipline (set_active_store uid b s).
Proof.
  destruct FK as [F1 [F2 [F3 [F4 F5]]]].
  assert (Ku : map User.user_id (users (set_active_store uid b s))
               = map User.user_id (users s))
    by exact (proj1 (set_active_store_keys uid b s)).
  split; [|exact RD].
  unfold foreign_keys. rewrite Ku.
  cbn [set_active_store teams teammembers pullrequests pullrequestreviewers].
  repeat split; auto.
  - intros m Hm. apply in_map_iff in Hm. destruct Hm as [m0 [<- Hm0]].
    destruct (TeamMember.user_id m0 =? uid); exact (F1 m0 Hm0).
  - intros m Hm. apply in_map_iff in Hm. destruct Hm as [m0 [<- Hm0]].
    destruct (TeamMember.user_id m0 =? uid); exact (F2 m0 Hm0).
Qed.

Lemma created_team_store_ok (team_name : string)
    (members : list MemberData.t) :
  foreign_keys (created_team_store team_name members s)
  /\ review_discipline (created_team_store team_name members s).
Proof.
  destruct FK as [F1 [F2 [F3 [F4 F5]]]].
  split; [|exact RD].
  unfold foreign_keys.
  cbn [created_team_store users teams teammembers pullrequests
       pullrequestreviewers].
  repeat split.
  - intros m Hm. apply in_upsert_keys. apply in_app_iff in Hm.
    destruct Hm as [Hm|Hm]; [left; now apply F1 | right].
    apply in_map_iff in Hm. destruct Hm as [md [<- Hmd]].
    exact (in_map MemberData.user_id members md Hmd).
  - intros m Hm. rewrite map_app, in_app_iff. apply in_app_iff in Hm.
    destruct Hm as [Hm|Hm]; [left; now apply F2 | right].
    apply in_map_iff in Hm. destruct Hm as [md [<- Hmd]]. now left.
  - intros p Hp. apply in_upsert_keys. left. now apply F3.
  - exact F4.
  - intros r Hr. apply in_upsert_keys. left. now apply F5.
Qed.

Lemma merged_store_ok (pid : string) :
  foreign_keys (merged_store pid s) /\ review_discipline (merged_store pid s).
Proof.
  destruct FK as [F1 [F2 [F3 [F4 F5]]]]. destruct RD as [R1 R2].
  assert (Hp : forall p', In p' (pullrequests (merged_store pid s)) ->
            exists p, In p (pullrequests s)
                      /\ PullRequest.pull_request_id p'
                         = PullRequest.pull_request_id p
                      /\ PullRequest.author_id p' = PullRequest.author_id p).
  { cbn [merged_store pullrequests]. intros p' Hp'.
    apply in_map_iff in Hp'. destruct Hp' as [p [<- Hp]]. exists p.
    destruct (PullRequest.pull_request_id p =? pid); auto. }
  split; [|split; [|exact R2]].
  - unfold foreign_keys. repeat split; auto.
    + intros p' Hp'. destruct (Hp p' Hp') as [p [Hin [_ Ea]]].
      rewrite Ea. now apply F3.
    + intros r Hr. cbn [merged_store pullrequests]. rewrite map_map.
      replace (map _ (pullrequests s))
        with (map PullRequest.pull_request_id (pullrequests s));
        [now apply F4|].
      apply map_ext. intros p.
      now destruct (PullRequest.pull_request_id p =? pid).
  - intros r p' Hr Hp' E. destruct (Hp p' Hp') as [p [Hin [Ei Ea]]].
    rewrite Ea. apply (R1 r p Hr Hin). congruence.
Qed.

Lemma created_pull_request_ok (pid name author : string)
    (pot : list TeamMember.t) :
  find_pull_request pid s = None ->
  In author (map User.user_id (users s)) ->
  (forall m, In m pot -> In m (teammembers s)
                         /\ TeamMember.user_id m <> author) ->
  length pot <= 2 ->
  let s' := mkStore (users s) (teams s) (teammembers s)
              (pullrequests s ++ [PullRequest.mk pid name author OPEN])
              (pullrequestreviewers s
                 ++ map (fun r => PullRequestReviewer.mk pid
                                    (TeamMember.user_id r)) pot) in
  foreign_keys s' /\ review_discipline s'.
Proof.
  intros Ep Ha Hpot Hlen s'.
  destruct FK as [F1 [F2 [F3 [F4 F5]]]]. destruct RD as [R1 R2].
  apply find_pull_request_None in Ep.
  assert (Hnew : forall r, In r (map (fun r => PullRequestReviewer.mk pid
                                        (TeamMember.user_id r)) pot) ->
            PullRequestReviewer.pull_request_id r = pid
            /\ PullRequestReviewer.user_id r <> author
            /\ In (PullRequestReviewer.user_id r) (map User.user_id (users s))).
  { intros r Hr. apply in_map_iff in Hr. destruct Hr as [m [<- Hm]].
    destruct (Hpot m Hm) as [Hin N].
    split; [reflexivity|]. split; [exact N | exact (F1 m Hin)]. }
  assert (Hold : forall r, In r (pullrequestreviewers s) ->
            PullRequestReviewer.pull_request_id r <> pid).
  { intros r Hr E. apply Ep. rewrite <- E. now apply F4. }
  subst s'. split; [|split].
  - unfold foreign_keys.
    cbn [users teams teammembers pullrequests pullrequestreviewers].
    repeat split; auto.
    + intros p Hp. apply in_app_iff in Hp.
      destruct Hp as [Hp|[<-|[]]]; [now apply F3 | exact Ha].
    + intros r Hr. rewrite map_app, in_app_iff. apply in_app_iff in Hr.
      destruct Hr as [Hr|Hr]; [left; now apply F4 | right].
      destruct (Hnew r Hr) as [-> _]. now left.
    + intros r Hr. apply in_app_iff in Hr.
      destruct Hr as [Hr|Hr]; [now apply F5 | apply (Hnew r Hr)].
  - cbn [pullrequests pullrequestreviewers]. intros r p Hr Hp E.
    apply in_app_iff in Hr. apply in_app_iff in Hp.
    destruct Hr as [Hr|Hr], Hp as [Hp|[<-|[]]].
    + now apply (R1 r p).
    + exfalso. apply (Hold r Hr). now rewrite <- E.
    + exfalso. apply Ep. destruct (Hnew r Hr) as [Er _].
      rewrite <- Er, <- E. now apply in_map.
    + cbn [PullRequest.author_id]. intros Ea.
      destruct (Hnew r Hr) as [_ [N _]]. now apply N.
  - intros pid'. unfold reviewer_ids. cbn [pullrequestreviewers].
    rewrite filter_app, map_app, length_app, !length_map.
    destruct (String.eqb_spec pid' pid) as [->|N].
    + replace (filter _ (pullrequestreviewers s))
        with (@nil PullRequestReviewer.t).
      * cbn [length plus].
        eapply Nat.le_trans; [apply filter_length_le|].
        now rewrite length_map.
      * symmetry. apply filter_none. intros r Hr.
        apply String.eqb_neq. now apply Hold.
    + replace (filter _ (map _ pot)) with (@nil PullRequestReviewer.t).
      * rewrite Nat.add_0_r. specialize (R2 pid'). unfold reviewer_ids in R2.
        now rewrite length_map in R2.
      * symmetry. apply filter_none. intros r Hr.
        destruct (Hnew r Hr) as [-> _]. apply String.eqb_neq. congruence.
Qed.

Lemma reassigned_store_ok (pid old : string) (pr : PullRequest.t)
    (cand : TeamMember.t) :
  unique_pk (pullrequests s) ->
  find_pull_request pid s = Some pr ->
  In cand (teammembers s) ->
  TeamMember.user_id cand <> PullRequest.author_id pr ->
  foreign_keys (reassigned_store pid old (TeamMember.user_id cand) s)
  /\ review_discipline (reassigned_store pid old (TeamMember.user_id cand) s).
Proof.
  intros U Ep Hc Na.
  destruct FK as [F1 [F2 [F3 [F4 F5]]]]. destruct RD as [R1 R2].
  apply find_pull_request_In in Ep. destruct Ep as [Hpr Eid].
  assert (Hr : forall r', In r' (pullrequestreviewers
                 (reassigned_store pid old (TeamMember.user_id cand) s)) ->
            exists r, In r (pullrequestreviewers s)
              /\ PullRequestReviewer.pull_request_id r'
                 = PullRequestReviewer.pull_request_id r
              /\ (r' = r
                  \/ (PullRequestReviewer.pull_request_id r = pid
                      /\ PullRequestReviewer.user_id r'
                         = TeamMember.user_id cand))).
  { cbn [reassigned_store pullrequestreviewers]. intros r' Hr'.
    apply in_map_iff in Hr'. destruct Hr' as [r [<- Hr]]. exists r.
    destruct (@has_pk PullRequestReviewer.t Mapped_PullRequestReviewer (pid, old) r) eqn:K; [|auto].
    apply (@has_pk_true _ _ MappedLaws_PullRequestReviewer) in K. cbn [primary_key Mapped_PullRequestReviewer] in K.
    injection K as K1 K2. repeat split; auto. }
  split; [|split].
  - unfold foreign_keys. repeat split; auto.
    + intros r' Hr'. destruct (Hr r' Hr') as [r [Hin [E _]]].
      cbn [reassigned_store pullrequests]. rewrite E. now apply F4.
    + intros r' Hr'. destruct (Hr r' Hr') as [r [Hin [_ [->|[_ ->]]]]].
      * now apply F5.
      * now apply F1.
  - intros r' p Hr' Hp E. destruct (Hr r' Hr') as [r [Hin [Er [->|[Ek Eu]]]]].
    + now apply (R1 r p).
    + rewrite Eu. cbn [reassigned_store pullrequests] in Hp.
      assert (p = pr) as ->.
      { apply (NoDup_map_eq PullRequest.pull_request_id (pullrequests s));
          auto. congruence. }
      auto.
  - intros pid'. rewrite reviewer_ids_length_reassigned. apply R2.
Qed.
End WellFormed.

Lemma create_team_outcome (team_name : string) (members : list MemberData.t)
    (s : Store) :
  (exists code,
     request (create_team_with_members (TeamCreate.mk team_name members)) s
     = (s, Return (Failure code)))
  \/ request (create_team_with_members (TeamCreate.mk team_name members)) s
     = (created_team_store team_name members s,
        Return (Success (TeamOut.mk team_name
                           (map (member_row team_name) members)))).
Proof.
  destruct (request (create_team_with_members
                       (TeamCreate.mk team_name members)) s)
    as [s' o] eqn:E.
  pose proof E as E'. rewrite create_team_with_members_run in E'.
  destruct (hd_error _); [left; eexists; symmetry; exact E'|].
  destruct (flush_store _ _); [|left; eexists; symmetry; exact E'].
  right. injection E' as <- <-. apply create_team_success_inv in E.
  destruct E as [_ [_ [-> _]]]. reflexivity.
Qed.

Lemma create_pull_request_outcome (pid name author : string) (s : Store) :
  (exists code,
     request (create_pull_request_with_reviewers
                (PRCreate.mk pid name author)) s
     = (s, Return (Failure code)))
  \/ (exists s' out,
        request (create_pull_request_with_reviewers
                   (PRCreate.mk pid name author)) s
        = (s', Return (Success out))).
Proof.
  destruct (request (create_pull_request_with_reviewers
                       (PRCreate.mk pid name author)) s) as [s' o] eqn:E.
  rewrite create_pull_request_run in E.
  destruct (hd_error _); [left; eexists; symmetry; exact E|].
  destruct (hd_error (filter _ (users s)));
    [|left; eexists; symmetry; exact E].
  destruct (first_membership _ s);
    [|left; eexists; symmetry; exact E].
  cbv zeta in E. destruct (flush_table _ _ _);
    [right; eexists _, _; symmetry; exact E
    |left; eexists; symmetry; exact E].
Qed.

Lemma reassign_outcome (pid old : string) (s : Store) :
  (exists code,
     request (reassign_pull_request_reviewer (PRReassign.mk pid old)) s
     = (s, Return (Failure code)))
  \/ (exists s' out,
        request (reassign_pull_request_reviewer (PRReassign.mk pid old)) s
        = (s', Return (Success out))).
Proof.
  destruct (request (reassign_pull_request_reviewer
                       (PRReassign.mk pid old)) s) as [s' o] eqn:E.
  rewrite reassign_pull_request_reviewer_run in E.
  destruct (find_pull_request pid s); [|left; eexists; symmetry; exact E].
  destruct (PRStatus_.eqb _ _); [left; eexists; symmetry; exact E|].
  destruct (hd_error _); [|left; eexists; symmetry; exact E].
  destruct (first_membership _ s);
    [|left; eexists; symmetry; exact E].
  destruct (find_candidate _ _ _ _);
    [right; eexists _, _; symmetry; exact E
    |left; eexists; symmetry; exact E].
Qed.

(** X15. The operations keep the store well formed although SQLite checks
    none of it: from a store with unique keys whose foreign keys resolve, in
    which nobody reviews a pull request of their own and no pull request has
    more than two reviewers, every operation of interaction.py, whatever its
    input and its answer, leads to such a store again. *)
Theorem operations_keep_well_formed (s : Store) :
  well_formed s ->
  (forall d, well_formed (fst (request (create_team_with_members d) s)))
  /\ (forall n, well_formed (fst (request (get_team_with_members n) s)))
  /\ (forall d, well_formed (fst (request (set_user_active_flag d) s)))
  /\ (forall d, well_formed
         (fst (request (create_pull_request_with_reviewers d) s)))
  /\ (forall now d, well_formed (fst (request (merge_pull_request now d) s)))
  /\ (forall u, well_formed
         (fst (request (get_user_review_pull_requests u) s)))
  /\ (forall d, well_formed
         (fst (request (reassign_pull_request_reviewer d) s))).
Proof.
  intros W. pose proof W as [U [FK RD]].
  pose proof operations_keep_keys as [K1 [K2 [K3 [K4 [K5 [K6 K7]]]]]].
  refine (conj _ (conj _ (conj _ (conj _ (conj _ (conj _ _)))))).
  - intros [team members].
    split; [apply request_keeps_keys; [apply K1 | exact U]|].
    destruct (create_team_outcome team members s) as [[code ->]| ->];
      [exact (conj FK RD) | now apply created_team_store_ok].
  - intros n. now rewrite request_get_team.
  - intros [uid b].
    split; [apply request_keeps_keys; [apply K3 | exact U]|].
    rewrite set_user_active_flag_run.
    destruct (hd_error _); [now apply set_active_store_ok | exact (conj FK RD)].
  - intros [pid name author].
    split; [apply request_keeps_keys; [apply K4 | exact U]|].
    destruct (create_pull_request_outcome pid name author s)
      as [[code ->]|[s' [out E]]]; [exact (conj FK RD)|].
    rewrite E. cbn [fst]. apply create_success_inv in E.
    destruct E as [Ep [[u [Hu [Eu _]]] [atm [pot [_ [Epot [_ ->]]]]]]].
    apply created_pull_request_ok; auto.
    + rewrite <- Eu. now apply in_map.
    + intros m Hm. subst pot. apply In_firstn in Hm.
      apply in_candidates in Hm. tauto.
    + subst pot. rewrite length_firstn. lia.
  - intros now [pid].
    split; [apply request_keeps_keys; [apply K5 | exact U]|].
    rewrite merge_pull_request_run.
    destruct (find_pull_request pid s); [|exact (conj FK RD)].
    cbn [fst]. destruct (PRStatus_.eqb _ _);
      [exact (conj FK RD) | now apply merged_store_ok].
  - intros u. now rewrite request_get_user_review.
  - intros [pid old].
    split; [apply request_keeps_keys; [apply K7 | exact U]|].
    destruct (reassign_outcome pid old s) as [[code ->]|[s' [out E]]];
      [exact (conj FK RD)|].
    rewrite E. cbn [fst]. apply reassign_success_inv in E.
    destruct E as [pr [ort [cand [Ep [_ [_ [_ [Ec [-> _]]]]]]]]].
    apply find_candidate_Some in Ec. destruct Ec as [Hc [_ [Na _]]].
    apply (reassigned_store_ok s FK RD pid old pr cand); auto.
    apply U.
Qed.

Lemma empty_store_well_formed : well_formed empty_store.
Proof.
  split; [apply empty_store_unique|]. split.
  - repeat split; intros x [].
  - split; [intros r p []|]. intros pid. simpl. lia.
Qed.

Lemma operations_keep_well_formed_witness :
  well_formed empty_store /\ well_formed payments.
Proof.
  split; [exact empty_store_well_formed|].
  pose proof (proj1 (operations_keep_well_formed empty_store
                       empty_store_well_formed)
                (TeamCreate.mk "payments"
                   [MemberData.mk "u1" "Alice" true;
                    MemberData.mk "u2" "Bob" true;
                    MemberData.mk "u3" "Charlie" true;
                    MemberData.mk "u4" "David" true])) as W1.
  pose proof (proj1 (proj2 (proj2 (proj2 (operations_keep_well_formed _ W1))))
                (PRCreate.mk "pr-1001" "Add search" "u1")) as W2.
  rewrite <- payments_is_reachable. exact W2.
Defined.

Lemma NoDup_map_filter {R K} (key : R -> K) (where_ : R -> bool)
    (tbl : list R) :
  NoDup (map key tbl) -> NoDup (map key (filter where_ tbl)).
Proof.
  induction tbl as [|a l IH]; simpl; intros ND; [constructor|].
  inversion ND as [|x l' Hx ND']; subst.
  destruct (where_ a); [|now apply IH].
  simpl. constructor; [|now apply IH].
  intros Hin. apply Hx. apply in_map_iff in Hin.
  destruct Hin as [b [E Hb]]. apply filter_In in Hb.
  rewrite <- E. apply in_map. tauto.
Qed.

Lemma NoDup_map_firstn {A B} (f : A -> B) (n : nat) (l : list A) :
  NoDup (map f l) -> NoDup (map f (firstn n l)).
Proof.
  revert n. induction l as [|a l IH]; intros [|n] ND; simpl;
    try constructor.
  - inversion ND as [|x l' Hx ND']; subst. intros Hin. apply Hx.
    apply in_map_iff in Hin. destruct Hin as [b [E Hb]].
    apply In_firstn in Hb. rewrite <- E. now apply in_map.
  - inversion ND; subst. now apply IH.
Qed.

(** The two reviewers picked at creation are two different users when the
    membership table has a unique key. *)
Lemma potential_reviewers_distinct (team author : string) (s : Store) :
  unique_pk (teammembers s) ->
  NoDup (map TeamMember.user_id (firstn 2 (candidates team author s))).
Proof.
  intros U.
  apply (NoDup_map_inv (fun u => (u, team))). rewrite map_map.
  replace (map (fun m => (TeamMember.user_id m, team))
               (firstn 2 (candidates team author s)))
    with (map (@primary_key TeamMember.t _)
              (firstn 2 (candidates team author s))).
  - apply NoDup_map_firstn. unfold candidates. now apply NoDup_map_filter.
  - apply map_ext_in. intros m Hm. apply In_firstn in Hm.
    apply in_candidates in Hm. destruct Hm as [_ [<- _]]. reflexivity.
Qed.

(** X16. On a well-formed store [create_pull_request_with_reviewers] cannot
    fail on a key: when the id is not taken, the author is an active user and
    has an active membership, the call succeeds, with two different
    reviewers when it assigns two.  INTEGRITY_ERROR is out of reach. *)
Theorem create_pull_request_succeeds (s : Store) (pid name author : string) :
  well_formed s ->
  find_pull_request pid s = None ->
  (exists u, In u (users s) /\ User.user_id u = author
             /\ User.is_active u = true) ->
  has_active_membership author s ->
  exists s' out,
    request (create_pull_request_with_reviewers
               (PRCreate.mk pid name author)) s
      = (s', Return (Success out))
    /\ NoDup (PROut.assigned_reviewers out)
    /\ find_pull_request pid s' = Some (PullRequest.mk pid name author OPEN)
    /\ reviewer_ids pid s' = PROut.assigned_reviewers out.
Proof.
  intros [U [FK RD]] Ep [u [Hu [Eu Au]]] [m [Hm [Em Am]]].
  rewrite create_pull_request_run.
  pose proof Ep as Ep0. unfold find_pull_request in Ep0. rewrite Ep0.
  destruct (hd_error_filter_found
              (fun u => (User.user_id u =? author) && is_true (User.is_active u))
              (users s) u Hu) as [a ->].
  { now rewrite Eu, Au, String.eqb_refl. }
  destruct (first_membership_found author s
              (ex_intro _ m (conj Hm (conj Em Am)))) as [atm ->].
  cbv zeta.
  pose proof (potential_reviewers_distinct (TeamMember.team_name atm) author s
                (proj1 (proj2 (proj2 U)))) as ND.
  remember (firstn 2 (candidates (TeamMember.team_name atm) author s))
    as pot eqn:Epot.
  unfold flush_table. cbn [fold_left and_then].
  rewrite fold_insert_ok.
  - eexists _, _. split; [reflexivity|].
    cbn [PROut.assigned_reviewers]. split; [exact ND|]. split.
    + now apply find_appended.
    + unfold reviewer_ids. cbn [pullrequestreviewers]. rewrite filter_app.
      replace (filter _ (pullrequestreviewers s))
        with (@nil PullRequestReviewer.t).
      * cbn [app]. clear. induction pot as [|x l IH]; [reflexivity|].
        cbn [map filter PullRequestReviewer.pull_request_id].
        rewrite String.eqb_refl. cbn [map PullRequestReviewer.user_id].
        now rewrite IH.
      * symmetry. apply filter_none. intros r Hr. apply String.eqb_neq.
        intros E. apply (find_pull_request_None _ _ Ep). rewrite <- E.
        now apply (proj1 (proj2 (proj2 (proj2 FK)))).
  - rewrite map_map.
    cbn [primary_key Mapped_PullRequestReviewer
         PullRequestReviewer.pull_request_id PullRequestReviewer.user_id].
    rewrite <- (map_map TeamMember.user_id (fun u => (pid, u))).
    apply NoDup_map_injective; [|exact ND].
    intros x y E. now injection E.
  - intros r Hr Hin. apply in_map_iff in Hr. destruct Hr as [x [<- _]].
    apply in_map_iff in Hin. destruct Hin as [r [E Hr]].
    cbn [primary_key Mapped_PullRequestReviewer
         PullRequestReviewer.pull_request_id PullRequestReviewer.user_id] in E.
    injection E as E1 E2.
    apply (find_pull_request_None _ _ Ep). rewrite <- E1.
    now apply (proj1 (proj2 (proj2 (proj2 FK)))).
Qed.

Lemma create_pull_request_succeeds_witness :
  well_formed payments
  /\ find_pull_request "pr-1002" payments = None
  /\ (exists u, In u (users payments) /\ User.user_id u = "u2"
                /\ User.is_active u = true)
  /\ has_active_membership "u2" payments
  /\ exists s' out,
       request (create_pull_request_with_reviewers
                  (PRCreate.mk "pr-1002" "Fix bug" "u2")) payments
         = (s', Return (Success out))
       /\ NoDup (PROut.assigned_reviewers out)
       /\ find_pull_request "pr-1002" s'
          = Some (PullRequest.mk "pr-1002" "Fix bug" "u2" OPEN)
       /\ reviewer_ids "pr-1002" s' = PROut.assigned_reviewers out.
Proof.
  assert (W : well_formed payments).
  { split; [exact payments_unique|]. split.
    - repeat split; simpl; intros x Hx;
        repeat (destruct Hx as [<-|Hx]; [simpl; tauto|]); destruct Hx.
    - split.
      + simpl. intros r p Hr Hp.
        repeat (destruct Hr as [<-|Hr]; [|]); try destruct Hr;
          repeat (destruct Hp as [<-|Hp]; [|]); try destruct Hp;
          simpl; intros _; discriminate.
      + intros pid. unfold reviewer_ids. rewrite length_map.
        eapply Nat.le_trans; [apply filter_length_le|]. simpl. lia. }
  assert (Hu : exists u, In u (users payments) /\ User.user_id u = "u2"
                         /\ User.is_active u = true).
  { exists (User.mk "u2" "Bob" true). simpl. auto. }
  assert (Hm : has_active_membership "u2" payments).
  { exists (TeamMember.mk "u2" "payments" "Bob" true). simpl. auto. }
  split; [exact W|]. split; [reflexivity|]. split; [exact Hu|].
  split; [exact Hm|].
  exact (create_pull_request_succeeds payments "pr-1002" "Fix bug" "u2"
           W eq_refl Hu Hm).
Defined.

(* ================================================================== *)
(** * get_stats *)
(* ================================================================== *)

Lemma filter_all {A} (l : list A) : filter (fun _ => true) l = l.
Proof. induction l as [|a l IH]; simpl; congruence. Qed.

Lemma run_count {A} (c d : Store) (w : list Write) (R : Type) `{Table R}
    (p : R -> bool) (k : nat -> Tx A) :
  bind (count (query R p)) k (mkSession false c d w)
  = k (length (filter p (rows d))) (mkSession false c d w).
Proof.
  unfold count. rewrite bind_assoc, run_query, run_ret_bind.
  now rewrite length_map.
Qed.

Lemma run_assignment_counts {A} (c d : Store) (w : list Write)
    (k : list (string * nat) -> Tx A) :
  bind (all query_assignment_counts) k (mkSession false c d w)
  = k (let ids := map PullRequestReviewer.user_id (pullrequestreviewers d) in
       map (fun u => (u, length (filter (String.eqb u) ids)))
           (sort_by String.leb (distinct ids)))
      (mkSession false c d w).
Proof. reflexivity. Qed.

Lemma get_stats_run (s : Store) :
  get_stats (SessionLocal s)
  = (SessionLocal s,
     Return (Success (Stats.mk
       (length (users s)) (length (teams s)) (length (pullrequests s))
       (length (filter (fun p => PRStatus_.eqb (PullRequest.status p) OPEN)
                       (pullrequests s)))
       (length (filter (fun p => PRStatus_.eqb (PullRequest.status p) MERGED)
                       (pullrequests s)))
       (let ids := map PullRequestReviewer.user_id (pullrequestreviewers s) in
        map (fun u => (u, length (filter (String.eqb u) ids)))
            (sort_by String.leb (distinct ids)))))).
Proof.
  unfold get_stats, try_except, SessionLocal.
  rewrite !run_count, run_assignment_counts.
  cbn [rows Table_User Table_Team Table_PullRequest].
  now rewrite !filter_all.
Qed.

Lemma in_distinct (x : string) (l : list string) :
  In x (distinct l) <-> In x l.
Proof.
  induction l as [|a l IH]; simpl; [tauto|].
  rewrite filter_In, IH, negb_true_iff, String.eqb_neq.
  destruct (string_dec a x); intuition congruence.
Qed.

Lemma NoDup_distinct (l : list string) : NoDup (distinct l).
Proof.
  induction l as [|a l IH]; simpl; constructor.
  - rewrite filter_In, String.eqb_refl. simpl. intuition discriminate.
  - now apply NoDup_filter.
Qed.

(** The groups of a GROUP BY: each value once, in order. *)
Lemma in_groups (x : string) (l : list string) :
  In x (sort_by String.leb (distinct l)) <-> In x l.
Proof. now rewrite in_sort_by, in_distinct. Qed.

Lemma NoDup_groups (l : list string) :
  NoDup (sort_by String.leb (distinct l)).
Proof.
  apply (Permutation_NoDup (Permutation_sym (sort_by_perm _ _))).
  apply NoDup_distinct.
Qed.

Lemma sum_indicator (a : string) (ks : list string) :
  NoDup ks -> In a ks ->
  list_sum (map (fun u => if u =? a then 1 else 0) ks) = 1.
Proof.
  induction ks as [|k ks IH]; intros ND Hin; [destruct Hin|].
  inversion ND as [|x l Hx ND']; subst. simpl.
  destruct (String.eqb_spec k a) as [->|N].
  - f_equal. clear IH Hin ND. induction ks as [|k ks IH]; [reflexivity|].
    simpl. destruct (String.eqb_spec k a) as [->|N].
    + exfalso. apply Hx. now left.
    + apply IH; [|now inversion ND'].
      intros H. apply Hx. now right.
  - destruct Hin as [->|Hin]; [contradiction | now apply IH].
Qed.

Lemma count_positive (u : string) (l : list string) :
  In u l -> 1 <= length (filter (String.eqb u) l).
Proof.
  induction l as [|a l IH]; intros Hu; [destruct Hu|].
  cbn [filter]. destruct (String.eqb_spec u a) as [->|N];
    [cbn [length]; lia|].
  apply IH. destruct Hu as [->|Hu]; [contradiction | exact Hu].
Qed.

(** The counts of the groups add up to the number of rows. *)
Lemma sum_group_counts (ks l : list string) :
  NoDup ks -> (forall x, In x l -> In x ks) ->
  list_sum (map (fun u => length (filter (String.eqb u) l)) ks) = length l.
Proof.
  intros ND. induction l as [|a l IH]; intros Hl.
  - simpl. clear. induction ks as [|k ks IHk]; [reflexivity|].
    simpl. exact IHk.
  - cbn [length]. rewrite <- IH by (intros x Hx; apply Hl; now right).
    pose proof (sum_indicator a ks ND (Hl a (or_introl eq_refl))) as One.
    transitivity
      (list_sum (map (fun u => if u =? a then 1 else 0) ks)
       + list_sum (map (fun u => length (filter (String.eqb u) l)) ks));
      [|rewrite One; reflexivity].
    clear. induction ks as [|k ks IHk]; [reflexivity|].
    rewrite !map_cons.
    assert (C : forall x l, list_sum (x :: l) = x + list_sum l)
      by reflexivity.
    rewrite !C, IHk. cbn [filter].
    destruct (k =? a); cbn [length]; lia.
Qed.

(** X17. [get_stats] only reads and its numbers agree with each other: the
    open and the merged pull requests add up to the total; the assignment
    list has one entry per user who reviews something, with the number of
    that user's reviewer rows, at least 1; and these numbers add up to the
    number of reviewer rows. *)
Theorem stats_are_consistent (s : Store) :
  exists st,
    request get_stats s = (s, Return (Success st))
    /\ Stats.total_users st = length (users s)
    /\ Stats.total_teams st = length (teams s)
    /\ Stats.total_prs st = length (pullrequests s)
    /\ Stats.total_prs st = Stats.open_prs st + Stats.merged_prs st
    /\ NoDup (map fst (Stats.user_assignments st))
    /\ (forall u, In u (map fst (Stats.user_assignments st))
                  <-> exists r, In r (pullrequestreviewers s)
                                /\ PullRequestReviewer.user_id r = u)
    /\ (forall u n, In (u, n) (Stats.user_assignments st) ->
          1 <= n
          /\ n = length (filter (fun r => PullRequestReviewer.user_id r =? u)
                                (pullrequestreviewers s)))
    /\ list_sum (map snd (Stats.user_assignments st))
       = length (pullrequestreviewers s).
Proof.
  unfold request. rewrite get_stats_run. eexists. split; [reflexivity|].
  cbn [Stats.total_users Stats.total_teams Stats.total_prs Stats.open_prs
       Stats.merged_prs Stats.user_assignments].
  set (ids := map PullRequestReviewer.user_id (pullrequestreviewers s)).
  cbv zeta.
  assert (Hcount : forall u,
            length (filter (String.eqb u) ids)
            = length (filter (fun r => PullRequestReviewer.user_id r =? u)
                             (pullrequestreviewers s))).
  { intros u. subst ids. induction (pullrequestreviewers s) as [|r l IH];
      [reflexivity|].
    cbn [map filter]. rewrite (String.eqb_sym u).
    destruct (PullRequestReviewer.user_id r =? u); cbn [length]; now rewrite IH. }
  split; [reflexivity|]. split; [reflexivity|]. split; [reflexivity|].
  split; [|split; [|split; [|split]]].
  - induction (pullrequests s) as [|p l IH]; [reflexivity|].
    cbn [filter length]. destruct (PullRequest.status p); cbn [PRStatus_.eqb length];
      lia.
  - rewrite map_map. cbn [fst]. rewrite map_id. apply NoDup_groups.
  - intros u. rewrite map_map. cbn [fst]. rewrite map_id, in_groups.
    subst ids. rewrite in_map_iff. split.
    + intros [r [E Hr]]. now exists r.
    + intros [r [Hr E]]. now exists r.
  - intros u n H. apply in_map_iff in H. destruct H as [u' [E Hu']].
    injection E as -> <-. apply (proj1 (in_groups _ _)) in Hu'.
    split; [now apply count_positive | apply Hcount].
  - rewrite map_map. cbn [snd].
    rewrite (sum_group_counts (sort_by String.leb (distinct ids)) ids).
    + subst ids. apply length_map.
    + apply NoDup_groups.
    + intros x Hx. now apply in_groups.
Qed.

(* ================================================================== *)
(** * The routes of endpoint.py *)
(* ================================================================== *)

(** A route runs an operation and then only looks at its response. *)
Lemma request_route {A B} (op : Tx A) (k : A -> Tx B) (s s' : Store)
    (r : A) (b : B) :
  request op s = (s', Return r) ->
  (forall db, k r db = (db, Return b)) ->
  request (bind op k) s = (s', Return b).
Proof.
  unfold request, bind. destruct (op (SessionLocal s)) as [db o].
  intros E Hk. apply pair_equal_spec in E. destruct E as [<- ->].
  now rewrite Hk.
Qed.

Lemma payments_well_formed : well_formed payments.
Proof.
  split; [exact payments_unique|]. split.
  - repeat split; simpl; intros x Hx;
      repeat (destruct Hx as [<-|Hx]; [simpl; tauto|]); destruct Hx.
  - split.
    + simpl. intros r p Hr Hp.
      repeat (destruct Hr as [<-|Hr]; [|]); try destruct Hr;
        repeat (destruct Hp as [<-|Hp]; [|]); try destruct Hp;
        simpl; intros _; discriminate.
    + intros pid. unfold reviewer_ids. rewrite length_map.
      eapply Nat.le_trans; [apply filter_length_le|]. simpl. lia.
Qed.

(** Whether a lookup by key finds a row. *)
Lemma hd_error_filter_key {A} (key : A -> string) (k : string) (l : list A) :
  match hd_error (filter (fun x => key x =? k) l) with
  | Some _ => In k (map key l)
  | None => ~ In k (map key l)
  end.
Proof.
  destruct (hd_error _) as [x|] eqn:E.
  - apply hd_error_filter_In in E. destruct E as [Hx E].
    apply String.eqb_eq in E. rewrite <- E. now apply in_map.
  - intros Hin. apply in_map_iff in Hin. destruct Hin as [x [E' Hx]].
    apply (hd_error_filter_None _ _ E) in Hx.
    rewrite E', String.eqb_refl in Hx. discriminate.
Qed.

Lemma flush_reviewers_ok (s : Store) (pid : string) (pot : list TeamMember.t) :
  find_pull_request pid s = None ->
  (forall r, In r (pullrequestreviewers s) ->
     In (PullRequestReviewer.pull_request_id r)
        (map PullRequest.pull_request_id (pullrequests s))) ->
  NoDup (map TeamMember.user_id pot) ->
  flush_table []
    (map (fun r => PullRequestReviewer.mk pid (TeamMember.user_id r)) pot)
    (pullrequestreviewers s)
  = Some (pullrequestreviewers s
          ++ map (fun r => PullRequestReviewer.mk pid (TeamMember.user_id r))
                 pot).
Proof.
  intros Ep FK ND. unfold flush_table. cbn [fold_left and_then].
  apply fold_insert_ok.
  - rewrite map_map.
    cbn [primary_key Mapped_PullRequestReviewer
         PullRequestReviewer.pull_request_id PullRequestReviewer.user_id].
    rewrite <- (map_map TeamMember.user_id (fun u => (pid, u))).
    apply NoDup_map_injective; [|exact ND].
    intros x y E. now injection E.
  - intros r Hr Hin. apply in_map_iff in Hr. destruct Hr as [x [<- _]].
    apply in_map_iff in Hin. destruct Hin as [r [E Hr]].
    cbn [primary_key Mapped_PullRequestReviewer
         PullRequestReviewer.pull_request_id PullRequestReviewer.user_id] in E.
    injection E as E1 E2.
    apply (find_pull_request_None _ _ Ep). rewrite <- E1.
    now apply FK.
Qed.

(** X18. The answers of POST /team/add on a store in which every membership
    row names a team that exists: 400 TEAM_EXISTS when the name is taken,
    whatever the members; for a new name, 500 INTEGRITY_ERROR when two
    members of the request share a user id, and 201 with the team written
    otherwise.  The two errors leave the store as it was. *)
Theorem create_team_status (s : Store) (team_name : string)
    (members : list MemberData.t) :
  (forall m, In m (teammembers s) ->
     In (TeamMember.team_name m) (map Team.team_name (teams s))) ->
  (In team_name (map Team.team_name (teams s)) ->
   request (create_team (TeamCreate.mk team_name members)) s
   = (s, Return (HTTPException status.HTTP_400_BAD_REQUEST TEAM_EXISTS)))
  /\ (~ In team_name (map Team.team_name (teams s)) ->
      ~ NoDup (map MemberData.user_id members) ->
      request (create_team (TeamCreate.mk team_name members)) s
      = (s, Return (HTTPException status.HTTP_500_INTERNAL_SERVER_ERROR
                                  INTEGRITY_ERROR)))
  /\ (~ In team_name (map Team.team_name (teams s)) ->
      NoDup (map MemberData.user_id members) ->
      request (create_team (TeamCreate.mk team_name members)) s
      = (created_team_store team_name members s,
         Return (Responded status.HTTP_201_CREATED
                   (Success (TeamOut.mk team_name
                               (map (member_row team_name) members)))))).
Proof.
  intros FK. pose proof (hd_error_filter_key Team.team_name team_name (teams s))
    as Hk.
  refine (conj _ (conj _ _)).
  - intros Hin. unfold create_team.
    apply (request_route _ _ _ _ (Failure TEAM_EXISTS)); [|reflexivity].
    rewrite create_team_with_members_run.
    destruct (hd_error _); [reflexivity | contradiction].
  - intros Hnew ND. unfold create_team.
    apply (request_route _ _ _ _ (Failure INTEGRITY_ERROR)); [|reflexivity].
    rewrite create_team_with_members_run.
    rewrite (team_absent_filter _ _ Hnew).
    now rewrite flush_store_duplicate_members.
  - intros Hnew ND. unfold create_team.
    apply (request_route _ _ _ _
             (Success (TeamOut.mk team_name
                         (map (member_row team_name) members))));
      [|reflexivity].
    rewrite create_team_with_members_run.
    rewrite (team_absent_filter _ _ Hnew).
    rewrite flush_member_writes_ok; [reflexivity | exact ND |].
    intros md _ Hin. cbn [with_team teammembers] in Hin.
    apply in_map_iff in Hin. destruct Hin as [m [E Hin]].
    apply Hnew. cbn [primary_key Mapped_TeamMember] in E.
    injection E as _ <-. now apply FK.
Qed.

Lemma create_team_status_witness :
  (forall m, In m (teammembers payments) ->
     In (TeamMember.team_name m) (map Team.team_name (teams payments)))
  /\ request (create_team
                (TeamCreate.mk "search"
                   [MemberData.mk "u7" "Eve" true;
                    MemberData.mk "u7" "Eve" true])) payments
     = (payments,
        Return (HTTPException status.HTTP_500_INTERNAL_SERVER_ERROR
                              INTEGRITY_ERROR)).
Proof.
  assert (FK : forall m, In m (teammembers payments) ->
                 In (TeamMember.team_name m)
                    (map Team.team_name (teams payments))).
  { simpl. intros m Hm.
    repeat (destruct Hm as [<-|Hm]; [simpl; tauto|]). destruct Hm. }
  split; [exact FK|].
  apply (proj1 (proj2 (create_team_status payments "search"
                         [MemberData.mk "u7" "Eve" true;
                          MemberData.mk "u7" "Eve" true] FK))).
  - simpl. intros [E|[]]. discriminate E.
  - simpl. intros ND. inversion ND as [|x l Hx _]. apply Hx. now left.
Defined.

(** X19. The answers of POST /pullRequest/create on a well-formed store, in
    the order of the checks: 409 PR_EXISTS when the id is taken, whoever the
    author is; otherwise 404 AUTHOR_NOT_FOUND when no user row of the author
    is active; otherwise 404 TEAM_NOT_FOUND when no membership row of the
    author is active; otherwise 201.  The route never answers 500 here, and
    the errors leave the store as it was. *)
Theorem create_pull_request_status (s : Store) (pid name author : string) :
  well_formed s ->
  (forall pr, find_pull_request pid s = Some pr ->
     request (create_pull_request (PRCreate.mk pid name author)) s
     = (s, Return (HTTPException status.HTTP_409_CONFLICT PR_EXISTS)))
  /\ (find_pull_request pid s = None ->
      (forall u, In u (users s) -> User.user_id u = author ->
                 User.is_active u = false) ->
      request (create_pull_request (PRCreate.mk pid name author)) s
      = (s, Return (HTTPException status.HTTP_404_NOT_FOUND AUTHOR_NOT_FOUND)))
  /\ (find_pull_request pid s = None ->
      (exists u, In u (users s) /\ User.user_id u = author
                 /\ User.is_active u = true) ->
      ~ has_active_membership author s ->
      request (create_pull_request (PRCreate.mk pid name author)) s
      = (s, Return (HTTPException status.HTTP_404_NOT_FOUND TEAM_NOT_FOUND)))
  /\ (find_pull_request pid s = None ->
      (exists u, In u (users s) /\ User.user_id u = author
                 /\ User.is_active u = true) ->
      has_active_membership author s ->
      exists s' out,
        request (create_pull_request (PRCreate.mk pid name author)) s
        = (s', Return (Responded status.HTTP_201_CREATED (Success out)))
        /\ find_pull_request pid s'
           = Some (PullRequest.mk pid name author OPEN)).
Proof.
  intros [U [FK RD]].
  assert (Hauthor : forall u, In u (users s) -> User.user_id u = author ->
                      User.is_active u = true ->
                      exists a, hd_error
                        (filter (fun u => (User.user_id u =? author)
                                          && is_true (User.is_active u))
                                (users s)) = Some a).
  { intros u Hu Eu Au. apply (hd_error_filter_found _ _ u Hu).
    now rewrite Eu, Au, String.eqb_refl. }
  refine (conj _ (conj _ (conj _ _))).
  - intros pr Ep. unfold create_pull_request.
    apply (request_route _ _ _ _ (Failure PR_EXISTS)); [|reflexivity].
    rewrite create_pull_request_run. unfold find_pull_request in Ep.
    now rewrite Ep.
  - intros Ep Hu. unfold create_pull_request.
    apply (request_route _ _ _ _ (Failure AUTHOR_NOT_FOUND)); [|reflexivity].
    rewrite create_pull_request_run. unfold find_pull_request in Ep.
    rewrite Ep.
    destruct (hd_error (filter _ (users s))) as [a|] eqn:Ea; [|reflexivity].
    apply hd_error_filter_In in Ea. destruct Ea as [Ha Ea].
    apply andb_true_iff in Ea. destruct Ea as [Eu Eact].
    apply String.eqb_eq in Eu. apply is_true_eq in Eact.
    rewrite (Hu a Ha Eu) in Eact. discriminate.
  - intros Ep [u [Hu [Eu Au]]] Hm. unfold create_pull_request.
    apply (request_route _ _ _ _ (Failure TEAM_NOT_FOUND)); [|reflexivity].
    rewrite create_pull_request_run. unfold find_pull_request in Ep.
    rewrite Ep. destruct (Hauthor u Hu Eu Au) as [a ->].
    destruct (first_membership _ s) as [atm|] eqn:Et;
      [|reflexivity].
    exfalso. apply Hm. exists atm. now apply first_active_membership.
  - intros Ep [u [Hu [Eu Au]]] [m [Hm [Em Am]]].
    destruct (Hauthor u Hu Eu Au) as [a Ea].
    destruct (first_membership_found author s
                (ex_intro _ m (conj Hm (conj Em Am)))) as [atm Et].
    remember (firstn 2 (candidates (TeamMember.team_name atm) author s))
      as pot eqn:Epot.
    assert (E : request (create_pull_request_with_reviewers
                           (PRCreate.mk pid name author)) s
                = (mkStore (users s) (teams s) (teammembers s)
                     (pullrequests s ++ [PullRequest.mk pid name author OPEN])
                     (pullrequestreviewers s
                      ++ map (fun r => PullRequestReviewer.mk pid
                                         (TeamMember.user_id r)) pot),
                   Return (Success (PROut.mk pid name author "OPEN"
                                      (map TeamMember.user_id pot) None)))).
    { rewrite create_pull_request_run. pose proof Ep as Ep0.
      unfold find_pull_request in Ep0. rewrite Ep0, Ea, Et. cbv zeta.
      rewrite <- Epot.
      rewrite (flush_reviewers_ok s pid pot Ep
                 (proj1 (proj2 (proj2 (proj2 FK))))); [reflexivity|].
      rewrite Epot. apply potential_reviewers_distinct.
      exact (proj1 (proj2 (proj2 U))). }
    eexists _, _. split.
    + unfold create_pull_request.
      apply (request_route _ _ _ _ _ _ E). reflexivity.
    + now apply find_appended.
Qed.

Lemma create_pull_request_status_witness :
  well_formed payments
  /\ request (create_pull_request (PRCreate.mk "pr-1001" "Again" "u9"))
       payments
     = (payments, Return (HTTPException status.HTTP_409_CONFLICT PR_EXISTS)).
Proof.
  split; [exact payments_well_formed|].
  exact (proj1 (create_pull_request_status payments "pr-1001" "Again" "u9"
                  payments_well_formed)
           (PullRequest.mk "pr-1001" "Add search" "u1" OPEN) eq_refl).
Defined.

Lemma assigned (pid old : string) (s : Store) (r : PullRequestReviewer.t) :
  hd_error (filter (fun r => (PullRequestReviewer.pull_request_id r =? pid)
                             && (PullRequestReviewer.user_id r =? old))
                   (pullrequestreviewers s)) = Some r ->
  In old (reviewer_ids pid s).
Proof.
  intros E. apply hd_error_filter_In in E. destruct E as [Hr E].
  apply andb_true_iff in E. destruct E as [Ep Eo].
  apply String.eqb_eq in Eo. rewrite <- Eo. unfold reviewer_ids.
  apply in_map. apply filter_In. auto.
Qed.

(** X20. The answer of POST /pullRequest/reassign for every store, in the
    order of the checks, never a 500: 404 PR_NOT_FOUND when no pull request
    has the id; 409 PR_MERGED when the pull request is merged; for an open
    one, 409 NOT_ASSIGNED when the old user does not review it; otherwise
    404 USER_NOT_IN_TEAM when the old user has no active membership;
    otherwise, with the old user's active membership whose team name comes
    first, 409 NO_CANDIDATE when that team has no candidate, and 200 with
    the first candidate as the replacement when it has one.  Every error
    leaves the store as it was; the success rewrites the one reviewer
    row. *)
Theorem reassign_endpoint_status (s : Store) (pid old : string) :
  (find_pull_request pid s = None ->
   request (reassign_pull_request_reviewer_endpoint (PRReassign.mk pid old)) s
   = (s, Return (HTTPException status.HTTP_404_NOT_FOUND PR_NOT_FOUND)))
  /\ (forall pr,
        find_pull_request pid s = Some pr ->
        PullRequest.status pr = MERGED ->
        request (reassign_pull_request_reviewer_endpoint
                   (PRReassign.mk pid old)) s
        = (s, Return (HTTPException status.HTTP_409_CONFLICT PR_MERGED)))
  /\ (forall pr,
        find_pull_request pid s = Some pr ->
        PullRequest.status pr = OPEN ->
        ~ In old (reviewer_ids pid s) ->
        request (reassign_pull_request_reviewer_endpoint
                   (PRReassign.mk pid old)) s
        = (s, Return (HTTPException status.HTTP_409_CONFLICT NOT_ASSIGNED)))
  /\ (forall pr,
        find_pull_request pid s = Some pr ->
        PullRequest.status pr = OPEN ->
        In old (reviewer_ids pid s) ->
        ~ has_active_membership old s ->
        request (reassign_pull_request_reviewer_endpoint
                   (PRReassign.mk pid old)) s
        = (s, Return (HTTPException status.HTTP_404_NOT_FOUND
                                    USER_NOT_IN_TEAM)))
  /\ (forall pr,
        find_pull_request pid s = Some pr ->
        PullRequest.status pr = OPEN ->
        In old (reviewer_ids pid s) ->
        has_active_membership old s ->
        exists o,
          first_membership old s = Some o
          /\ match find_candidate (TeamMember.team_name o)
                                  (PullRequest.author_id pr) pid s with
             | None =>
               request (reassign_pull_request_reviewer_endpoint
                          (PRReassign.mk pid old)) s
               = (s, Return (HTTPException status.HTTP_409_CONFLICT
                                           NO_CANDIDATE))
             | Some candidate =>
               exists out,
                 request (reassign_pull_request_reviewer_endpoint
                            (PRReassign.mk pid old)) s
                 = (reassigned_store pid old (TeamMember.user_id candidate) s,
                    Return (Responded status.HTTP_200_OK (Success out)))
                 /\ ReassignOut.replaced_by out = TeamMember.user_id candidate
             end).
Proof.
  assert (Hold : In old (reviewer_ids pid s) ->
                 exists r, hd_error
                   (filter (fun r => (PullRequestReviewer.pull_request_id r
                                      =? pid)
                                     && (PullRequestReviewer.user_id r =? old))
                           (pullrequestreviewers s)) = Some r).
  { intros Hin. apply in_reviewer_ids in Hin.
    apply (hd_error_filter_found _ _ _ Hin).
    cbn [PullRequestReviewer.pull_request_id PullRequestReviewer.user_id].
    now rewrite !String.eqb_refl. }
  pose proof (reassign_pull_request_reviewer_run pid old s) as E.
  unfold reassign_pull_request_reviewer_endpoint.
  refine (conj _ (conj _ (conj _ (conj _ _)))).
  - intros Ep. rewrite Ep in E.
    apply (request_route _ _ _ _ _ _ E). reflexivity.
  - intros pr Ep Es. rewrite Ep, Es in E. cbn [PRStatus_.eqb] in E.
    apply (request_route _ _ _ _ _ _ E). reflexivity.
  - intros pr Ep Es Hn. rewrite Ep, Es in E. cbn [PRStatus_.eqb] in E.
    destruct (hd_error (filter _ (pullrequestreviewers s))) as [ora|] eqn:Eo.
    + exfalso. apply Hn. exact (assigned pid old s ora Eo).
    + apply (request_route _ _ _ _ _ _ E). reflexivity.
  - intros pr Ep Es Hin Hm. rewrite Ep, Es in E. cbn [PRStatus_.eqb] in E.
    destruct (Hold Hin) as [ora Eo]. rewrite Eo in E.
    destruct (first_membership old s) as [o|] eqn:Et.
    + exfalso. apply Hm. exists o. now apply first_membership_Some.
    + apply (request_route _ _ _ _ _ _ E). reflexivity.
  - intros pr Ep Es Hin Hm. rewrite Ep, Es in E. cbn [PRStatus_.eqb] in E.
    destruct (Hold Hin) as [ora Eo]. rewrite Eo in E.
    destruct (first_membership_found old s Hm) as [o Et]. rewrite Et in E.
    exists o. split; [exact Et|].
    destruct (find_candidate _ _ _ _) as [cand|].
    + cbv zeta in E. eexists. split.
      * apply (request_route _ _ _ _ _ _ E). reflexivity.
      * reflexivity.
    + apply (request_route _ _ _ _ _ _ E). reflexivity.
Qed.

Lemma reassign_endpoint_status_witness :
  find_pull_request "pr-1001" payments
    = Some (PullRequest.mk "pr-1001" "Add search" "u1" OPEN)
  /\ ~ In "u9" (reviewer_ids "pr-1001" payments)
  /\ request (reassign_pull_request_reviewer_endpoint
                (PRReassign.mk "pr-1001" "u9")) payments
     = (payments,
        Return (HTTPException status.HTTP_409_CONFLICT NOT_ASSIGNED)).
Proof.
  assert (N : ~ In "u9" (reviewer_ids "pr-1001" payments)).
  { simpl. intros [H|[H|[]]]; discriminate H. }
  split; [reflexivity|]. split; [exact N|].
  exact (proj1 (proj2 (proj2 (reassign_endpoint_status payments
                                "pr-1001" "u9")))
           (PullRequest.mk "pr-1001" "Add search" "u1" OPEN)
           eq_refl eq_refl N).
Defined.

(** X21. The four routes that look one row up answer 404 exactly when no
    row has the id, and 200 otherwise, never 500: GET /team/get with
    TEAM_NOT_FOUND, POST /users/setIsActive and GET /users/getReview with
    USER_NOT_FOUND, POST /pullRequest/merge with PR_NOT_FOUND.  A merge of a
    merged pull request is a 200 as well.  The two GET routes and every 404
    leave the store as it was. *)
Theorem lookup_routes_status (s : Store) :
  (forall team_name,
     (~ In team_name (map Team.team_name (teams s))
      /\ request (get_team team_name) s
         = (s, Return (HTTPException status.HTTP_404_NOT_FOUND
                                     TEAM_NOT_FOUND)))
     \/ (In team_name (map Team.team_name (teams s))
         /\ exists out,
              request (get_team team_name) s
              = (s, Return (Responded status.HTTP_200_OK (Success out)))))
  /\ (forall user_id is_active,
        (~ In user_id (map User.user_id (users s))
         /\ request (set_user_active (UserActive.mk user_id is_active)) s
            = (s, Return (HTTPException status.HTTP_404_NOT_FOUND
                                        USER_NOT_FOUND)))
        \/ (In user_id (map User.user_id (users s))
            /\ exists out,
                 request (set_user_active (UserActive.mk user_id is_active)) s
                 = (set_active_store user_id is_active s,
                    Return (Responded status.HTTP_200_OK (Success out)))))
  /\ (forall user_id,
        (~ In user_id (map User.user_id (users s))
         /\ request (get_user_review_prs user_id) s
            = (s, Return (HTTPException status.HTTP_404_NOT_FOUND
                                        USER_NOT_FOUND)))
        \/ (In user_id (map User.user_id (users s))
            /\ exists out,
                 request (get_user_review_prs user_id) s
                 = (s, Return (Responded status.HTTP_200_OK (Success out)))))
  /\ (forall now pid,
        (~ In pid (map PullRequest.pull_request_id (pullrequests s))
         /\ request (merge_pull_request_endpoint now (PRMerge.mk pid)) s
            = (s, Return (HTTPException status.HTTP_404_NOT_FOUND
                                        PR_NOT_FOUND)))
        \/ (In pid (map PullRequest.pull_request_id (pullrequests s))
            /\ exists s' out,
                 request (merge_pull_request_endpoint now (PRMerge.mk pid)) s
                 = (s', Return (Responded status.HTTP_200_OK (Success out)))
                 /\ PROut.status out = "MERGED")).
Proof.
  refine (conj _ (conj _ (conj _ _))).
  - intros team_name.
    pose proof (hd_error_filter_key Team.team_name team_name (teams s)) as Hk.
    pose proof (request_get_team team_name s) as E.
    destruct (hd_error _); [right | left]; (split; [exact Hk|]).
    + eexists. unfold get_team.
      apply (request_route _ _ _ _ _ _ E). reflexivity.
    + unfold get_team. apply (request_route _ _ _ _ _ _ E). reflexivity.
  - intros user_id is_active.
    pose proof (hd_error_filter_key User.user_id user_id (users s)) as Hk.
    pose proof (set_user_active_flag_run user_id is_active s) as E.
    destruct (hd_error _); [right | left]; (split; [exact Hk|]).
    + eexists. unfold set_user_active.
      apply (request_route _ _ _ _ _ _ E). reflexivity.
    + unfold set_user_active.
      apply (request_route _ _ _ _ _ _ E). reflexivity.
  - intros user_id.
    pose proof (hd_error_filter_key User.user_id user_id (users s)) as Hk.
    pose proof (request_get_user_review user_id s) as E.
    destruct (hd_error _); [right | left]; (split; [exact Hk|]).
    + eexists. unfold get_user_review_prs.
      apply (request_route _ _ _ _ _ _ E). reflexivity.
    + unfold get_user_review_prs.
      apply (request_route _ _ _ _ _ _ E). reflexivity.
  - intros now pid.
    pose proof (hd_error_filter_key PullRequest.pull_request_id pid
                  (pullrequests s)) as Hk.
    pose proof (merge_pull_request_run now pid s) as E.
    unfold find_pull_request in E.
    destruct (hd_error _); [right | left]; (split; [exact Hk|]).
    + eexists _, _. split.
      * unfold merge_pull_request_endpoint.
        apply (request_route _ _ _ _ _ _ E). reflexivity.
      * reflexivity.
    + unfold merge_pull_request_endpoint.
      apply (request_route _ _ _ _ _ _ E). reflexivity.
Qed.

Lemma route_answers_cleanly {A} (op : Tx (Response A))
    (k : Response A -> Tx (HTTP (Response A))) :
  (forall s,
     (exists error, request op s = (s, Return (Failure error)))
     \/ (exists s' out, request op s = (s', Return (Success out)))) ->
  (forall error, exists status_code,
     400 <= status_code
     /\ forall db, k (Failure error) db
                   = (db, Return (HTTPException status_code error))) ->
  (forall out, exists status_code,
     (status_code = status.HTTP_200_OK
      \/ status_code = status.HTTP_201_CREATED)
     /\ forall db, k (Success out) db
                   = (db, Return (Responded status_code (Success out)))) ->
  answers_cleanly (bind op k).
Proof.
  intros Hop Hf Hs s. destruct (Hop s) as [[error E]|[s' [out E]]].
  - destruct (Hf error) as [c [Hc Hk]].
    rewrite (request_route _ _ _ _ _ _ E Hk). eexists. split; [reflexivity|].
    cbn. auto.
  - destruct (Hs out) as [c [Hc Hk]].
    rewrite (request_route _ _ _ _ _ _ E Hk). eexists. split; [reflexivity|].
    exact Hc.
Qed.

Ltac raises :=
  let error := fresh "error" in
  intros error; destruct error; eexists;
  (split; [|intros ?; reflexivity]); apply Nat.leb_le; reflexivity.

Ltac responds :=
  intros ?; eexists; (split; [|intros ?; reflexivity]); auto.

(** X22. Every route of endpoint.py over an operation of interaction.py
    answers cleanly, on every store and every input: it answers, a body is
    sent only with 200 or 201 and is then a success, never a failure
    dressed as one, and an HTTPException has a status of 400 or more and
    leaves the store as it was before the request. *)
Theorem routes_answer_cleanly :
  (forall team, answers_cleanly (create_team team))
  /\ (forall team_name, answers_cleanly (get_team team_name))
  /\ (forall user_data, answers_cleanly (set_user_active user_data))
  /\ (forall pr_data, answers_cleanly (create_pull_request pr_data))
  /\ (forall now pr_data,
        answers_cleanly (merge_pull_request_endpoint now pr_data))
  /\ (forall user_id, answers_cleanly (get_user_review_prs user_id))
  /\ (forall reassign_data,
        answers_cleanly
          (reassign_pull_request_reviewer_endpoint reassign_data)).
Proof.
  refine (conj _ (conj _ (conj _ (conj _ (conj _ (conj _ _)))))).
  - intros [team_name members].
    apply route_answers_cleanly; [|raises|responds].
    intros s. destruct (create_team_outcome team_name members s) as [F|E];
      [left; exact F | right; eexists _, _; exact E].
  - intros team_name. apply route_answers_cleanly; [|raises|responds].
    intros s. rewrite request_get_team.
    destruct (hd_error _); [right | left]; repeat eexists.
  - intros [user_id is_active].
    apply route_answers_cleanly; [|raises|responds].
    intros s. rewrite set_user_active_flag_run.
    destruct (hd_error _); [right | left]; repeat eexists.
  - intros [pid name author].
    apply route_answers_cleanly; [|raises|responds].
    intros s. apply create_pull_request_outcome.
  - intros now [pid]. apply route_answers_cleanly; [|raises|responds].
    intros s. rewrite merge_pull_request_run.
    destruct (find_pull_request pid s); [right | left]; repeat eexists.
  - intros user_id. apply route_answers_cleanly; [|raises|responds].
    intros s. rewrite request_get_user_review.
    destruct (hd_error _); [right | left]; repeat eexists.
  - intros [pid old]. apply route_answers_cleanly; [|raises|responds].
    intros s. apply reassign_outcome.
Qed.

(* ================================================================== *)
(** * get_stats after a write *)
(* ================================================================== *)

Lemma request_get_stats (s : Store) :
  exists st,
    request get_stats s = (s, Return (Success st))
    /\ Stats.total_users st = length (users s)
    /\ Stats.total_teams st = length (teams s)
    /\ Stats.total_prs st = length (pullrequests s)
    /\ Stats.open_prs st
       = length (filter (fun p => PRStatus_.eqb (PullRequest.status p) OPEN)
                        (pullrequests s))
    /\ Stats.merged_prs st
       = length (filter (fun p => PRStatus_.eqb (PullRequest.status p) MERGED)
                        (pullrequests s))
    /\ Stats.user_assignments st
       = map (fun u => (u, length (filter (String.eqb u)
                                     (map PullRequestReviewer.user_id
                                          (pullrequestreviewers s)))))
             (sort_by String.leb
                (distinct (map PullRequestReviewer.user_id
                               (pullrequestreviewers s)))).
Proof.
  unfold request. rewrite get_stats_run. eexists.
  split; [reflexivity|]. repeat split.
Qed.

Lemma assignments_sum (rs : list PullRequestReviewer.t) :
  list_sum (map snd
    (map (fun u => (u, length (filter (String.eqb u)
                                 (map PullRequestReviewer.user_id rs))))
         (sort_by String.leb (distinct (map PullRequestReviewer.user_id rs)))))
  = length rs.
Proof.
  rewrite map_map. cbn [snd]. rewrite sum_group_counts.
  - apply length_map.
  - apply NoDup_groups.
  - intros x Hx. now apply in_groups.
Qed.

(** X23. The statistics follow a created pull request: after a successful
    [create_pull_request_with_reviewers], [get_stats] counts one pull
    request and one open pull request more, the same merged ones, users and
    teams; the assignment counts add up to as many more as reviewers were
    assigned, and each assigned reviewer is listed with a count of at
    least 1. *)
Theorem stats_after_create (s s' : Store) (pid name author : string)
    (out : PROut.t) :
  request (create_pull_request_with_reviewers (PRCreate.mk pid name author)) s
    = (s', Return (Success out)) ->
  exists st st',
    request get_stats s = (s, Return (Success st))
    /\ request get_stats s' = (s', Return (Success st'))
    /\ Stats.total_users st' = Stats.total_users st
    /\ Stats.total_teams st' = Stats.total_teams st
    /\ Stats.total_prs st' = S (Stats.total_prs st)
    /\ Stats.open_prs st' = S (Stats.open_prs st)
    /\ Stats.merged_prs st' = Stats.merged_prs st
    /\ list_sum (map snd (Stats.user_assignments st'))
       = list_sum (map snd (Stats.user_assignments st))
         + length (PROut.assigned_reviewers out)
    /\ forall u, In u (PROut.assigned_reviewers out) ->
         exists n, In (u, n) (Stats.user_assignments st') /\ 1 <= n.
Proof.
  intros E. apply create_success_inv in E.
  destruct E as [_ [_ [atm [pot [_ [_ [-> Es']]]]]]].
  destruct (request_get_stats s) as [st [E [U [T [P [O [M A]]]]]]].
  destruct (request_get_stats s') as [st' [E' [U' [T' [P' [O' [M' A']]]]]]].
  exists st, st'. split; [exact E|]. split; [exact E'|].
  rewrite Es' in U', T', P', O', M', A'. clear E E' Es'.
  cbn [users teams pullrequests pullrequestreviewers] in U', T', P', O', M', A'.
  rewrite U, T, P, O, M, A, U', T', P', O', M', A'.
  rewrite !filter_app, !length_app, !assignments_sum, length_app, !length_map.
  cbn [PROut.assigned_reviewers].
  cbn [filter PullRequest.status PRStatus_.eqb length].
  refine (conj eq_refl (conj eq_refl (conj _ (conj _ (conj _ (conj _ _)))))).
  - lia.
  - lia.
  - lia.
  - rewrite length_map. lia.
  - intros u Hu. eexists. split.
    + apply in_map_iff. exists u. split; [reflexivity|].
      apply in_groups. rewrite map_app, in_app_iff. right.
      rewrite map_map. exact Hu.
    + apply count_positive. rewrite map_app, in_app_iff. right.
      rewrite map_map. exact Hu.
Qed.

Lemma stats_after_create_witness :
  request (create_pull_request_with_reviewers
             (PRCreate.mk "pr-1002" "Fix bug" "u2")) payments
    = (mkStore (users payments) (teams payments) (teammembers payments)
         (pullrequests payments
          ++ [PullRequest.mk "pr-1002" "Fix bug" "u2" OPEN])
         (pullrequestreviewers payments
          ++ [PullRequestReviewer.mk "pr-1002" "u1";
              PullRequestReviewer.mk "pr-1002" "u3"]),
       Return (Success (PROut.mk "pr-1002" "Fix bug" "u2" "OPEN"
                          ["u1"; "u3"] None)))
  /\ exists st st',
       request get_stats payments = (payments, Return (Success st))
       /\ Stats.total_prs st' = S (Stats.total_prs st)
       /\ Stats.open_prs st' = S (Stats.open_prs st).
Proof.
  assert (E : request (create_pull_request_with_reviewers
                         (PRCreate.mk "pr-1002" "Fix bug" "u2")) payments
              = (mkStore (users payments) (teams payments)
                   (teammembers payments)
                   (pullrequests payments
                    ++ [PullRequest.mk "pr-1002" "Fix bug" "u2" OPEN])
                   (pullrequestreviewers payments
                    ++ [PullRequestReviewer.mk "pr-1002" "u1";
                        PullRequestReviewer.mk "pr-1002" "u3"]),
                 Return (Success (PROut.mk "pr-1002" "Fix bug" "u2" "OPEN"
                                    ["u1"; "u3"] None))))
    by (vm_compute; reflexivity).
  split; [exact E|].
  destruct (stats_after_create _ _ _ _ _ _ E)
    as [st [st' [E1 [_ [_ [_ [P [O _]]]]]]]].
  exists st, st'. auto.
Defined.

Lemma counts_after_merge (pid : string) (pr : PullRequest.t)
    (l : list PullRequest.t) :
  NoDup (map PullRequest.pull_request_id l) ->
  hd_error (filter (fun p => PullRequest.pull_request_id p =? pid) l)
    = Some pr ->
  PullRequest.status pr = OPEN ->
  let l' := map (fun p => if PullRequest.pull_request_id p =? pid
                          then PullRequest.set_status MERGED p else p) l in
  length l' = length l
  /\ length (filter (fun p => PRStatus_.eqb (PullRequest.status p) OPEN) l)
     = S (length (filter (fun p => PRStatus_.eqb (PullRequest.status p) OPEN)
                         l'))
  /\ length (filter (fun p => PRStatus_.eqb (PullRequest.status p) MERGED) l')
     = S (length (filter (fun p => PRStatus_.eqb (PullRequest.status p) MERGED)
                         l)).
Proof.
  intros ND E Ho. cbv zeta. split; [apply length_map|].
  induction l as [|p l IH]; [discriminate E|].
  inversion ND as [|x l0 Hx ND']; subst.
  cbn [map filter] in *.
  destruct (PullRequest.pull_request_id p =? pid) eqn:Ep.
  - cbn [hd_error] in E. apply Some_inj in E. subst p.
    apply String.eqb_eq in Ep.
    replace (map _ l) with l.
    + destruct pr as [i n a st]. cbn [PullRequest.status] in Ho. subst st.
      cbn [PullRequest.set_status PullRequest.status PRStatus_.eqb length].
      auto.
    + symmetry. rewrite <- (map_id l) at 2. apply map_ext_in. intros q Hq.
      destruct (String.eqb_spec (PullRequest.pull_request_id q) pid) as [Eq|];
        [|reflexivity].
      exfalso. apply Hx. rewrite Ep, <- Eq. now apply in_map.
  - destruct (IH ND' E) as [IH1 IH2].
    destruct (PullRequest.status p); cbn [PRStatus_.eqb length];
      rewrite ?IH1, ?IH2; auto.
Qed.

(** X24. The statistics follow a merge: after [merge_pull_request] on an
    open pull request of a store with a unique pull request key,
    [get_stats] counts one open pull request less and one merged more; the
    total, the users, the teams and the assignment counts are the same. *)
Theorem stats_after_merge (s : Store) (now : datetime.t) (pid : string)
    (pr : PullRequest.t) :
  unique_pk (pullrequests s) ->
  find_pull_request pid s = Some pr ->
  PullRequest.status pr = OPEN ->
  exists s' out st st',
    request (merge_pull_request now (PRMerge.mk pid)) s
      = (s', Return (Success out))
    /\ request get_stats s = (s, Return (Success st))
    /\ request get_stats s' = (s', Return (Success st'))
    /\ Stats.total_users st' = Stats.total_users st
    /\ Stats.total_teams st' = Stats.total_teams st
    /\ Stats.total_prs st' = Stats.total_prs st
    /\ Stats.open_prs st = S (Stats.open_prs st')
    /\ Stats.merged_prs st' = S (Stats.merged_prs st)
    /\ Stats.user_assignments st' = Stats.user_assignments st.
Proof.
  intros U Ep Ho.
  destruct (request_get_stats s) as [st [E [Us [T [P [O [M A]]]]]]].
  destruct (request_get_stats (merged_store pid s))
    as [st' [E' [Us' [T' [P' [O' [M' A']]]]]]].
  eexists (merged_store pid s), _, st, st'. split.
  { rewrite merge_pull_request_run, Ep, Ho. reflexivity. }
  split; [exact E|]. split; [exact E'|].
  cbn [merged_store users teams pullrequests pullrequestreviewers]
    in Us', T', P', O', M', A'.
  rewrite Us, T, P, O, M, A, Us', T', P', O', M', A'.
  destruct (counts_after_merge pid pr (pullrequests s) U Ep Ho)
    as [L [Eo Em]].
  auto 10.
Qed.

Lemma stats_after_merge_witness :
  unique_pk (pullrequests payments)
  /\ find_pull_request "pr-1001" payments
     = Some (PullRequest.mk "pr-1001" "Add search" "u1" OPEN)
  /\ exists st st',
       request get_stats payments = (payments, Return (Success st))
       /\ request get_stats payments_merged
          = (payments_merged, Return (Success st'))
       /\ Stats.open_prs st = S (Stats.open_prs st')
       /\ Stats.merged_prs st' = S (Stats.merged_prs st).
Proof.
  pose proof (proj1 (proj2 (proj2 (proj2 payments_unique)))) as U.
  split; [exact U|]. split; [reflexivity|].
  destruct (stats_after_merge payments
              (datetime.mk 2024 1 1 0 0 0 0) "pr-1001"
              (PullRequest.mk "pr-1001" "Add search" "u1" OPEN)
              U eq_refl eq_refl)
    as [s' [out [st [st' [Em [E1 [E2 [_ [_ [_ [O [M _]]]]]]]]]]]].
  rewrite merge_pull_request_run in Em. cbn in Em.
  apply pair_equal_spec in Em. destruct Em as [<- _].
  exists st, st'. auto.
Defined.

(* ================================================================== *)
(** * One session for many calls (test.py) *)
(* ================================================================== *)

(** An operation that hands the session back as [SessionLocal] makes one,
    with nothing pending and nothing flushed that is not committed, does
    not depend on having a session of its own. *)
Lemma hands_back_session {A} (op : Tx A) :
  (forall s, exists s' r, op (SessionLocal s) = (SessionLocal s', Return r)) ->
  session_independent op.
Proof.
  intros H s. destruct (H s) as [s' [r E]]. exists r.
  unfold request, bind. rewrite E. split; reflexivity.
Qed.

Lemma create_team_with_members_session (d : TeamCreate.t) (s : Store) :
  exists s' r,
    create_team_with_members d (SessionLocal s) = (SessionLocal s', Return r).
Proof.
  destruct d as [team_name members].
  unfold SessionLocal, create_team_with_members, try_except.
  rewrite run_first. simpl. rewrite map_in_memory_nil.
  destruct (hd_error _) as [existing|] eqn:Et; [eexists _, _; reflexivity|].
  rewrite run_add, run_flush. simpl.
  rewrite flush_new_team by (now apply hd_error_filter_existsb).
  rewrite run_member_loop. simpl. rewrite run_commit.
  destruct (flush_store _ _); eexists _, _; reflexivity.
Qed.

Lemma set_user_active_flag_session (d : UserActive.t) (s : Store) :
  exists s' r,
    set_user_active_flag d (SessionLocal s) = (SessionLocal s', Return r).
Proof.
  destruct d as [uid b].
  unfold SessionLocal, set_user_active_flag, try_except.
  rewrite run_first. simpl. rewrite map_in_memory_nil.
  destruct (hd_error _) as [user|] eqn:Eu; [|eexists _, _; reflexivity].
  apply hd_error_filter_In in Eu. destruct Eu as [_ Eu].
  apply String.eqb_eq in Eu.
  rewrite run_setattr, run_all_by_key. simpl. rewrite map_in_memory_nil.
  rewrite run_for_each_setattr, run_first_by_key. simpl. rewrite run_commit.
  rewrite Eu, flush_set_active. simpl. eexists _, _; reflexivity.
Qed.

Lemma create_pull_request_session (d : PRCreate.t) (s : Store) :
  exists s' r,
    create_pull_request_with_reviewers d (SessionLocal s)
    = (SessionLocal s', Return r).
Proof.
  destruct d as [pid name author].
  unfold SessionLocal, create_pull_request_with_reviewers, try_except.
  rewrite run_first. simpl. rewrite map_in_memory_nil.
  destruct (hd_error _) as [existing|] eqn:Ep; [eexists _, _; reflexivity|].
  rewrite run_first. simpl. rewrite map_in_memory_nil.
  destruct (hd_error (filter _ (users s))) as [a|] eqn:Ea;
    [|eexists _, _; reflexivity].
  rewrite run_first_by_key. simpl. rewrite map_in_memory_nil.
  destruct (hd_error (index_order _)) as [atm|] eqn:Et;
    [|eexists _, _; reflexivity].
  rewrite run_limit. simpl. rewrite map_in_memory_nil.
  rewrite run_add, run_flush. simpl.
  rewrite flush_new_pullrequest by (now apply hd_error_filter_existsb).
  rewrite (run_for_fold_add _ _
             (fun reviewer => New_pullrequestreviewer
                (PullRequestReviewer.mk pid (TeamMember.user_id reviewer)))
             TeamMember.user_id).
  simpl. rewrite run_commit.
  destruct (flush_store _ _); eexists _, _; reflexivity.
Qed.

Lemma merge_pull_request_session (now : datetime.t) (d : PRMerge.t)
    (s : Store) :
  exists s' r,
    merge_pull_request now d (SessionLocal s) = (SessionLocal s', Return r).
Proof.
  destruct d as [pid].
  unfold SessionLocal, merge_pull_request, try_except.
  rewrite run_first. simpl. rewrite map_in_memory_nil.
  destruct (hd_error _) as [pr|] eqn:Ep; [|eexists _, _; reflexivity].
  apply hd_error_filter_In in Ep. destruct Ep as [_ Ep].
  apply String.eqb_eq in Ep.
  rewrite run_all_by_key. simpl. rewrite map_in_memory_nil.
  destruct (PRStatus_.eqb (PullRequest.status pr) MERGED).
  - simpl. eexists _, _; reflexivity.
  - rewrite run_setattr. simpl. rewrite run_commit.
    rewrite Ep, flush_merged. eexists _, _; reflexivity.
Qed.

Lemma reassign_session (d : PRReassign.t) (s : Store) :
  exists s' r,
    reassign_pull_request_reviewer d (SessionLocal s)
    = (SessionLocal s', Return r).
Proof.
  destruct d as [pid old].
  unfold SessionLocal, reassign_pull_request_reviewer, try_except.
  rewrite run_first. simpl. rewrite map_in_memory_nil.
  destruct (hd_error _) as [pr|] eqn:Ep; [|eexists _, _; reflexivity].
  destruct (PRStatus_.eqb (PullRequest.status pr) MERGED);
    [eexists _, _; reflexivity|].
  rewrite run_first. simpl. rewrite map_in_memory_nil.
  destruct (hd_error (filter _ (pullrequestreviewers s))) as [ora|] eqn:Eo;
    [|eexists _, _; reflexivity].
  rewrite run_first_by_key. simpl. rewrite map_in_memory_nil.
  destruct (hd_error (index_order _)) as [ort|] eqn:Et;
    [|eexists _, _; reflexivity].
  rewrite run_all_by_key. simpl. rewrite map_in_memory_nil.
  rewrite run_first. simpl. rewrite map_in_memory_nil.
  clear Et.
  destruct (hd_error (filter _ (teammembers s))) as [cand|] eqn:Ec;
    [|eexists _, _; reflexivity].
  rewrite run_setattr, run_all_by_key. simpl. rewrite run_commit.
  destruct (flush_store _ _); eexists _, _; reflexivity.
Qed.

(** X25. No operation depends on having a session of its own, so the one
    session test.py shares between its calls behaves as one session per
    request: each operation of interaction.py, and [get_stats], returns
    with nothing pending and nothing uncommitted on every path, and what
    runs next on the same session runs as on a new session over the store
    the operation left. *)
Theorem operations_share_a_session :
  (forall d, session_independent (create_team_with_members d))
  /\ (forall team_name, session_independent (get_team_with_members team_name))
  /\ (forall d, session_independent (set_user_active_flag d))
  /\ (forall d, session_independent (create_pull_request_with_reviewers d))
  /\ (forall now d, session_independent (merge_pull_request now d))
  /\ (forall user_id,
        session_independent (get_user_review_pull_requests user_id))
  /\ (forall d, session_independent (reassign_pull_request_reviewer d))
  /\ session_independent get_stats.
Proof.
  refine (conj _ (conj _ (conj _ (conj _ (conj _ (conj _ (conj _ _))))))).
  - intros d. apply hands_back_session. apply create_team_with_members_session.
  - intros team_name. apply hands_back_session. intros s.
    rewrite get_team_with_members_run. eexists _, _; reflexivity.
  - intros d. apply hands_back_session. apply set_user_active_flag_session.
  - intros d. apply hands_back_session. apply create_pull_request_session.
  - intros now d. apply hands_back_session. apply merge_pull_request_session.
  - intros user_id. apply hands_back_session. intros s.
    rewrite get_user_review_pull_requests_run. eexists _, _; reflexivity.
  - intros d. apply hands_back_session. apply reassign_session.
  - apply hands_back_session. intros s.
    rewrite get_stats_run. eexists _, _; reflexivity.
Qed.
